(** * EventBridge Pipes emulation (localstack services/pipes): a shallow embedding

    The development follows the Python sources under
    [localstack/services/pipes]:

    - [targets/input_transformer.py]   the input template language;
    - [pipe_event_processor.py]        decode, transform, dispatch of one batch;
    - [targets/api_destination_target.py], [targets/sqs_target.py],
      [targets/kinesis_target.py], [targets/target_factory.py]  the targets;
    - [pipe_worker_factory.py]         the worker of a pipe and its poller;
    - [models.py], [provider.py]       the pipe registry and the control plane.

    Python values are JSON trees; a [dict] keeps its insertion order, so it is
    an association list.  Strings are strings of 8-bit characters (code points
    below 256).  Mutable event records live in an explicit heap, exceptions are
    a sum type, the wall clock is an argument.  Library routines whose source
    is outside the package (base64, json, requests, the clients, the pollers
    and the threads of the workers) are the fields of type classes: every
    theorem holds for all of their implementations.  The threads of the
    workers ([pipe_worker.py]) run beside the control plane; what they write
    to the registry is a step of its own. *)

From Stdlib Require Import String Ascii ZArith List Bool Lia.
From stdpp Require Import base option gmap strings list fin_maps pretty.

Open Scope string_scope.
Open Scope list_scope.

(** ** Python values *)

(** The events of a pipe are parsed JSON: their integers are within the
    interpreter's digit limit and their nesting within its recursion limit,
    so that [str] and [json.dumps] return on them. *)
#[warnings="-register-all"]
Inductive json : Type :=
| JNull
| JBool (b : bool)
| JInt (n : Z)
| JFloat (repr : string)   (* a float, named by its [repr], which round-trips *)
| JStr (s : string)
| JArr (items : list json)
| JObj (fields : list (string * json)).

(** A [dict]: keys are unique, [d[k] = v] overwrites in place or appends. *)
Abbreviation dict := (list (string * json)).

Fixpoint dict_get (k : string) (d : dict) : option json :=
  match d with
  | [] => None
  | (k', v) :: d' => if String.eqb k k' then Some v else dict_get k d'
  end.

Definition dict_contains (k : string) (d : dict) : bool :=
  match dict_get k d with Some _ => true | None => false end.

Fixpoint dict_set (k : string) (v : json) (d : dict) : dict :=
  match d with
  | [] => [(k, v)]
  | (k', v') :: d' =>
      if String.eqb k k' then (k', v) :: d' else (k', v') :: dict_set k v d'
  end.

(** [isinstance(value, (dict, list))] *)
Definition is_dict_or_list (v : json) : bool :=
  match v with
  | JObj _ | JArr _ => true
  | _ => false
  end.

(** [str(value)] on the values that are neither dict, list nor bool. *)
Definition py_str (v : json) : string :=
  match v with
  | JNull => "None"
  | JBool true => "True"
  | JBool false => "False"
  | JInt n => pretty n
  | JFloat r => r
  | JStr s => s
  | JArr _ | JObj _ => ""   (* not reached: [replace_match] serialises these *)
  end.

(** ** Exceptions and results *)

Inductive result (E A : Type) : Type :=
| Raise (e : E)
| Return (a : A).
Arguments Raise {E A} e.
Arguments Return {E A} a.

(** The exception classes the data path tells apart.  Every value stands for
    an instance of [Exception]; a subclass of [CustomerInvocationError] counts
    as that class, as [except CustomerInvocationError] sees it. *)
Inductive exn_class : Type :=
| CustomerInvocationError
| PipeInternalError
| OtherException (class_name : string).

(** An exception: its class, [str(e)], and [__cause__]. *)
#[warnings="-register-all"]
Inductive py_exn : Type :=
| Exn (cls : exn_class) (msg : string) (cause : option py_exn).

Definition exn_cls (e : py_exn) : exn_class :=
  match e with Exn c _ _ => c end.

Definition exn_str (e : py_exn) : string :=
  match e with Exn _ m _ => m end.

Definition is_customer_invocation_error (e : py_exn) : bool :=
  match exn_cls e with
  | CustomerInvocationError => true
  | _ => false
  end.

(** [isinstance(e, json.JSONDecodeError)], by the name of the class. *)
Definition is_json_decode_error (e : py_exn) : bool :=
  match exn_cls e with
  | OtherException c => String.eqb c "JSONDecodeError"
  | _ => false
  end.

(** [ValueError] and its subclasses among the built-in exceptions and those
    of [json]. *)
Definition ValueError_classes : list string :=
  ["ValueError"; "JSONDecodeError"; "UnicodeError"; "UnicodeDecodeError";
   "UnicodeEncodeError"; "UnicodeTranslateError"].

(** [isinstance(e, (json.JSONDecodeError, ValueError))] *)
Definition is_value_error (e : py_exn) : bool :=
  match exn_cls e with
  | OtherException c => bool_decide (c ∈ ValueError_classes)
  | _ => false
  end.

(** The library routines of the data path.  For [base64.b64decode] and
    [to_str], whose callers catch every [Exception] alike, [None] stands for
    a raised exception ([binascii.Error], [UnicodeDecodeError]).
    [json.loads] returns the parsed value or raises: [JSONDecodeError] on a
    text that is no JSON, a plain [ValueError] on an integer literal beyond
    the interpreter's digit limit, [RecursionError] on nesting beyond its
    recursion limit; the handlers of the callers tell these apart. *)
Class PyLib : Type := {
  base64_b64decode : string -> option string;
  to_str : string -> option string;
  json_loads : string -> result py_exn json;
  json_dumps : json -> string;
  to_json_str : json -> string;
}.

(** ** Strings: [strip], [split], and the pattern [<(.*?)>] *)

Module Str.

Definition newline : ascii := "010"%char.

(** [str.isspace] on the code points below 256. *)
Definition isspace (c : ascii) : bool :=
  let n := nat_of_ascii c in
  (((9 <=? n) && (n <=? 13)) || ((28 <=? n) && (n <=? 32))
   || (n =? 133) || (n =? 160))%nat.

Fixpoint lstrip (s : string) : string :=
  match s with
  | String c s' => if isspace c then lstrip s' else s
  | EmptyString => EmptyString
  end.

Fixpoint rstrip (s : string) : string :=
  match s with
  | String c s' =>
      match rstrip s' with
      | EmptyString => if isspace c then EmptyString else String c EmptyString
      | r => String c r
      end
  | EmptyString => EmptyString
  end.

Definition strip (s : string) : string := rstrip (lstrip s).

Definition startswith (p s : string) : bool := String.prefix p s.

(** [s.split(sep)] for a one-character separator. *)
Fixpoint split (sep : ascii) (s : string) : list string :=
  match s with
  | EmptyString => [EmptyString]
  | String c s' =>
      if Ascii.eqb c sep then EmptyString :: split sep s'
      else match split sep s' with
           | h :: t => String c h :: t
           | [] => [String c EmptyString]
           end
  end.

Fixpoint no_char (c : ascii) (s : string) : bool :=
  match s with
  | EmptyString => true
  | String c' s' => negb (Ascii.eqb c' c) && no_char c s'
  end.

End Str.

Module Placeholder.

(** [PIPE_PLACEHOLDER_PATTERN = re.compile(r"<(.*?)>")].  A match starts at a
    ['<'] and ends at the first ['>'] after it, provided no newline comes in
    between (['.'] does not match a newline). *)

(** After a ['<']: the key up to the first ['>'] and the text after it. *)
Fixpoint find_close (s : string) : option (string * string) :=
  match s with
  | EmptyString => None
  | String c s' =>
      if Ascii.eqb c ">" then Some (EmptyString, s')
      else if Ascii.eqb c Str.newline then None
      else match find_close s' with
           | Some (k, r) => Some (String c k, r)
           | None => None
           end
  end.

Inductive segment : Type :=
| Lit (c : ascii)
| Match (key : string).

(** The leftmost non-overlapping matches, as [re.finditer] walks them, with
    the characters in between. *)
Fixpoint finditer_fuel (fuel : nat) (s : string) : list segment :=
  match fuel with
  | O => []
  | S fuel' =>
      match s with
      | EmptyString => []
      | String c s' =>
          if Ascii.eqb c "<" then
            match find_close s' with
            | Some (k, r) => Match k :: finditer_fuel fuel' r
            | None => Lit c :: finditer_fuel fuel' s'
            end
          else Lit c :: finditer_fuel fuel' s'
      end
  end.

Definition finditer (s : string) : list segment :=
  finditer_fuel (String.length s) s.

(** [pattern.findall(s)]: the group of every match. *)
Definition findall (s : string) : list string :=
  omap (fun g => match g with Match k => Some k | Lit _ => None end)
       (finditer s).

Definition segment_sub (repl : string -> string) (g : segment) : string :=
  match g with
  | Lit c => String c EmptyString
  | Match k => repl k
  end.

(** [pattern.sub(repl, s)] *)
Definition sub (repl : string -> string) (s : string) : string :=
  String.concat EmptyString (map (segment_sub repl) (finditer s)).

(** The text a segment was read from. *)
Definition segment_text (g : segment) : string :=
  match g with
  | Lit c => String c EmptyString
  | Match k => "<" +:+ k +:+ ">"
  end.

(** The body of [s] when [s] is ['<'], a body, ['>']. *)
Fixpoint body_before_gt (s : string) : option string :=
  match s with
  | EmptyString => None
  | String c EmptyString => if Ascii.eqb c ">" then Some EmptyString else None
  | String c s' =>
      match body_before_gt s' with
      | Some b => Some (String c b)
      | None => None
      end
  end.

(** [pattern.fullmatch(s)]: the lazy group stretches as far as needed, so the
    whole of [s] matches when it opens with ['<'], closes with ['>'] and has
    no newline in between; the result is [group(1)]. *)
Definition fullmatch (s : string) : option string :=
  match s with
  | String c s' =>
      if Ascii.eqb c "<" then
        match body_before_gt s' with
        | Some b => if Str.no_char Str.newline b then Some b else None
        | None => None
        end
      else None
  | EmptyString => None
  end.

End Placeholder.

(** ** targets/input_transformer.py *)

Record PipeInputTransformer : Type := {
  input_template : string;
  pipe_arn : string;
  pipe_name : string;
  source_arn : string;
  target_arn : string;
}.

Fixpoint jsonpath_walk (keys : list string) (current : json) : json :=
  match keys with
  | [] => current
  | key :: keys' =>
      match current with
      | JObj d => jsonpath_walk keys' (default (JStr "") (dict_get key d))
      | _ => JStr ""
      end
  end.

Definition _extract_jsonpath (event : dict) (path : string) : json :=
  match path with
  | String "$" (String "." rest) =>
      jsonpath_walk (Str.split "." rest) (JObj event)
  | _ => JStr ""
  end.

(** [now] is [datetime.now(UTC).isoformat()] at the time of the call. *)
Definition _build_replacements (self : PipeInputTransformer) (now : string)
    (event : dict) : gmap string json :=
  let replacements : gmap string json :=
    <["aws.pipes.event" := JObj event]>
    (<["aws.pipes.event.json" := JObj event]>
    (<["aws.pipes.event.ingestion-time" := JStr now]>
    (<["aws.pipes.target-arn" := JStr (target_arn self)]>
    (<["aws.pipes.source-arn" := JStr (source_arn self)]>
    (<["aws.pipes.pipe-name" := JStr (pipe_name self)]>
    (<["aws.pipes.pipe-arn" := JStr (pipe_arn self)]> ∅)))))) in
  foldl (fun (r : gmap string json) placeholder =>
           if Str.startswith "$." placeholder
           then <[placeholder := _extract_jsonpath event placeholder]> r
           else r)
        replacements (Placeholder.findall (input_template self)).

Section InputTransformer.
Context `{PyLib}.

(** The inner function [replace_match], on the key of the match. *)
Definition replace_match (replacements : gmap string json) (key : string)
    : string :=
  let value := default (JStr "") (replacements !! key) in
  match value with
  | JObj _ => to_json_str value
  | JArr _ => json_dumps value
  | JBool _ => json_dumps value
  | _ => py_str value
  end.

Definition _replace_placeholders (template : string)
    (replacements : gmap string json) : result py_exn json :=
  let stripped := Str.strip template in
  let single_match :=
    match Placeholder.fullmatch stripped with
    | Some key =>
        let value := default (JStr "") (replacements !! key) in
        if is_dict_or_list value then Some value else None
    | None => None
    end in
  match single_match with
  | Some value => Return value
  | None =>
      let result := Placeholder.sub (replace_match replacements) template in
      if Str.startswith "{" stripped then
        match json_loads result with
        | Return parsed => Return parsed
        | Raise e =>
            if is_json_decode_error e
            then Return (JStr result)   (* [except json.JSONDecodeError: pass] *)
            else Raise e                (* no handler: the exception leaves *)
        end
      else Return (JStr result)
  end.

Definition transform (self : PipeInputTransformer) (now : string)
    (event : dict) : result py_exn json :=
  _replace_placeholders (input_template self)
                        (_build_replacements self now event).

End InputTransformer.

(** ** pipe_event_processor.py *)

(** The abstract base class [PipeTarget]: what the processor uses of it. *)
Record PipeTarget : Type := {
  tgt_target_arn : string;
  tgt_send : list json -> result py_exn unit;
}.

Record PipeEventProcessor : Type := {
  target : PipeTarget;
  input_transformer : option PipeInputTransformer;
}.

(** Event records are mutable objects: a heap maps references to dicts.  The
    values of the fields are trees; nothing in the package writes into them. *)
Abbreviation loc := positive.
Abbreviation heap := (gmap positive (list (string * json))).

Module Heap.

Definition read (l : loc) (h : heap) : dict := default [] (h !! l).

(** A new object, as [dict(event)] makes one. *)
Definition alloc (d : dict) (h : heap) : loc * heap :=
  let l := fresh (dom h) in (l, <[l := d]> h).

(** [obj[k] = v] *)
Definition setitem (l : loc) (k : string) (v : json) (h : heap) : heap :=
  alter (dict_set k v) l h.

End Heap.

(** How the [for _ in range(3)] loop is left. *)
Inductive loop_exit : Type :=
| Parsed (value : json)      (* [event["data"] = json.loads(decoded); return] *)
| Fell (decoded : json)      (* [break], or the range is used up *)
| Raised (e : py_exn).       (* [json.loads] raised past the inner handler *)

Section EventProcessor.
Context `{PyLib}.

(** [to_str(base64.b64decode(decoded))]; a value that is not a string makes
    [b64decode] raise [TypeError]. *)
Definition b64decode_to_str (decoded : json) : option string :=
  match decoded with
  | JStr s =>
      match base64_b64decode s with
      | Some bytes => to_str bytes
      | None => None
      end
  | _ => None
  end.

Fixpoint decode_rounds (rounds : nat) (decoded : json) : loop_exit :=
  match rounds with
  | O => Fell decoded
  | S rounds' =>
      match b64decode_to_str decoded with
      | None => Fell decoded                               (* break *)
      | Some d =>
          match json_loads d with
          | Return value => Parsed value
          | Raise e =>
              if is_value_error e
              then decode_rounds rounds' (JStr d)          (* continue *)
              else Raised e
          end
      end
  end.

(** [_decode_data_field(event)]: the reference it returns and the heap after
    the call.  An exception of [json.loads] that the inner handler lets
    through reaches the outer [except Exception], which logs it: the copy is
    returned with [data] as it was. *)
Definition _decode_data_field (event : loc) (h : heap) : loc * heap :=
  let d := Heap.read event h in
  if negb (dict_contains "data" d) then (event, h)
  else
    let '(event', h1) := Heap.alloc d h in
    let raw := default JNull (dict_get "data" d) in
    match decode_rounds 3 raw with
    | Parsed value => (event', Heap.setitem event' "data" value h1)
    | Fell decoded => (event', Heap.setitem event' "data" decoded h1)
    | Raised e => (event', h1)
    end.

(** [[_decode_data_field(e) for e in input_events]] *)
Fixpoint decode_all (input_events : list loc) (h : heap) : list loc * heap :=
  match input_events with
  | [] => ([], h)
  | e :: es =>
      let '(e', h1) := _decode_data_field e h in
      let '(es', h2) := decode_all es h1 in
      (e' :: es', h2)
  end.

(** A list comprehension whose element expression may raise: the elements
    are evaluated from left to right and the first exception ends it. *)
Fixpoint comprehension {A : Type} (items : list (result py_exn A))
    : result py_exn (list A) :=
  match items with
  | [] => Return []
  | Raise e :: _ => Raise e
  | Return a :: items' =>
      match comprehension items' with
      | Raise e => Raise e
      | Return l => Return (a :: l)
      end
  end.

(** The body of the [try] of [process_events_batch].  [clock i] is the
    reading of the clock when the [i]-th event is transformed. *)
Definition process_events_body (self : PipeEventProcessor)
    (clock : nat -> string) (input_events : list loc) (h : heap)
    : result py_exn unit * heap :=
  let '(events, h') := decode_all input_events h in
  let transformed :=
    match input_transformer self with
    | Some t =>
        comprehension
          (imap (fun i e => transform t (clock i) (Heap.read e h')) events)
    | None => Return (map (fun e => JObj (Heap.read e h')) events)
    end in
  match transformed with
  | Raise e => (Raise e, h')
  | Return transformed => (tgt_send (target self) transformed, h')
  end.

Definition process_events_batch (self : PipeEventProcessor)
    (clock : nat -> string) (input_events : list loc) (h : heap)
    : result py_exn unit * heap :=
  let '(r, h') := process_events_body self clock input_events h in
  match r with
  | Return tt => (Return tt, h')
  | Raise e =>
      if is_customer_invocation_error e then (Raise e, h')
      else (Raise (Exn PipeInternalError (exn_str e) (Some e)), h')
  end.

End EventProcessor.

(** ** targets/api_destination_target.py *)

Module ApiDestination.

Abbreviation headers := (gmap string string).

Record HttpRequest : Type := {
  req_method : string;
  req_url : option string;
  req_data : string;
  req_headers : gmap string string;
}.

Record HttpResponse : Type := {
  status_code : Z;
  text : string;
}.

(** One [LOG.warning("Received code %s forwarding pipe event: ...")]. *)
Record Warning : Type := {
  warn_status : Z;
  warn_method : string;
  warn_endpoint : option string;
  warn_text : string;
}.

(** What [describe_api_destination] returns, by the keys [send] reads. *)
Record Destination : Type := {
  HttpMethod : option string;
  InvocationEndpoint : option string;
  ConnectionArn : option string;
}.

(** The services [send] talks to.  [requests_request] is given the requests
    made so far, so that the endpoint may answer each one differently.
    [_apply_connection_auth] catches every exception it meets, so it is
    total; what it adds to the headers comes from the events store and
    SecretsManager and is left open here. *)
Class Services : Type := {
  extract_region_from_arn : string -> option string;
  extract_account_id_from_arn : string -> option string;
  describe_api_destination :
    option string -> option string -> string -> result py_exn Destination;
  _apply_connection_auth : string -> headers -> headers;
  add_target_http_parameters :
    json -> option string -> headers -> result py_exn (option string * headers);
  requests_request : list HttpRequest -> HttpRequest -> result py_exn HttpResponse;
}.

Record ApiDestinationPipeTarget : Type := {
  target_arn : string;
  target_parameters : dict;
  role_arn : option string;
}.

(** Truth value of a Python value, for [if http_params:]. *)
Definition truthy (v : json) : bool :=
  match v with
  | JNull => false
  | JBool b => b
  | JInt n => negb (n =? 0)%Z
  | JFloat r => negb (String.eqb r "0.0" || String.eqb r "-0.0")
  | JStr s => negb (String.eqb s "")
  | JArr l => match l with [] => false | _ => true end
  | JObj d => match d with [] => false | _ => true end
  end.

Definition default_headers : headers :=
  <["Connection" := "close"]>
  (<["Accept-Encoding" := "gzip,deflate"]>
  (<["Range" := "bytes=0-1048575"]>
  (<["Content-Type" := "application/json; charset=utf-8"]>
  (<["User-Agent" := "Amazon/EventBridge/ApiDestinations"]> ∅)))).

(** [self.target_arn.split(":")[-1].split("/")[1]] *)
Definition api_destination_name (arn : string) : option string :=
  Str.split "/" (List.last (Str.split ":" arn) "") !! 1%nat.

Section Send.
Context `{PyLib} `{Services}.

(** The [for event in events] loop: the result, the requests made and the
    warnings logged, in order. *)
Fixpoint send_events (method : string) (endpoint : option string)
    (hd : headers) (events : list json)
    (sent : list HttpRequest) (log : list Warning)
    : result py_exn unit * list HttpRequest * list Warning :=
  match events with
  | [] => (Return tt, sent, log)
  | event :: events' =>
      let payload := to_json_str event in
      let request := {| req_method := method; req_url := endpoint;
                        req_data := payload; req_headers := hd |} in
      match requests_request sent request with
      | Raise e => (Raise e, sent ++ [request], log)
      | Return response =>
          let log' :=
            if (400 <=? status_code response)%Z then
              log ++ [{| warn_status := status_code response;
                         warn_method := method;
                         warn_endpoint := endpoint;
                         warn_text := String.substring 0 500 (text response) |}]
            else log in
          send_events method endpoint hd events' (sent ++ [request]) log'
      end
  end.

(** Everything before the loop: the method, the endpoint and the headers. *)
Definition prepare (self : ApiDestinationPipeTarget)
    : result py_exn (string * option string * headers) :=
  let target_region := extract_region_from_arn (target_arn self) in
  let target_account_id := extract_account_id_from_arn (target_arn self) in
  match api_destination_name (target_arn self) with
  | None => Raise (Exn (OtherException "IndexError") "list index out of range" None)
  | Some name =>
      match describe_api_destination target_account_id target_region name with
      | Raise e => Raise e
      | Return destination =>
          let method := default "GET" (HttpMethod destination) in
          let endpoint := InvocationEndpoint destination in
          let connection_arn := default "" (ConnectionArn destination) in
          let hd :=
            if String.eqb connection_arn "" then default_headers
            else _apply_connection_auth connection_arn default_headers in
          match dict_get "HttpParameters" (target_parameters self) with
          | Some http_params =>
              if truthy http_params then
                match add_target_http_parameters http_params endpoint hd with
                | Raise e => Raise e
                | Return (endpoint', hd') => Return (method, endpoint', hd')
                end
              else Return (method, endpoint, hd)
          | None => Return (method, endpoint, hd)
          end
      end
  end.

Definition send (self : ApiDestinationPipeTarget) (events : list json)
    : result py_exn unit * list HttpRequest * list Warning :=
  match prepare self with
  | Raise e => (Raise e, [], [])
  | Return (method, endpoint, hd) => send_events method endpoint hd events [] []
  end.

(** The request [send] makes for an event, and the warning it logs for a
    response. *)
Definition request_for (method : string) (endpoint : option string)
    (hd : headers) (event : json) : HttpRequest :=
  {| req_method := method; req_url := endpoint;
     req_data := to_json_str event; req_headers := hd |}.

Definition warning_for (method : string) (endpoint : option string)
    (response : HttpResponse) : Warning :=
  {| warn_status := status_code response; warn_method := method;
     warn_endpoint := endpoint;
     warn_text := String.substring 0 500 (text response) |}.

Definition is_error_status (response : HttpResponse) : bool :=
  (400 <=? status_code response)%Z.

(** A response that tells of an authentication failure. *)
Definition is_auth_failure (response : HttpResponse) : bool :=
  (status_code response =? 401)%Z || (status_code response =? 403)%Z.

(** [responses] are the answers to [requests], one by one, each request
    coming after those before it. *)
Definition answers (sent requests : list HttpRequest)
    (responses : list HttpResponse) : Prop :=
  length responses = length requests
  /\ forall i rq r, requests !! i = Some rq -> responses !! i = Some r ->
       requests_request (sent ++ take i requests) rq = Return r.

End Send.

End ApiDestination.

(** ** The exceptions of the API (localstack.aws.api.pipes) *)

Inductive ServiceException : Type :=
| ValidationException (message : string)
| ConflictException (message resourceId resourceType : string)
| NotFoundException (message : string).

(** ** targets/target_factory.py *)

Module TargetFactory.

Inductive PipeTargetClass : Type :=
| SqsPipeTarget
| KinesisPipeTarget
| ApiDestinationPipeTarget.

(** [arn.split(":")[2]], or the empty string when there are fewer than three
    parts.  [_source_service_from_arn] of the worker factory is the same
    function. *)
Definition _service_from_arn (arn : string) : string :=
  match Str.split ":" arn with
  | _ :: _ :: service :: _ => service
  | _ => ""
  end.

(** [needle in s] *)
Fixpoint contains (needle s : string) : bool :=
  String.prefix needle s
  || match s with
     | String _ s' => contains needle s'
     | EmptyString => false
     end.

(** [PipeTargetFactory.create]: the class of the target it builds. *)
Definition create (target_arn : string)
    : result ServiceException PipeTargetClass :=
  let service := _service_from_arn target_arn in
  if String.eqb service "sqs" then Return SqsPipeTarget
  else if String.eqb service "kinesis" then Return KinesisPipeTarget
  else if String.eqb service "events" && contains "api-destination" target_arn
  then Return ApiDestinationPipeTarget
  else Raise (ValidationException ("Unsupported target: " +:+ target_arn)).

End TargetFactory.

(** ** pipe_worker_factory.py: [_create_poller] *)

Module PollerFactory.

Inductive PollerClass : Type :=
| SqsPoller
| KinesisPoller
| DynamoDBPoller.

(** [type(v).__name__] *)
Definition type_name (v : json) : string :=
  match v with
  | JNull => "NoneType"
  | JBool _ => "bool"
  | JInt _ => "int"
  | JFloat _ => "float"
  | JStr _ => "str"
  | JArr _ => "list"
  | JObj _ => "dict"
  end.

(** [d.setdefault(k, v)], for its effect on [d]. *)
Definition setdefault (k : string) (v : json) (d : dict) : dict :=
  if dict_contains k d then d else dict_set k v d.

(** The stream pollers: the group is created when missing, then
    [StartingPosition] and [BatchSize] get their defaults in it.  A group
    that is not a dict has no [setdefault]. *)
Definition stream_defaults (group : string) (source_parameters : dict)
    : result py_exn dict :=
  let sp := if dict_contains group source_parameters then source_parameters
            else dict_set group (JObj []) source_parameters in
  match default JNull (dict_get group sp) with
  | JObj g =>
      Return (dict_set group
                (JObj (setdefault "BatchSize" (JInt 100)
                         (setdefault "StartingPosition" (JStr "TRIM_HORIZON") g)))
                sp)
  | v =>
      Raise (Exn (OtherException "AttributeError")
                 ("'" +:+ type_name v +:+ "' object has no attribute 'setdefault'")
                 None)
  end.

(** [_source_service_from_arn] *)
Definition _source_service_from_arn (arn : string) : string :=
  match Str.split ":" arn with
  | _ :: _ :: service :: _ => service
  | _ => ""
  end.

(** [_create_poller]: the class of the poller and the [source_parameters] it
    is built with (the dict is updated in place). *)
Definition _create_poller (service : string) (source_parameters : dict)
    : result py_exn (PollerClass * dict) :=
  if String.eqb service "sqs" then
    Return (SqsPoller,
            if dict_contains "SqsQueueParameters" source_parameters
            then source_parameters
            else dict_set "SqsQueueParameters" (JObj []) source_parameters)
  else if String.eqb service "kinesis" then
    match stream_defaults "KinesisStreamParameters" source_parameters with
    | Return sp => Return (KinesisPoller, sp)
    | Raise e => Raise e
    end
  else if String.eqb service "dynamodb" then
    match stream_defaults "DynamoDBStreamParameters" source_parameters with
    | Return sp => Return (DynamoDBPoller, sp)
    | Raise e => Raise e
    end
  else Raise (Exn (OtherException "ValueError")
                  ("Unsupported source service: " +:+ service) None).

(** [key in v] for a string [key]: the keys of a dict, the substrings of a
    str, the items of a list; no other value can be searched. *)
Definition key_in (key : string) (v : json) : result py_exn bool :=
  match v with
  | JObj d => Return (dict_contains key d)
  | JStr s => Return (TargetFactory.contains key s)
  | JArr l =>
      Return (existsb (fun x => match x with
                                | JStr s => String.eqb s key
                                | _ => false
                                end) l)
  | _ =>
      Raise (Exn (OtherException "TypeError")
                 ("argument of type '" +:+ type_name v +:+ "' is not iterable")
                 None)
  end.

(** [v[key] = {}] and [v[key]] raise on a str and on a list. *)
Definition no_setitem (v : json) : py_exn :=
  Exn (OtherException "TypeError")
      (match v with
       | JStr _ => "'str' object does not support item assignment"
       | _ => "list indices must be integers or slices, not str"
       end) None.

Definition no_getitem (v : json) : py_exn :=
  Exn (OtherException "TypeError")
      (match v with
       | JStr _ => "string indices must be integers, not 'str'"
       | _ => "list indices must be integers or slices, not str"
       end) None.

(** [_create_poller] on [source_parameters] that are no dict: nothing is
    written.  For [sqs] the poller is built when the key is found in the
    value; the stream pollers need the group, which such a value cannot
    give. *)
Definition _create_poller_no_dict (service : string) (v : json)
    : result py_exn PollerClass :=
  let needs group :=
    match key_in group v with
    | Raise e => Raise e
    | Return true => Raise (no_getitem v)
    | Return false => Raise (no_setitem v)
    end in
  if String.eqb service "sqs" then
    match key_in "SqsQueueParameters" v with
    | Raise e => Raise e
    | Return true => Return SqsPoller
    | Return false => Raise (no_setitem v)
    end
  else if String.eqb service "kinesis" then needs "KinesisStreamParameters"
  else if String.eqb service "dynamodb" then needs "DynamoDBStreamParameters"
  else Raise (Exn (OtherException "ValueError")
                  ("Unsupported source service: " +:+ service) None).

End PollerFactory.

(** ** models.py and provider.py *)

Module Provider.

Module PipeState.
Inductive t : Type :=
| CREATING | STARTING | RUNNING | STOPPING | STOPPED
| UPDATING | DELETING | CREATE_FAILED | STOP_FAILED.
End PipeState.

Module RequestedPipeState.
Inductive t : Type := RUNNING | STOPPED | DELETED.
End RequestedPipeState.

#[global] Instance PipeState_eq_dec : EqDecision PipeState.t.
Proof. solve_decision. Defined.

#[global] Instance RequestedPipeState_eq_dec : EqDecision RequestedPipeState.t.
Proof. solve_decision. Defined.

Abbreviation Timestamp := Z.
Abbreviation TagMap := (gmap string string).

(** *** models.py *)

Definition PIPE_NAME_MAX_LENGTH : nat := 64.

(** A character of the class [[\.\-_A-Za-z0-9]]. *)
Definition name_char (c : ascii) : bool :=
  let n := nat_of_ascii c in
  ((n =? 46) || (n =? 45) || (n =? 95)
   || ((65 <=? n) && (n <=? 90)) || ((97 <=? n) && (n <=? 122))
   || ((48 <=? n) && (n <=? 57)))%nat.

(** After the first character of the class: more of them, then the end of
    the string, which [$] also finds just before a final newline. *)
Fixpoint name_pattern_tail (s : string) : bool :=
  match s with
  | EmptyString => true
  | String c EmptyString => name_char c || Ascii.eqb c Str.newline
  | String c s' => name_char c && name_pattern_tail s'
  end.

(** [PIPE_NAME_PATTERN.match(name)] for [^[\.\-_A-Za-z0-9]+$]. *)
Definition PIPE_NAME_PATTERN_match (name : string) : bool :=
  match name with
  | EmptyString => false
  | String c s' => name_char c && name_pattern_tail s'
  end.

(** The exceptions of the API, under the names [models.py] and
    [provider.py] import them by. *)
Abbreviation ServiceException := ServiceException (only parsing).
Abbreviation ValidationException := ValidationException (only parsing).
Abbreviation ConflictException := ConflictException (only parsing).
Abbreviation NotFoundException := NotFoundException (only parsing).

Definition _validate_pipe_name (name : string) : result ServiceException unit :=
  if String.eqb name ""
     || (PIPE_NAME_MAX_LENGTH <? String.length name)%nat
     || negb (PIPE_NAME_PATTERN_match name)
  then Raise (ValidationException
         ("1 validation error detected: Value '" +:+ name
          +:+ "' at 'name' failed to satisfy constraint: "
          +:+ "Member must satisfy regular expression pattern: "
          +:+ "[\-_A-Za-z0-9]+ and have length between 1 and 64"))
  else Return tt.

Definition _pipe_arn (name account_id region : string) : string :=
  "arn:aws:pipes:" +:+ region +:+ ":" +:+ account_id +:+ ":pipe/" +:+ name.

Record PipeEntity : Type := {
  name : string;
  source : string;
  target : string;
  role_arn : string;
  region : string;
  account_id : string;
  description : option string;
  desired_state : RequestedPipeState.t;
  current_state : PipeState.t;
  state_reason : option string;
  source_parameters : option json;
  target_parameters : option json;
  enrichment : option string;
  enrichment_parameters : option json;
  tags : option (gmap string string);
  log_configuration : option json;
  kms_key_identifier : option string;
  creation_time : Z;
  last_modified_time : Z;
}.

(** The property [PipeEntity.arn]. *)
Definition arn (p : PipeEntity) : string :=
  _pipe_arn (name p) (account_id p) (region p).

(** Attribute assignments [pipe.x = v]. *)
Definition set_current_state (v : PipeState.t) (p : PipeEntity) : PipeEntity :=
  {| name := name p; source := source p; target := target p;
     role_arn := role_arn p; region := region p; account_id := account_id p;
     description := description p; desired_state := desired_state p;
     current_state := v; state_reason := state_reason p;
     source_parameters := source_parameters p;
     target_parameters := target_parameters p; enrichment := enrichment p;
     enrichment_parameters := enrichment_parameters p; tags := tags p;
     log_configuration := log_configuration p;
     kms_key_identifier := kms_key_identifier p;
     creation_time := creation_time p;
     last_modified_time := last_modified_time p |}.

Definition set_desired_state (v : RequestedPipeState.t) (p : PipeEntity)
    : PipeEntity :=
  {| name := name p; source := source p; target := target p;
     role_arn := role_arn p; region := region p; account_id := account_id p;
     description := description p; desired_state := v;
     current_state := current_state p; state_reason := state_reason p;
     source_parameters := source_parameters p;
     target_parameters := target_parameters p; enrichment := enrichment p;
     enrichment_parameters := enrichment_parameters p; tags := tags p;
     log_configuration := log_configuration p;
     kms_key_identifier := kms_key_identifier p;
     creation_time := creation_time p;
     last_modified_time := last_modified_time p |}.

Definition set_state_reason (v : option string) (p : PipeEntity) : PipeEntity :=
  {| name := name p; source := source p; target := target p;
     role_arn := role_arn p; region := region p; account_id := account_id p;
     description := description p; desired_state := desired_state p;
     current_state := current_state p; state_reason := v;
     source_parameters := source_parameters p;
     target_parameters := target_parameters p; enrichment := enrichment p;
     enrichment_parameters := enrichment_parameters p; tags := tags p;
     log_configuration := log_configuration p;
     kms_key_identifier := kms_key_identifier p;
     creation_time := creation_time p;
     last_modified_time := last_modified_time p |}.

Definition set_tags (v : option (gmap string string)) (p : PipeEntity)
    : PipeEntity :=
  {| name := name p; source := source p; target := target p;
     role_arn := role_arn p; region := region p; account_id := account_id p;
     description := description p; desired_state := desired_state p;
     current_state := current_state p; state_reason := state_reason p;
     source_parameters := source_parameters p;
     target_parameters := target_parameters p; enrichment := enrichment p;
     enrichment_parameters := enrichment_parameters p; tags := v;
     log_configuration := log_configuration p;
     kms_key_identifier := kms_key_identifier p;
     creation_time := creation_time p;
     last_modified_time := last_modified_time p |}.

Definition set_source_parameters (v : option json) (p : PipeEntity)
    : PipeEntity :=
  {| name := name p; source := source p; target := target p;
     role_arn := role_arn p; region := region p; account_id := account_id p;
     description := description p; desired_state := desired_state p;
     current_state := current_state p; state_reason := state_reason p;
     source_parameters := v;
     target_parameters := target_parameters p; enrichment := enrichment p;
     enrichment_parameters := enrichment_parameters p; tags := tags p;
     log_configuration := log_configuration p;
     kms_key_identifier := kms_key_identifier p;
     creation_time := creation_time p;
     last_modified_time := last_modified_time p |}.

Definition set_last_modified_time (v : Z) (p : PipeEntity) : PipeEntity :=
  {| name := name p; source := source p; target := target p;
     role_arn := role_arn p; region := region p; account_id := account_id p;
     description := description p; desired_state := desired_state p;
     current_state := current_state p; state_reason := state_reason p;
     source_parameters := source_parameters p;
     target_parameters := target_parameters p; enrichment := enrichment p;
     enrichment_parameters := enrichment_parameters p; tags := tags p;
     log_configuration := log_configuration p;
     kms_key_identifier := kms_key_identifier p;
     creation_time := creation_time p;
     last_modified_time := v |}.

(** Modelled from the spec: [TaggingService] (localstack.utils.tagging) is not
    among the sources.  The spec treats tag storage as a key-value service
    keyed by resource identifier: tagging merges the given tags into those of
    the resource, untagging drops the given keys. *)
Abbreviation TaggingService := (gmap string (gmap string string)).

Definition TAGS_tag_resource (resource : string) (new_tags : gmap string string)
    (T : gmap string (gmap string string)) : gmap string (gmap string string) :=
  <[resource := new_tags ∪ default ∅ (T !! resource)]> T.

Definition TAGS_untag_resource (resource : string) (tag_keys : list string)
    (T : gmap string (gmap string string)) : gmap string (gmap string string) :=
  match T !! resource with
  | Some m => <[resource := foldl (fun m k => delete k m) m tag_keys]> T
  | None => T
  end.

Definition TAGS_list_tags_for_resource (resource : string)
    (T : gmap string (gmap string string)) : gmap string string :=
  default ∅ (T !! resource).

(** *** provider.py *)

Record RequestContext : Type := {
  ctx_account_id : string;
  ctx_region : string;
}.

(** A registered worker.  The worker holds its pipe entity, to which its
    thread writes; the provider only asks whether there is one. *)
Record PipeWorker : Type := { worker_pipe_name : string }.

(** What [PipeWorkerFactory.create] and [PipeWorker.start] call outside the
    package; each returns or raises, for reasons of its own:
    - [get_internal_client(pipe.source, ...)];
    - the constructor of the poller, on the class and the source
      parameters that [_create_poller] gives it;
    - [FuncThread(...).start()] in [worker.start()], on the entity as
      [start] leaves it.  [Return entered]: the thread is started, and
      [entered] tells whether it has run the first statement of
      [_poll_loop], which writes [RUNNING], before the provider reads the
      entity again. *)
Class WorkerFactory : Type := {
  get_internal_client : PipeEntity -> result py_exn unit;
  Poller_init :
    PollerFactory.PollerClass -> PipeEntity -> json -> result py_exn unit;
  FuncThread_start : PipeEntity -> result py_exn bool;
}.

(** A [ServiceException] as an exception of the data path. *)
Definition service_exn (e : ServiceException) : py_exn :=
  match e with
  | ValidationException m => Exn (OtherException "ValidationException") m None
  | ConflictException m _ _ => Exn (OtherException "ConflictException") m None
  | NotFoundException m => Exn (OtherException "NotFoundException") m None
  end.

(** [pipe.target_parameters and pipe.target_parameters.get("InputTemplate")]:
    the template of the input transformer, when there is one.  A truthy
    value that is no dict has no [get]. *)
Definition input_template_of (pipe : PipeEntity) : result py_exn (option json) :=
  match target_parameters pipe with
  | None => Return None
  | Some v =>
      if negb (ApiDestination.truthy v) then Return None
      else
        match v with
        | JObj d =>
            match dict_get "InputTemplate" d with
            | Some t => Return (if ApiDestination.truthy t then Some t else None)
            | None => Return None
            end
        | _ =>
            Raise (Exn (OtherException "AttributeError")
                       ("'" +:+ PollerFactory.type_name v
                        +:+ "' object has no attribute 'get'") None)
        end
  end.

Section Factory.
Context `{WorkerFactory}.

(** [PipeWorkerFactory.create(pipe)]: the worker, or the exception, and the
    entity afterwards.  [source_parameters = pipe.source_parameters or {}]
    is the dict of the entity itself unless that is missing or empty, and
    [_create_poller] writes its defaults into it in place. *)
Definition PipeWorkerFactory_create (pipe : PipeEntity)
    : result py_exn PipeWorker * PipeEntity :=
  match get_internal_client pipe with
  | Raise e => (Raise e, pipe)
  | Return _ =>
  match TargetFactory.create (target pipe) with
  | Raise e => (Raise (service_exn e), pipe)
  | Return _ =>
  match input_template_of pipe with
  | Raise e => (Raise e, pipe)
  | Return _ =>
      let source_service :=
        PollerFactory._source_service_from_arn (source pipe) in
      let worker pipe' cls source_parameters :=
        match Poller_init cls pipe' source_parameters with
        | Raise e => (Raise e, pipe')
        | Return _ => (Return {| worker_pipe_name := name pipe' |}, pipe')
        end in
      let fresh :=
        match PollerFactory._create_poller source_service [] with
        | Raise e => (Raise e, pipe)
        | Return (cls, d) => worker pipe cls (JObj d)
        end in
      match source_parameters pipe with
      | None => fresh
      | Some v =>
          if negb (ApiDestination.truthy v) then fresh
          else
            match v with
            | JObj d =>
                match PollerFactory._create_poller source_service d with
                | Raise e => (Raise e, pipe)
                | Return (cls, d') =>
                    worker (set_source_parameters (Some (JObj d')) pipe)
                           cls (JObj d')
                end
            | _ =>
                match PollerFactory._create_poller_no_dict source_service v with
                | Raise e => (Raise e, pipe)
                | Return cls => worker pipe cls v
                end
            end
      end
  end end end.

End Factory.

(** The provider's state for one account and region: the store that
    [_get_store(context)] returns, and the worker index.  All calls of a run
    carry the same context. *)
Record ProviderState : Type := {
  pipes : gmap string PipeEntity;
  TAGS : gmap string (gmap string string);
  _pipe_workers : gmap string PipeWorker;
}.

Definition initial_state : ProviderState :=
  {| pipes := ∅; TAGS := ∅; _pipe_workers := ∅ |}.

(** The six fields every pipe response echoes. *)
Record PipeResponse : Type := {
  Arn : string;
  Name : string;
  DesiredState : RequestedPipeState.t;
  CurrentState : PipeState.t;
  CreationTime : Z;
  LastModifiedTime : Z;
}.

Definition response_of (pipe : PipeEntity) : PipeResponse :=
  {| Arn := arn pipe; Name := name pipe;
     DesiredState := desired_state pipe; CurrentState := current_state pipe;
     CreationTime := creation_time pipe;
     LastModifiedTime := last_modified_time pipe |}.

Inductive Response : Type :=
| PipeResp (r : PipeResponse)
| TagResourceResponse
| UntagResourceResponse
| ListTagsForResourceResponse (tag_map : gmap string string).

Record CreatePipeRequest : Type := {
  cp_name : string;
  cp_source : string;
  cp_target : string;
  cp_role_arn : string;
  cp_description : option string;
  cp_desired_state : option RequestedPipeState.t;
  cp_source_parameters : option json;
  cp_enrichment : option string;
  cp_enrichment_parameters : option json;
  cp_target_parameters : option json;
  cp_tags : option (gmap string string);
  cp_log_configuration : option json;
  cp_kms_key_identifier : option string;
}.

Record UpdatePipeRequest : Type := {
  up_name : string;
  up_role_arn : string;
  up_description : option string;
  up_desired_state : option RequestedPipeState.t;
  up_source_parameters : option json;
  up_enrichment : option string;
  up_enrichment_parameters : option json;
  up_target : option string;
  up_target_parameters : option json;
  up_log_configuration : option json;
  up_kms_key_identifier : option string;
}.

(** [re.match(r"arn:aws:pipes:[^:]+:[^:]+:pipe/(.+)", arn)] *)

Fixpoint strip_prefix (p s : string) : option string :=
  match p with
  | EmptyString => Some s
  | String c p' =>
      match s with
      | String c' s' => if Ascii.eqb c c' then strip_prefix p' s' else None
      | EmptyString => None
      end
  end.

(** The longest run of characters other than [stop], and what follows. *)
Fixpoint span_until (stop : ascii) (s : string) : string * string :=
  match s with
  | EmptyString => (EmptyString, EmptyString)
  | String c s' =>
      if Ascii.eqb c stop then (EmptyString, s)
      else let '(run, rest) := span_until stop s' in (String c run, rest)
  end.

Definition match_pipe_arn (arn : string) : option string :=
  match strip_prefix "arn:aws:pipes:" arn with
  | None => None
  | Some s1 =>
      let '(region, s2) := span_until ":" s1 in
      if String.eqb region "" then None
      else match strip_prefix ":" s2 with
      | None => None
      | Some s3 =>
          let '(account, s4) := span_until ":" s3 in
          if String.eqb account "" then None
          else match strip_prefix ":pipe/" s4 with
          | None => None
          | Some s5 =>
              let '(group1, _) := span_until Str.newline s5 in
              if String.eqb group1 "" then None else Some group1
          end
      end
  end.

Definition _pipe_name_from_arn (arn : string) : string :=
  match match_pipe_arn arn with
  | Some group1 => group1
  | None => arn
  end.

Definition _get_pipe (name : string) (s : ProviderState)
    : result ServiceException PipeEntity :=
  match pipes s !! name with
  | Some pipe => Return pipe
  | None => Raise (NotFoundException ("Pipe " +:+ name +:+ " does not exist."))
  end.

Section Operations.
Context `{WorkerFactory}.
Variable context : RequestContext.

(** The handler of [_start_pipe_worker]. *)
Definition start_failed (pipe : PipeEntity) : PipeEntity :=
  set_state_reason (Some "Failed to start pipe worker")
    (set_current_state PipeState.CREATE_FAILED pipe).

(** [_start_pipe_worker(pipe)]: the entity and the worker index afterwards.
    The worker is registered before [worker.start()], which sets [STARTING]
    and starts the thread: when that raises, the worker stays registered.
    The thread sets [RUNNING] on its own; apart from its first write, which
    may come before the provider reads the entity again, the writes of the
    threads are steps of their own ([worker_thread_write]). *)
Definition _start_pipe_worker (pipe : PipeEntity)
    (workers : gmap string PipeWorker) : PipeEntity * gmap string PipeWorker :=
  match PipeWorkerFactory_create pipe with
  | (Raise _, pipe1) => (start_failed pipe1, workers)
  | (Return worker, pipe1) =>
      let workers' := <[name pipe := worker]> workers in
      let pipe2 := set_current_state PipeState.STARTING pipe1 in
      match FuncThread_start pipe2 with
      | Raise _ => (start_failed pipe2, workers')
      | Return entered =>
          (if entered then set_current_state PipeState.RUNNING pipe2 else pipe2,
           workers')
      end
  end.

(** [_stop_pipe_worker(pipe)]: [worker.stop()] sets [STOPPING] and the event
    and cannot raise; the provider then sets [STOPPED]. *)
Definition _stop_pipe_worker (pipe : PipeEntity)
    (workers : gmap string PipeWorker) : PipeEntity * gmap string PipeWorker :=
  match workers !! name pipe with
  | Some worker =>
      (set_current_state PipeState.STOPPED
         (set_current_state PipeState.STOPPING pipe),
       delete (name pipe) workers)
  | None => (pipe, workers)
  end.

Definition create_pipe (now : Z) (rq : CreatePipeRequest) (s : ProviderState)
    : result ServiceException Response * ProviderState :=
  let name_ := cp_name rq in
  match _validate_pipe_name name_ with
  | Raise e => (Raise e, s)
  | Return _ =>
      match pipes s !! name_ with
      | Some _ =>
          (Raise (ConflictException ("Pipe " +:+ name_ +:+ " already exists.")
                                    name_ "pipe"), s)
      | None =>
          let desired := default RequestedPipeState.RUNNING (cp_desired_state rq) in
          let pipe :=
            {| name := name_; source := cp_source rq; target := cp_target rq;
               role_arn := cp_role_arn rq; region := ctx_region context;
               account_id := ctx_account_id context;
               description := cp_description rq; desired_state := desired;
               current_state := PipeState.CREATING; state_reason := None;
               source_parameters := cp_source_parameters rq;
               target_parameters := cp_target_parameters rq;
               enrichment := cp_enrichment rq;
               enrichment_parameters := cp_enrichment_parameters rq;
               tags := cp_tags rq;
               log_configuration := cp_log_configuration rq;
               kms_key_identifier := cp_kms_key_identifier rq;
               creation_time := now; last_modified_time := now |} in
          let TAGS' :=
            match cp_tags rq with
            | Some new_tags =>
                if decide (new_tags = ∅) then TAGS s
                else TAGS_tag_resource (arn pipe) new_tags (TAGS s)
            | None => TAGS s
            end in
          let '(pipe', workers') :=
            if decide (desired = RequestedPipeState.RUNNING)
            then _start_pipe_worker pipe (_pipe_workers s)
            else (set_current_state PipeState.STOPPED pipe, _pipe_workers s) in
          (Return (PipeResp (response_of pipe')),
           {| pipes := <[name_ := pipe']> (pipes s); TAGS := TAGS';
              _pipe_workers := workers' |})
      end
  end.

Definition delete_pipe (now : Z) (name_ : string) (s : ProviderState)
    : result ServiceException Response * ProviderState :=
  match _get_pipe name_ s with
  | Raise e => (Raise e, s)
  | Return pipe =>
      let '(pipe1, workers') := _stop_pipe_worker pipe (_pipe_workers s) in
      let pipe2 :=
        set_last_modified_time now
          (set_desired_state RequestedPipeState.DELETED
             (set_current_state PipeState.DELETING pipe1)) in
      let response := response_of pipe2 in
      let tag_keys := map fst (map_to_list (default ∅ (tags pipe2))) in
      (Return (PipeResp response),
       {| pipes := delete name_ (pipes s);
          TAGS := TAGS_untag_resource (arn pipe2) tag_keys (TAGS s);
          _pipe_workers := workers' |})
  end.

Definition start_pipe (now : Z) (name_ : string) (s : ProviderState)
    : result ServiceException Response * ProviderState :=
  match _get_pipe name_ s with
  | Raise e => (Raise e, s)
  | Return pipe =>
      if decide (desired_state pipe = RequestedPipeState.RUNNING) then
        (Raise (ConflictException
                  ("Pipe " +:+ name_ +:+ " is already in the desired state RUNNING.")
                  name_ "pipe"), s)
      else
        let pipe1 :=
          set_last_modified_time now
            (set_desired_state RequestedPipeState.RUNNING pipe) in
        let '(pipe2, workers') := _start_pipe_worker pipe1 (_pipe_workers s) in
        (Return (PipeResp (response_of pipe2)),
         {| pipes := <[name_ := pipe2]> (pipes s); TAGS := TAGS s;
            _pipe_workers := workers' |})
  end.

Definition stop_pipe (now : Z) (name_ : string) (s : ProviderState)
    : result ServiceException Response * ProviderState :=
  match _get_pipe name_ s with
  | Raise e => (Raise e, s)
  | Return pipe =>
      if decide (desired_state pipe = RequestedPipeState.STOPPED) then
        (Raise (ConflictException
                  ("Pipe " +:+ name_ +:+ " is already in the desired state STOPPED.")
                  name_ "pipe"), s)
      else
        let pipe1 :=
          set_last_modified_time now
            (set_desired_state RequestedPipeState.STOPPED pipe) in
        let '(pipe2, workers') := _stop_pipe_worker pipe1 (_pipe_workers s) in
        (Return (PipeResp (response_of pipe2)),
         {| pipes := <[name_ := pipe2]> (pipes s); TAGS := TAGS s;
            _pipe_workers := workers' |})
  end.

Definition tag_resource (resource_arn : string) (new_tags : gmap string string)
    (s : ProviderState) : result ServiceException Response * ProviderState :=
  let pipe_name := _pipe_name_from_arn resource_arn in
  match _get_pipe pipe_name s with
  | Raise e => (Raise e, s)
  | Return pipe =>
      let TAGS' := TAGS_tag_resource resource_arn new_tags (TAGS s) in
      let pipe' := set_tags (Some (new_tags ∪ default ∅ (tags pipe))) pipe in
      (Return TagResourceResponse,
       {| pipes := <[pipe_name := pipe']> (pipes s); TAGS := TAGS';
          _pipe_workers := _pipe_workers s |})
  end.

Definition untag_resource (resource_arn : string) (tag_keys : list string)
    (s : ProviderState) : result ServiceException Response * ProviderState :=
  let pipe_name := _pipe_name_from_arn resource_arn in
  match _get_pipe pipe_name s with
  | Raise e => (Raise e, s)
  | Return pipe =>
      let TAGS' := TAGS_untag_resource resource_arn tag_keys (TAGS s) in
      let pipe' :=
        match tags pipe with
        | Some m =>
            if decide (m = ∅) then pipe
            else set_tags (Some (foldl (fun m k => delete k m) m tag_keys)) pipe
        | None => pipe
        end in
      (Return UntagResourceResponse,
       {| pipes := <[pipe_name := pipe']> (pipes s); TAGS := TAGS';
          _pipe_workers := _pipe_workers s |})
  end.

Definition list_tags_for_resource (resource_arn : string) (s : ProviderState)
    : result ServiceException Response * ProviderState :=
  let pipe_name := _pipe_name_from_arn resource_arn in
  match _get_pipe pipe_name s with
  | Raise e => (Raise e, s)
  | Return _ =>
      (Return (ListTagsForResourceResponse
                 (TAGS_list_tags_for_resource resource_arn (TAGS s))), s)
  end.

Definition update_pipe (now : Z) (rq : UpdatePipeRequest) (s : ProviderState)
    : result ServiceException Response * ProviderState :=
  let name_ := up_name rq in
  match _get_pipe name_ s with
  | Raise e => (Raise e, s)
  | Return pipe =>
      let '(pipe1, workers1) := _stop_pipe_worker pipe (_pipe_workers s) in
      let pipe2 :=
        {| name := name pipe1; source := source pipe1;
           target := default (target pipe1) (up_target rq);
           role_arn := up_role_arn rq; region := region pipe1;
           account_id := account_id pipe1;
           description :=
             match up_description rq with
             | Some d => Some d
             | None => description pipe1
             end;
           desired_state := default (desired_state pipe1) (up_desired_state rq);
           current_state := PipeState.UPDATING;
           state_reason := state_reason pipe1;
           source_parameters :=
             match up_source_parameters rq with
             | Some v => Some v
             | None => source_parameters pipe1
             end;
           target_parameters :=
             match up_target_parameters rq with
             | Some v => Some v
             | None => target_parameters pipe1
             end;
           enrichment :=
             match up_enrichment rq with
             | Some v => Some v
             | None => enrichment pipe1
             end;
           enrichment_parameters :=
             match up_enrichment_parameters rq with
             | Some v => Some v
             | None => enrichment_parameters pipe1
             end;
           tags := tags pipe1;
           log_configuration :=
             match up_log_configuration rq with
             | Some v => Some v
             | None => log_configuration pipe1
             end;
           kms_key_identifier :=
             match up_kms_key_identifier rq with
             | Some v => Some v
             | None => kms_key_identifier pipe1
             end;
           creation_time := creation_time pipe1;
           last_modified_time := now |} in
      let effective_desired :=
        default (desired_state pipe2) (up_desired_state rq) in
      let '(pipe3, workers3) :=
        if decide (effective_desired = RequestedPipeState.RUNNING)
        then _start_pipe_worker pipe2 workers1
        else (set_current_state PipeState.STOPPED pipe2, workers1) in
      (Return (PipeResp (response_of pipe3)),
       {| pipes := <[name_ := pipe3]> (pipes s); TAGS := TAGS s;
          _pipe_workers := workers3 |})
  end.

(** The thread of a worker writes [current_state] of its pipe on its own:
    [RUNNING] when the poll loop is entered, [STOPPED] when it is left.  The
    calls above are what the provider's own statements do; a write of a
    thread that falls inside a call is either overwritten by the call or
    stands as a write after it, the provider never reading [current_state]
    to decide anything.  A write to an entity that has left the registry
    changes nothing in it. *)
Definition worker_thread_write (name_ : string) (st : PipeState.t)
    (s : ProviderState) : ProviderState :=
  {| pipes := alter (set_current_state st) name_ (pipes s); TAGS := TAGS s;
     _pipe_workers := _pipe_workers s |}.

(** A run of the worker threads: their writes, in the order they land. *)
Definition thread_writes (ws : list (string * PipeState.t))
    (s : ProviderState) : ProviderState :=
  foldl (fun s w => worker_thread_write w.1 w.2 s) s ws.

(** What the last of the writes [ws] to the pipe [name_] wrote, if any. *)
Definition last_write (name_ : string) (ws : list (string * PipeState.t))
    : option PipeState.t :=
  foldl (fun acc w => if String.eqb w.1 name_ then Some w.2 else acc) None ws.

(** The calls of the control plane, each with the clock reading it sees. *)
Inductive api_call : Type :=
| CreatePipe (now : Z) (rq : CreatePipeRequest)
| UpdatePipe (now : Z) (rq : UpdatePipeRequest)
| DeletePipe (now : Z) (name_ : string)
| StartPipe (now : Z) (name_ : string)
| StopPipe (now : Z) (name_ : string)
| TagResource (resource_arn : string) (new_tags : gmap string string)
| UntagResource (resource_arn : string) (tag_keys : list string)
| ListTagsForResource (resource_arn : string).

Definition call (c : api_call) (s : ProviderState)
    : result ServiceException Response * ProviderState :=
  match c with
  | CreatePipe now rq => create_pipe now rq s
  | UpdatePipe now rq => update_pipe now rq s
  | DeletePipe now n => delete_pipe now n s
  | StartPipe now n => start_pipe now n s
  | StopPipe now n => stop_pipe now n s
  | TagResource a t => tag_resource a t s
  | UntagResource a ks => untag_resource a ks s
  | ListTagsForResource a => list_tags_for_resource a s
  end.

(** The states a run of the provider passes through. *)
Inductive reachable : ProviderState -> Prop :=
| reachable_initial : reachable initial_state
| reachable_call c s : reachable s -> reachable (call c s).2
| reachable_worker n st s :
    reachable s ->
    st = PipeState.RUNNING \/ st = PipeState.STOPPED ->
    reachable (worker_thread_write n st s).

End Operations.

Definition is_conflict {A : Type} (r : result ServiceException A) : bool :=
  match r with
  | Raise (ConflictException _ _ _) => true
  | _ => false
  end.

(** A string of the shape [arn:aws:pipes:<region>:<account>:pipe/<name>]:
    region and account are not empty and hold no colon, the name is not
    empty. *)
Definition is_pipe_arn (s : string) : Prop :=
  exists region_ account_ name_,
    region_ <> "" /\ account_ <> "" /\ name_ <> ""
    /\ Str.no_char ":" region_ = true /\ Str.no_char ":" account_ = true
    /\ s = "arn:aws:pipes:" +:+ region_ +:+ ":" +:+ account_
             +:+ ":pipe/" +:+ name_.

(** Every pipe is stored under its own name, and the name is a valid one. *)
Definition store_wf (s : ProviderState) : Prop :=
  forall n p, pipes s !! n = Some p ->
    name p = n /\ _validate_pipe_name n = Return tt.

(** *** The reads of the control plane, and the shutdown hook *)

Record DescribePipeResponse : Type := {
  d_Arn : string;
  d_Name : string;
  d_Description : option string;
  d_DesiredState : RequestedPipeState.t;
  d_CurrentState : PipeState.t;
  d_StateReason : option string;
  d_Source : string;
  d_SourceParameters : option json;
  d_Enrichment : option string;
  d_EnrichmentParameters : option json;
  d_Target : string;
  d_TargetParameters : option json;
  d_RoleArn : string;
  d_Tags : option (gmap string string);
  d_CreationTime : Z;
  d_LastModifiedTime : Z;
  d_LogConfiguration : option json;
  d_KmsKeyIdentifier : option string;
}.

Definition describe_pipe (name_ : string) (s : ProviderState)
    : result ServiceException DescribePipeResponse :=
  match _get_pipe name_ s with
  | Raise e => Raise e
  | Return pipe =>
      Return {| d_Arn := arn pipe; d_Name := name pipe;
                d_Description := description pipe;
                d_DesiredState := desired_state pipe;
                d_CurrentState := current_state pipe;
                d_StateReason := state_reason pipe;
                d_Source := source pipe;
                d_SourceParameters := source_parameters pipe;
                d_Enrichment := enrichment pipe;
                d_EnrichmentParameters := enrichment_parameters pipe;
                d_Target := target pipe;
                d_TargetParameters := target_parameters pipe;
                d_RoleArn := role_arn pipe;
                d_Tags := tags pipe;
                d_CreationTime := creation_time pipe;
                d_LastModifiedTime := last_modified_time pipe;
                d_LogConfiguration := log_configuration pipe;
                d_KmsKeyIdentifier := kms_key_identifier pipe |}
  end.

(** One entry of [ListPipesResponse.Pipes]. *)
Record PipeSummary : Type := {
  ps_Name : string;
  ps_Arn : string;
  ps_DesiredState : RequestedPipeState.t;
  ps_CurrentState : PipeState.t;
  ps_StateReason : option string;
  ps_CreationTime : Z;
  ps_LastModifiedTime : Z;
  ps_Source : string;
  ps_Target : string;
  ps_Enrichment : option string;
}.

Definition summary_of (p : PipeEntity) : PipeSummary :=
  {| ps_Name := name p; ps_Arn := arn p;
     ps_DesiredState := desired_state p; ps_CurrentState := current_state p;
     ps_StateReason := state_reason p; ps_CreationTime := creation_time p;
     ps_LastModifiedTime := last_modified_time p;
     ps_Source := source p; ps_Target := target p;
     ps_Enrichment := enrichment p |}.

Record ListPipesRequest : Type := {
  lp_name_prefix : option string;
  lp_desired_state : option RequestedPipeState.t;
  lp_current_state : option PipeState.t;
  lp_source_prefix : option string;
  lp_target_prefix : option string;
  lp_limit : option nat;
}.

(** [if prefix:] for an optional string. *)
Definition given (prefix : option string) : option string :=
  match prefix with
  | Some q => if String.eqb q "" then None else Some q
  | None => None
  end.

(** [limit or 100] *)
Definition max_results (rq : ListPipesRequest) : nat :=
  match lp_limit rq with
  | Some (S n) => S n
  | _ => 100
  end.

(** [list_pipes] on [values], which is [list(store.pipes.values())]: the
    entities in insertion order (an order the map of the model does not
    keep, so it is an argument). *)
Definition list_pipes (values : list PipeEntity) (rq : ListPipesRequest)
    : list PipeSummary :=
  let pipes0 := values in
  let pipes1 :=
    match given (lp_name_prefix rq) with
    | Some q => List.filter (fun p => Str.startswith q (name p)) pipes0
    | None => pipes0
    end in
  let pipes2 :=
    match lp_desired_state rq with
    | Some d => List.filter (fun p => bool_decide (desired_state p = d)) pipes1
    | None => pipes1
    end in
  let pipes3 :=
    match lp_current_state rq with
    | Some c => List.filter (fun p => bool_decide (current_state p = c)) pipes2
    | None => pipes2
    end in
  let pipes4 :=
    match given (lp_source_prefix rq) with
    | Some q =>
        List.filter (fun p => negb (String.eqb (source p) "")
                              && Str.startswith q (source p)) pipes3
    | None => pipes3
    end in
  let pipes5 :=
    match given (lp_target_prefix rq) with
    | Some q =>
        List.filter (fun p => negb (String.eqb (target p) "")
                              && Str.startswith q (target p)) pipes4
    | None => pipes4
    end in
  map summary_of (firstn (max_results rq) pipes5).

(** A pipe passes every filter the request gives. *)
Definition passes (rq : ListPipesRequest) (p : PipeEntity) : bool :=
  match given (lp_name_prefix rq) with
  | Some q => Str.startswith q (name p)
  | None => true
  end
  && match lp_desired_state rq with
     | Some d => bool_decide (desired_state p = d)
     | None => true
     end
  && match lp_current_state rq with
     | Some c => bool_decide (current_state p = c)
     | None => true
     end
  && match given (lp_source_prefix rq) with
     | Some q => Str.startswith q (source p)
     | None => true
     end
  && match given (lp_target_prefix rq) with
     | Some q => Str.startswith q (target p)
     | None => true
     end.


(** The name of the pipe a call is about. *)
Definition subject (c : api_call) : string :=
  match c with
  | CreatePipe _ rq => cp_name rq
  | UpdatePipe _ rq => up_name rq
  | DeletePipe _ n | StartPipe _ n | StopPipe _ n => n
  | TagResource a _ | UntagResource a _ | ListTagsForResource a =>
      _pipe_name_from_arn a
  end.

(** What is fixed when a pipe is created: its name, source, region, account
    and creation time. *)
Definition same_origin (p p' : PipeEntity) : Prop :=
  name p' = name p /\ source p' = source p /\ region p' = region p
  /\ account_id p' = account_id p /\ creation_time p' = creation_time p.

(** The source parameters after [PipeWorkerFactory.create]: as they were,
    or the dict of the entity with the defaults of [_create_poller]. *)
Definition source_defaults (pipe : PipeEntity) (sp : option json) : Prop :=
  sp = source_parameters pipe
  \/ exists d0 cls d1,
       source_parameters pipe = Some (JObj d0)
       /\ PollerFactory._create_poller
            (PollerFactory._source_service_from_arn (source pipe)) d0
          = Return (cls, d1)
       /\ sp = Some (JObj d1).

(** Every pipe carries the region and the account of the context. *)
Definition context_wf (context : RequestContext) (s : ProviderState) : Prop :=
  forall n p, pipes s !! n = Some p ->
    region p = ctx_region context /\ account_id p = ctx_account_id context.


End Provider.

(** ** targets/sqs_target.py and targets/kinesis_target.py *)

Module QueueTargets.

(** The keyword arguments of one [send_message]. *)
Record SendMessage : Type := {
  QueueUrl : string;
  MessageBody : string;
  MessageGroupId : option json;
  MessageDeduplicationId : option json;
}.

(** The arguments of one [put_record]. *)
Record PutRecord : Type := {
  StreamName : string;
  Data : string;
  PartitionKey : json;
}.

(** The clients behind the two targets; each call is given the calls made
    before it. *)
Class Clients : Type := {
  get_internal_client : string -> option string -> result py_exn unit;
  sqs_queue_url_for_arn : string -> result py_exn string;
  send_message : list SendMessage -> SendMessage -> result py_exn unit;
  put_record : list PutRecord -> PutRecord -> result py_exn unit;
  encode_utf8 : string -> string;
}.

Record QueueTarget : Type := {
  target_arn : string;
  target_parameters : dict;
  role_arn : option string;
}.

(** [params.get(key)] kept when it is true, as the walrus tests it. *)
Definition truthy_get (key : string) (params : dict) : option json :=
  match dict_get key params with
  | Some v => if ApiDestination.truthy v then Some v else None
  | None => None
  end.

Definition no_get (v : json) : py_exn :=
  Exn (OtherException "AttributeError")
      ("'" +:+ PollerFactory.type_name v +:+ "' object has no attribute 'get'")
      None.

Section Send.
Context `{PyLib} `{Clients}.

Definition message_for (queue_url : string) (sqs_params : dict) (event : json)
    : SendMessage :=
  {| QueueUrl := queue_url; MessageBody := to_json_str event;
     MessageGroupId := truthy_get "MessageGroupId" sqs_params;
     MessageDeduplicationId := truthy_get "MessageDeduplicationId" sqs_params |}.

(** The loop of [SqsPipeTarget.send]: the result and the calls made. *)
Fixpoint sqs_send_events (queue_url : string) (sqs_params : json)
    (events : list json) (calls : list SendMessage)
    : result py_exn unit * list SendMessage :=
  match events with
  | [] => (Return tt, calls)
  | event :: events' =>
      match sqs_params with
      | JObj params =>
          let message := message_for queue_url params event in
          match send_message calls message with
          | Raise e => (Raise e, calls ++ [message])
          | Return _ =>
              sqs_send_events queue_url sqs_params events' (calls ++ [message])
          end
      | v => (Raise (no_get v), calls)
      end
  end.

Definition sqs_send (self : QueueTarget) (events : list json)
    : result py_exn unit * list SendMessage :=
  match get_internal_client (target_arn self) (role_arn self) with
  | Raise e => (Raise e, [])
  | Return _ =>
      match sqs_queue_url_for_arn (target_arn self) with
      | Raise e => (Raise e, [])
      | Return queue_url =>
          let sqs_params :=
            default (JObj []) (dict_get "SqsQueueParameters" (target_parameters self)) in
          sqs_send_events queue_url sqs_params events []
      end
  end.

Definition record_for (stream_name : string) (partition_key : json)
    (event : json) : PutRecord :=
  {| StreamName := stream_name; Data := encode_utf8 (to_json_str event);
     PartitionKey := partition_key |}.

Fixpoint kinesis_send_events (stream_name : string) (partition_key : json)
    (events : list json) (calls : list PutRecord)
    : result py_exn unit * list PutRecord :=
  match events with
  | [] => (Return tt, calls)
  | event :: events' =>
      let record := record_for stream_name partition_key event in
      match put_record calls record with
      | Raise e => (Raise e, calls ++ [record])
      | Return _ =>
          kinesis_send_events stream_name partition_key events' (calls ++ [record])
      end
  end.

Definition kinesis_send (self : QueueTarget) (events : list json)
    : result py_exn unit * list PutRecord :=
  match get_internal_client (target_arn self) (role_arn self) with
  | Raise e => (Raise e, [])
  | Return _ =>
      let stream_name := List.last (Str.split "/" (target_arn self)) "" in
      match default (JObj []) (dict_get "KinesisStreamParameters"
                                        (target_parameters self)) with
      | JObj kinesis_params =>
          let partition_key :=
            default (JStr "default") (dict_get "PartitionKey" kinesis_params) in
          kinesis_send_events stream_name partition_key events []
      | v => (Raise (no_get v), [])
      end
  end.

End Send.

End QueueTargets.

(** ** The substitution rule in the words of the specification *)

Section SubstitutionRule.
Context `{PyLib}.

(** What a placeholder is replaced by: objects, arrays and booleans are
    serialised as JSON, other values are coerced to a string, an unknown key
    gives the empty string. *)
Definition placeholder_text (replacements : gmap string json) (key : string)
    : string :=
  match replacements !! key with
  | None => ""
  | Some (JObj d) => to_json_str (JObj d)
  | Some (JArr l) => json_dumps (JArr l)
  | Some (JBool b) => json_dumps (JBool b)
  | Some v => py_str v
  end.

(** The template with every placeholder substituted. *)
Definition substituted (replacements : gmap string json) (template : string)
    : string :=
  Placeholder.sub (placeholder_text replacements) template.

End SubstitutionRule.

(** ** The decoding rule in the words of the specification *)

Section DecodingRule.
Context `{PyLib}.

(** One round of base64 decoding, on the library's own routines: the value
    is a text, the text decodes to bytes, the bytes are text. *)
Definition base64_round (v : json) : option json :=
  match v with
  | JStr s => JStr <$> (base64_b64decode s ≫= to_str)
  | _ => None
  end.

(** [i] rounds of base64 decoding in a row, when every one of them succeeds. *)
Fixpoint b64_rounds (i : nat) (v : json) : option json :=
  match i with
  | O => Some v
  | S i' => base64_round v ≫= b64_rounds i'
  end.

(** The text is no JSON for the parser: it raises a [ValueError],
    [JSONDecodeError] included. *)
Definition parse_fails (s : string) : Prop :=
  exists e, json_loads s = Raise e /\ is_value_error e = true.

(** The parser breaks on the text: it raises something else. *)
Definition parse_breaks (s : string) : Prop :=
  exists e, json_loads s = Raise e /\ is_value_error e = false.

(** The parser returns no value for the text, whatever it raises. *)
Definition no_parse (s : string) : Prop :=
  forall D, json_loads s <> Return D.

(** Every round from the first to the [i]-th gave a string with [P]. *)
Definition rounds_upto (P : string -> Prop) (i : nat) (raw : json) : Prop :=
  forall j s, (1 <= j <= i)%nat -> b64_rounds j raw = Some (JStr s) -> P s.

(** The rule in the words of the specification.  The value [data] ends up
    with after at most [n] rounds on [raw]:
    - the parse of round [i], the first round whose string parses; or,
    - when no round parses, the string of the last round that decoded
      ([raw] itself when the first round fails to decode). *)
Definition specified_data (n : nat) (raw D : json) : Prop :=
  (exists i s, (1 <= i <= n)%nat /\ b64_rounds i raw = Some (JStr s)
               /\ json_loads s = Return D /\ rounds_upto no_parse (i - 1) raw)
  \/ (exists i, (i <= n)%nat /\ b64_rounds i raw = Some D
               /\ (i = n \/ b64_rounds (S i) raw = None)
               /\ rounds_upto no_parse i raw).

(** The rule as the code has it: the two cases above for rounds whose parse
    fails with a [ValueError]; and, when the parser breaks on the string of
    a round, [raw] itself. *)
Definition decoded_data (n : nat) (raw D : json) : Prop :=
  (exists i s, (1 <= i <= n)%nat /\ b64_rounds i raw = Some (JStr s)
               /\ json_loads s = Return D
               /\ rounds_upto parse_fails (i - 1) raw)
  \/ (exists i, (i <= n)%nat /\ b64_rounds i raw = Some D
               /\ (i = n \/ b64_rounds (S i) raw = None)
               /\ rounds_upto parse_fails i raw)
  \/ (exists i s, (1 <= i <= n)%nat /\ b64_rounds i raw = Some (JStr s)
               /\ parse_breaks s /\ rounds_upto parse_fails (i - 1) raw
               /\ D = raw).

End DecodingRule.

(** ** A small runtime for the examples *)

Module Sample.

Definition dq : string := String "034"%char EmptyString.

(** The text of the object with the one member ["x"], 42. *)
Definition payload_text : string := "{" +:+ dq +:+ "x" +:+ dq +:+ ":42}".
Definition payload : json := JObj [("x", JInt 42)].

(** Compact JSON text of a tree whose strings need no escaping. *)
Fixpoint dumps (v : json) : string :=
  match v with
  | JNull => "null"
  | JBool true => "true"
  | JBool false => "false"
  | JInt n => pretty n
  | JFloat r => r
  | JStr s => dq +:+ s +:+ dq
  | JArr l => "[" +:+ String.concat "," (map dumps l) +:+ "]"
  | JObj d =>
      "{" +:+ String.concat ","
                (map (fun kv => dq +:+ fst kv +:+ dq +:+ ":" +:+ dumps (snd kv)) d)
      +:+ "}"
  end.

(** [n] times the character [c]. *)
Fixpoint times (n : nat) (c : string) : string :=
  match n with
  | O => ""
  | S n' => c +:+ times n' c
  end.

(** An object whose one member is an integer of 5000 digits: more than the
    interpreter converts (4300 by default), so that [json.loads] raises a
    plain [ValueError] on it. *)
Definition long_number_text : string :=
  "{" +:+ dq +:+ "v" +:+ dq +:+ ": " +:+ times 5000 "1" +:+ "}".

(** A thousand opening brackets, on which [json.loads] runs into the
    recursion limit, and their base64 encoding. *)
Definition nested_text : string := times 1000 "[".
Definition nested_b64 : string := times 333 "W1tb" +:+ "Ww==".

Definition digit_limit : py_exn :=
  Exn (OtherException "ValueError")
      ("Exceeds the limit (4300 digits) for integer string conversion: "
       +:+ "value has 5000 digits; use sys.set_int_max_str_digits() "
       +:+ "to increase the limit") None.

Definition recursion_limit : py_exn :=
  Exn (OtherException "RecursionError")
      ("maximum recursion depth exceeded while decoding a JSON array "
       +:+ "from a unicode string") None.

Definition no_json : py_exn :=
  Exn (OtherException "JSONDecodeError")
      "Expecting value: line 1 column 1 (char 0)" None.

(** A runtime that knows one payload with its single and double encoding,
    and the two texts above.  Characters outside the base64 alphabet are
    skipped by the decoder, so that brackets alone decode to nothing. *)
#[export] Instance lib : PyLib := {|
  base64_b64decode s :=
    if String.eqb s "ZXlKNElqbzBNbjA9" then Some "eyJ4Ijo0Mn0="
    else if String.eqb s "eyJ4Ijo0Mn0=" then Some payload_text
    else if String.eqb s nested_b64 then Some nested_text
    else if String.eqb s nested_text then Some ""
    else if String.eqb s "" then Some ""
    else None;
  to_str s := Some s;
  json_loads s :=
    if String.eqb s payload_text then Return payload
    else if String.eqb s long_number_text then Raise digit_limit
    else if String.eqb s nested_text then Raise recursion_limit
    else Raise no_json;
  json_dumps := dumps;
  to_json_str := dumps;
|}.

Definition transformer (template : string) : PipeInputTransformer :=
  {| input_template := template;
     pipe_arn := "arn:aws:pipes:us-east-1:000000000000:pipe/p";
     pipe_name := "p";
     source_arn := "arn:aws:sqs:us-east-1:000000000000:src";
     target_arn := "arn:aws:sqs:us-east-1:000000000000:dst" |}.

(** A target that accepts every batch, and one whose endpoint is down. *)
Definition accepting_target : PipeTarget :=
  {| tgt_target_arn := "arn:aws:sqs:us-east-1:000000000000:dst";
     tgt_send := fun _ => Return tt |}.

Definition failing_target (e : py_exn) : PipeTarget :=
  {| tgt_target_arn := "arn:aws:sqs:us-east-1:000000000000:dst";
     tgt_send := fun _ => Raise e |}.

(** A Kinesis record whose data is the payload, encoded twice. *)
Definition record : dict :=
  [("eventID", JStr "shardId-000000000000:1"); ("data", JStr "ZXlKNElqbzBNbjA9")].

Definition decoded_record : dict :=
  [("eventID", JStr "shardId-000000000000:1"); ("data", payload)].

(** A record whose data is the encoding of the thousand brackets. *)
Definition nested_record : dict :=
  [("eventID", JStr "shardId-000000000000:2"); ("data", JStr nested_b64)].

(** An API destination whose endpoint answers every request with the status
    [code]. *)
Definition endpoint_answering (code : Z) (body : string)
    : ApiDestination.Services :=
  {| ApiDestination.extract_region_from_arn := fun _ => Some "us-east-1";
     ApiDestination.extract_account_id_from_arn := fun _ => Some "000000000000";
     ApiDestination.describe_api_destination := fun _ _ _ =>
       Return {| ApiDestination.HttpMethod := Some "POST";
                 ApiDestination.InvocationEndpoint := Some "https://example.com/hook";
                 ApiDestination.ConnectionArn := None |};
     ApiDestination._apply_connection_auth := fun _ hd => hd;
     ApiDestination.add_target_http_parameters := fun _ e hd => Return (e, hd);
     ApiDestination.requests_request := fun _ _ =>
       Return {| ApiDestination.status_code := code;
                 ApiDestination.text := body |} |}.

(** A worker factory that always succeeds, the context of the examples, and
    a request to create the pipe [p] between two queues. *)
#[export] Instance factory : Provider.WorkerFactory :=
  {| Provider.get_internal_client := fun _ => Return tt;
     Provider.Poller_init := fun _ _ _ => Return tt;
     Provider.FuncThread_start := fun _ => Return false |}.

Definition context : Provider.RequestContext :=
  {| Provider.ctx_account_id := "000000000000";
     Provider.ctx_region := "us-east-1" |}.

Definition create_request (desired : option Provider.RequestedPipeState.t)
    : Provider.CreatePipeRequest :=
  {| Provider.cp_name := "p";
     Provider.cp_source := "arn:aws:sqs:us-east-1:000000000000:src";
     Provider.cp_target := "arn:aws:sqs:us-east-1:000000000000:dst";
     Provider.cp_role_arn := "arn:aws:iam::000000000000:role/pipe";
     Provider.cp_description := None;
     Provider.cp_desired_state := desired;
     Provider.cp_source_parameters := None;
     Provider.cp_enrichment := None;
     Provider.cp_enrichment_parameters := None;
     Provider.cp_target_parameters := None;
     Provider.cp_tags := None;
     Provider.cp_log_configuration := None;
     Provider.cp_kms_key_identifier := None |}.

(** The provider after [p] has been created at time 100. *)
Definition one_pipe (desired : option Provider.RequestedPipeState.t)
    : Provider.ProviderState :=
  (Provider.create_pipe context 100 (create_request desired)
     Provider.initial_state).2.

(** The entity of [p] as [create_pipe] stores it. *)
Definition pipe_p (desired : Provider.RequestedPipeState.t)
    (current : Provider.PipeState.t) : Provider.PipeEntity :=
  {| Provider.name := "p";
     Provider.source := "arn:aws:sqs:us-east-1:000000000000:src";
     Provider.target := "arn:aws:sqs:us-east-1:000000000000:dst";
     Provider.role_arn := "arn:aws:iam::000000000000:role/pipe";
     Provider.region := "us-east-1";
     Provider.account_id := "000000000000";
     Provider.description := None;
     Provider.desired_state := desired;
     Provider.current_state := current;
     Provider.state_reason := None;
     Provider.source_parameters := None;
     Provider.target_parameters := None;
     Provider.enrichment := None;
     Provider.enrichment_parameters := None;
     Provider.tags := None;
     Provider.log_configuration := None;
     Provider.kms_key_identifier := None;
     Provider.creation_time := 100;
     Provider.last_modified_time := 100 |}.

Definition arn_p : string := "arn:aws:pipes:us-east-1:000000000000:pipe/p".

Definition api_target : ApiDestination.ApiDestinationPipeTarget :=
  {| ApiDestination.target_arn :=
       "arn:aws:events:us-east-1:000000000000:api-destination/dest/11111111";
     ApiDestination.target_parameters := [];
     ApiDestination.role_arn := None |}.

(** Clients that accept every call, and two targets with parameters. *)
#[export] Instance clients : QueueTargets.Clients :=
  {| QueueTargets.get_internal_client := fun _ _ => Return tt;
     QueueTargets.sqs_queue_url_for_arn := fun _ =>
       Return "http://sqs.us-east-1.localhost:4566/000000000000/dst";
     QueueTargets.send_message := fun _ _ => Return tt;
     QueueTargets.put_record := fun _ _ => Return tt;
     QueueTargets.encode_utf8 := fun s => s |}.

Definition sqs_target : QueueTargets.QueueTarget :=
  {| QueueTargets.target_arn := "arn:aws:sqs:us-east-1:000000000000:dst.fifo";
     QueueTargets.target_parameters :=
       [("SqsQueueParameters", JObj [("MessageGroupId", JStr "g1")])];
     QueueTargets.role_arn := None |}.

Definition kinesis_target : QueueTargets.QueueTarget :=
  {| QueueTargets.target_arn := "arn:aws:kinesis:us-east-1:000000000000:stream/dst";
     QueueTargets.target_parameters :=
       [("KinesisStreamParameters", JObj [("PartitionKey", JStr "p1")])];
     QueueTargets.role_arn := None |}.

(** A request to create a pipe of another name, and an update of [p]. *)
Definition create_named (name_ : string) : Provider.CreatePipeRequest :=
  {| Provider.cp_name := name_;
     Provider.cp_source := "arn:aws:sqs:us-east-1:000000000000:src";
     Provider.cp_target := "arn:aws:sqs:us-east-1:000000000000:dst";
     Provider.cp_role_arn := "arn:aws:iam::000000000000:role/pipe";
     Provider.cp_description := None;
     Provider.cp_desired_state := None;
     Provider.cp_source_parameters := None;
     Provider.cp_enrichment := None;
     Provider.cp_enrichment_parameters := None;
     Provider.cp_target_parameters := None;
     Provider.cp_tags := None;
     Provider.cp_log_configuration := None;
     Provider.cp_kms_key_identifier := None |}.

(** A runtime in which no thread can be started. *)
Definition no_threads : Provider.WorkerFactory :=
  {| Provider.get_internal_client := fun _ => Return tt;
     Provider.Poller_init := fun _ _ _ => Return tt;
     Provider.FuncThread_start := fun _ =>
       Raise (Exn (OtherException "RuntimeError") "can't start new thread" None) |}.

(** A request for a pipe from a Kinesis stream that gives a batch size. *)
Definition stream_request : Provider.CreatePipeRequest :=
  {| Provider.cp_name := "k";
     Provider.cp_source := "arn:aws:kinesis:us-east-1:000000000000:stream/s";
     Provider.cp_target := "arn:aws:sqs:us-east-1:000000000000:dst";
     Provider.cp_role_arn := "arn:aws:iam::000000000000:role/pipe";
     Provider.cp_description := None;
     Provider.cp_desired_state := None;
     Provider.cp_source_parameters :=
       Some (JObj [("KinesisStreamParameters", JObj [("BatchSize", JInt 10)])]);
     Provider.cp_enrichment := None;
     Provider.cp_enrichment_parameters := None;
     Provider.cp_target_parameters := None;
     Provider.cp_tags := None;
     Provider.cp_log_configuration := None;
     Provider.cp_kms_key_identifier := None |}.

Definition update_request : Provider.UpdatePipeRequest :=
  {| Provider.up_name := "p";
     Provider.up_role_arn := "arn:aws:iam::000000000000:role/other";
     Provider.up_description := None;
     Provider.up_desired_state := Some Provider.RequestedPipeState.STOPPED;
     Provider.up_source_parameters := None;
     Provider.up_enrichment := None;
     Provider.up_enrichment_parameters := None;
     Provider.up_target := None;
     Provider.up_target_parameters := None;
     Provider.up_log_configuration := None;
     Provider.up_kms_key_identifier := None |}.

End Sample.

(** * Properties *)

(** ** Strings *)

Lemma append_cons c (s t : string) : String c s +:+ t = String c (s +:+ t).
Proof. reflexivity. Qed.

Lemma append_nil_l (s : string) : "" +:+ s = s.
Proof. reflexivity. Qed.

Lemma append_nil_r (s : string) : s +:+ "" = s.
Proof.
  induction s as [|c s IH]; [reflexivity|]. rewrite append_cons, IH. reflexivity.
Qed.

Lemma append_assoc (s t u : string) : (s +:+ t) +:+ u = s +:+ (t +:+ u).
Proof.
  induction s as [|c s IH]; [reflexivity|]. rewrite !append_cons, IH. reflexivity.
Qed.

(** ** The placeholder pattern *)

Section PlaceholderFacts.
Import Placeholder.

Lemma find_close_length s k r :
  find_close s = Some (k, r) -> (String.length r < String.length s)%nat.
Proof.
  revert k r. induction s as [|c s IH]; intros k r; simpl; [discriminate|].
  destruct (Ascii.eqb c ">").
  - intros [= <- <-]. lia.
  - destruct (Ascii.eqb c Str.newline); [discriminate|].
    destruct (find_close s) as [[k' r']|]; [|discriminate].
    intros [= <- <-]. specialize (IH _ _ eq_refl). lia.
Qed.

(** The text [find_close] consumed: the key, then ['>']. *)
Lemma find_close_text s k r :
  find_close s = Some (k, r) -> s = k +:+ ">" +:+ r.
Proof.
  revert k r. induction s as [|c s IH]; intros k r; simpl; [discriminate|].
  destruct (Ascii.eqb_spec c ">") as [->|_].
  - intros [= <- <-]. reflexivity.
  - destruct (Ascii.eqb c Str.newline); [discriminate|].
    destruct (find_close s) as [[k' r']|]; [|discriminate].
    intros [= <- <-]. rewrite append_cons. f_equal. apply IH. reflexivity.
Qed.

(** A key holds neither ['>'] nor a newline. *)
Lemma find_close_key s k r :
  find_close s = Some (k, r) ->
  Str.no_char ">" k = true /\ Str.no_char Str.newline k = true.
Proof.
  revert k r. induction s as [|c s IH]; intros k r; simpl; [discriminate|].
  destruct (Ascii.eqb c ">") eqn:Egt.
  - intros [= <- <-]. split; reflexivity.
  - destruct (Ascii.eqb c Str.newline) eqn:Enl; [discriminate|].
    destruct (find_close s) as [[k' r']|]; [|discriminate].
    intros [= <- <-]. destruct (IH _ _ eq_refl) as [H1 H2].
    cbn [Str.no_char]. rewrite Egt, H1, Enl, H2. split; reflexivity.
Qed.

(** The fuel [finditer] starts with is enough: more of it changes nothing. *)
Lemma finditer_fuel_enough fuel s :
  (String.length s <= fuel)%nat -> finditer_fuel fuel s = finditer s.
Proof.
  unfold finditer. revert s.
  induction fuel as [fuel IH] using lt_wf_ind. intros s Hlen.
  destruct s as [|c s]; [destruct fuel; reflexivity|].
  destruct fuel as [|fuel]; [simpl in Hlen; lia|].
  simpl in *. destruct (Ascii.eqb c "<").
  - destruct (find_close s) as [[k r]|] eqn:E.
    + pose proof (find_close_length _ _ _ E) as Hr.
      rewrite (IH fuel) by lia.
      rewrite (IH (String.length s)) by lia. reflexivity.
    + rewrite (IH fuel) by lia. reflexivity.
  - rewrite (IH fuel) by lia. reflexivity.
Qed.

Lemma finditer_cons c s :
  finditer (String c s) =
    if Ascii.eqb c "<" then
      match find_close s with
      | Some (k, r) => Match k :: finditer r
      | None => Lit c :: finditer s
      end
    else Lit c :: finditer s.
Proof.
  unfold finditer at 1. simpl.
  destruct (Ascii.eqb c "<"); [|reflexivity].
  destruct (find_close s) as [[k r]|] eqn:E; [|reflexivity].
  rewrite finditer_fuel_enough; [reflexivity|].
  apply find_close_length in E. lia.
Qed.

Lemma concat_empty_cons (x : string) (l : list string) :
  String.concat "" (x :: l) = x +:+ String.concat "" l.
Proof.
  destruct l as [|y l]; simpl; [|reflexivity].
  symmetry. apply append_nil_r.
Qed.

(** The segments cover the template: no character is lost or reordered. *)
Lemma finditer_text s :
  String.concat "" (map segment_text (finditer s)) = s.
Proof.
  induction s as [s IH] using (induction_ltof1 _ String.length).
  unfold ltof in IH. destruct s as [|c s]; [reflexivity|].
  rewrite finditer_cons.
  destruct (Ascii.eqb_spec c "<") as [->|_].
  - destruct (find_close s) as [[k r]|] eqn:E.
    + rewrite map_cons, concat_empty_cons, IH
        by (apply find_close_length in E; simpl; lia).
      cbn [segment_text]. rewrite (find_close_text _ _ _ E) at 1.
      rewrite !append_cons, append_nil_l, append_assoc. reflexivity.
    + rewrite map_cons, concat_empty_cons, IH by (simpl; lia). reflexivity.
  - rewrite map_cons, concat_empty_cons, IH by (simpl; lia). reflexivity.
Qed.

(** [fullmatch] and a single plain match. *)
Lemma body_before_gt_text s b : body_before_gt s = Some b -> s = b +:+ ">".
Proof.
  revert b. induction s as [|c s IH]; intros b; [discriminate|].
  cbn [body_before_gt]. destruct s as [|c' s'].
  - destruct (Ascii.eqb_spec c ">") as [->|_]; [|discriminate].
    intros [= <-]. reflexivity.
  - destruct (body_before_gt (String c' s')) as [b'|]; [|discriminate].
    intros [= <-]. rewrite append_cons. f_equal. apply IH. reflexivity.
Qed.

Lemma fullmatch_text s key :
  fullmatch s = Some key ->
  s = "<" +:+ key +:+ ">" /\ Str.no_char Str.newline key = true.
Proof.
  unfold fullmatch. destruct s as [|c s]; [discriminate|].
  destruct (Ascii.eqb_spec c "<") as [->|_]; [|discriminate].
  destruct (body_before_gt s) as [b|] eqn:Hb; [|discriminate].
  destruct (Str.no_char Str.newline b) eqn:Hnl; [|discriminate].
  intros [= <-]. apply body_before_gt_text in Hb. subst s.
  split; [reflexivity|exact Hnl].
Qed.

Lemma find_close_plain key rest :
  Str.no_char ">" key = true -> Str.no_char Str.newline key = true ->
  find_close (key +:+ ">" +:+ rest) = Some (key, rest).
Proof.
  induction key as [|c key IH]; intros Hgt Hnl.
  - reflexivity.
  - cbn [Str.no_char] in Hgt, Hnl.
    apply andb_true_iff in Hgt as [Hc1 Hgt], Hnl as [Hc2 Hnl].
    apply negb_true_iff in Hc1, Hc2.
    rewrite append_cons. cbn [find_close]. rewrite Hc1, Hc2, IH by assumption.
    reflexivity.
Qed.

Lemma finditer_single key :
  Str.no_char ">" key = true -> Str.no_char Str.newline key = true ->
  finditer ("<" +:+ key +:+ ">") = [Match key].
Proof.
  intros Hgt Hnl. rewrite append_cons, append_nil_l, finditer_cons.
  cbn [Ascii.eqb Bool.eqb]. 
  rewrite <- (append_nil_r (key +:+ ">")), append_assoc.
  rewrite find_close_plain by assumption. reflexivity.
Qed.

Lemma finditer_keys s k :
  In (Match k) (finditer s) -> Str.no_char ">" k = true.
Proof.
  induction s as [s IH] using (induction_ltof1 _ String.length).
  unfold ltof in IH. destruct s as [|c s]; [intros []|].
  rewrite finditer_cons. destruct (Ascii.eqb c "<").
  - destruct (find_close s) as [[k' r]|] eqn:E.
    + intros [[= <-]|Hin].
      * apply (find_close_key _ _ _ E).
      * apply (IH r); [apply find_close_length in E; simpl; lia|exact Hin].
    + intros [[=]|Hin]. apply (IH s); [simpl; lia|exact Hin].
  - intros [[=]|Hin]. apply (IH s); [simpl; lia|exact Hin].
Qed.

Lemma findall_keys s k : In k (findall s) -> Str.no_char ">" k = true.
Proof.
  unfold findall. intros Hin. apply list_elem_of_In in Hin.
  apply list_elem_of_omap in Hin as (g & Hg & Hk).
  destruct g as [c|k']; [discriminate|]. injection Hk as ->.
  apply (finditer_keys s). apply list_elem_of_In. exact Hg.
Qed.

End PlaceholderFacts.

(** ** The input transformer *)

Section InputTransformerFacts.
Context `{PyLib}.

Lemma replace_match_text (R : gmap string json) key :
  replace_match R key = placeholder_text R key.
Proof.
  unfold replace_match, placeholder_text.
  destruct (R !! key) as [[]|]; reflexivity.
Qed.

Lemma sub_ext (f g : string -> string) s :
  (forall k, f k = g k) -> Placeholder.sub f s = Placeholder.sub g s.
Proof.
  intros Hfg. unfold Placeholder.sub. f_equal.
  apply map_ext. intros [c|k]; simpl; [reflexivity|apply Hfg].
Qed.

(** The jsonpath entries never displace a key that does not open with ["$."]. *)
Lemma jsonpath_entries_keep (E : dict) (keys : list string)
    (R : gmap string json) (key : string) :
  Str.startswith "$." key = false ->
  foldl (fun (r : gmap string json) placeholder =>
           if Str.startswith "$." placeholder
           then <[placeholder := _extract_jsonpath E placeholder]> r
           else r) R keys !! key = R !! key.
Proof.
  intros Hkey. revert R. induction keys as [|p keys IH]; intros R; [reflexivity|].
  simpl. rewrite IH. destruct (Str.startswith "$." p) eqn:Hp; [|reflexivity].
  apply lookup_insert_ne. intros ->. congruence.
Qed.

(** The keys of the table: the seven fixed ones and the jsonpath matches. *)
Lemma jsonpath_entries_dom (E : dict) (keys : list string)
    (R : gmap string json) (key : string) v :
  foldl (fun (r : gmap string json) placeholder =>
           if Str.startswith "$." placeholder
           then <[placeholder := _extract_jsonpath E placeholder]> r
           else r) R keys !! key = Some v ->
  In key keys \/ is_Some (R !! key).
Proof.
  revert R. induction keys as [|p keys IH]; intros R; cbn [foldl].
  - intros Hv. right. eauto.
  - intros Hv. apply IH in Hv as [Hin|Hsome]; [left; right; exact Hin|].
    destruct (Str.startswith "$." p); [|right; exact Hsome].
    rewrite lookup_insert in Hsome. case_decide as Heq.
    + left. left. exact Heq.
    + right. exact Hsome.
Qed.

Lemma build_replacements_keys self now (E : dict) key v :
  _build_replacements self now E !! key = Some v ->
  Str.no_char ">" key = true.
Proof.
  unfold _build_replacements. intros Hv.
  apply jsonpath_entries_dom in Hv as [Hin|Hsome].
  - exact (findall_keys _ _ Hin).
  - repeat (rewrite lookup_insert in Hsome; case_decide;
            [subst key; reflexivity|]).
    rewrite lookup_empty in Hsome. destruct Hsome as [? [=]].
Qed.

Lemma build_replacements_event_json self now (E : dict) :
  _build_replacements self now E !! "aws.pipes.event.json" = Some (JObj E).
Proof.
  unfold _build_replacements. rewrite jsonpath_entries_keep by reflexivity.
  rewrite lookup_insert_ne by discriminate. apply lookup_insert_eq.
Qed.

(** The outcomes of [transform].  With [T] the template, [R] the
    replacement table of the event and [S] the template with every
    placeholder substituted (objects, arrays and booleans as JSON, other
    values as strings, unknown keys as the empty string):
    - when [T], trimmed, is one placeholder whose value is an object or an
      array, [transform] returns that value itself;
    - otherwise, when trimmed [T] does not open with a brace, it returns the
      string [S]; when it does, it returns the value [json.loads] gives for
      [S], the string [S] when [json.loads] raises [JSONDecodeError], and it
      raises what [json.loads] raises when that is anything else;
    - in particular the template [<aws.pipes.event.json>] returns the event.
    A trimmed template that matches the pattern as a whole on a key of the
    table is that one placeholder and nothing else. *)
Lemma transform_outcome (self : PipeInputTransformer) (now : string)
    (E : dict) :
  let T := input_template self in
  let R := _build_replacements self now E in
  let S := substituted R T in
  (forall key value,
      Placeholder.fullmatch (Str.strip T) = Some key ->
      default (JStr "") (R !! key) = value ->
      is_dict_or_list value = true ->
      transform self now E = Return value)
  /\ ((forall key,
         Placeholder.fullmatch (Str.strip T) = Some key ->
         is_dict_or_list (default (JStr "") (R !! key)) = false) ->
      transform self now E =
        if Str.startswith "{" (Str.strip T) then
          match json_loads S with
          | Return parsed => Return parsed
          | Raise e =>
              if is_json_decode_error e then Return (JStr S) else Raise e
          end
        else Return (JStr S))
  /\ (Str.strip T = "<aws.pipes.event.json>" ->
      transform self now E = Return (JObj E))
  /\ (forall key,
        Placeholder.fullmatch (Str.strip T) = Some key -> is_Some (R !! key) ->
        Placeholder.finditer (Str.strip T) = [Placeholder.Match key]).
Proof.
  intros T R S.
  assert (HS : Placeholder.sub (replace_match R) T = S)
    by (apply sub_ext, replace_match_text).
  unfold transform, _replace_placeholders. fold T R. rewrite HS.
  split; [|split; [|split]]; cycle 3.
  { intros key Hm [v Hv]. apply fullmatch_text in Hm as [-> Hnl].
    apply finditer_single; [|exact Hnl].
    exact (build_replacements_keys _ _ _ _ _ Hv). }
  - intros key value Hm <- Hv. rewrite Hm, Hv. reflexivity.
  - intros Hno. destruct (Placeholder.fullmatch (Str.strip T)) as [key|] eqn:Hm;
      [|reflexivity].
    rewrite (Hno key eq_refl). reflexivity.
  - intros ->. cbn [Placeholder.fullmatch]. simpl.
    subst R. rewrite build_replacements_event_json. reflexivity.
Qed.

(** C1, where the code departs from it.  The template, trimmed, opens with a
    brace and is not one placeholder with an object or an array for value;
    [S] is the template with every placeholder substituted.  When
    [json.loads] raises on [S] an exception that is no [JSONDecodeError] (a
    plain [ValueError] for an integer literal beyond the digit limit, a
    [RecursionError]), the handler of [_replace_placeholders] does not catch
    it: [transform] raises that exception, where the specification has it
    return the string [S]. *)
Theorem transform_raises_past_handler (self : PipeInputTransformer)
    (now : string) (E : dict) (e : py_exn) :
  let T := input_template self in
  let R := _build_replacements self now E in
  let S := substituted R T in
  (forall key,
     Placeholder.fullmatch (Str.strip T) = Some key ->
     is_dict_or_list (default (JStr "") (R !! key)) = false) ->
  Str.startswith "{" (Str.strip T) = true ->
  json_loads S = Raise e ->
  is_json_decode_error e = false ->
  transform self now E = Raise e
  /\ transform self now E <> Return (JStr S).
Proof.
  intros T R S Hno Hbrace Hloads Hcls.
  destruct (transform_outcome self now E) as (_ & Hrest & _).
  fold T R S in Hrest. rewrite (Hrest Hno), Hbrace, Hloads, Hcls.
  split; [reflexivity|discriminate].
Qed.

End InputTransformerFacts.

(** ** Dicts and the heap *)

Lemma dict_get_set_eq k v (d : dict) : dict_get k (dict_set k v d) = Some v.
Proof.
  induction d as [|[k' v'] d IH]; simpl.
  - rewrite String.eqb_refl. reflexivity.
  - destruct (String.eqb k k') eqn:E; simpl; rewrite E; [reflexivity|exact IH].
Qed.

Lemma dict_get_set_ne k k' v (d : dict) :
  k <> k' -> dict_get k' (dict_set k v d) = dict_get k' d.
Proof.
  intros Hne. induction d as [|[k0 v0] d IH]; simpl.
  - destruct (String.eqb_spec k' k) as [->|_]; [congruence|reflexivity].
  - destruct (String.eqb_spec k k0) as [->|_]; simpl.
    + destruct (String.eqb_spec k' k0) as [->|_]; [congruence|reflexivity].
    + rewrite IH. reflexivity.
Qed.

(** Storing the value a key already has changes nothing, order included. *)
Lemma dict_set_same k v (d : dict) : dict_get k d = Some v -> dict_set k v d = d.
Proof.
  induction d as [|[k' v'] d IH]; simpl; [discriminate|].
  destruct (String.eqb k k').
  - intros [= ->]. reflexivity.
  - intros Hd. rewrite IH by exact Hd. reflexivity.
Qed.

Lemma alloc_fresh (d : dict) (h : heap) : h !! (Heap.alloc d h).1 = None.
Proof. apply not_elem_of_dom, is_fresh. Qed.

Lemma setitem_alloc k v (d : dict) (h : heap) :
  Heap.setitem (Heap.alloc d h).1 k v (Heap.alloc d h).2 !! (Heap.alloc d h).1
  = Some (dict_set k v d).
Proof.
  unfold Heap.setitem, Heap.alloc. simpl.
  rewrite lookup_alter_eq, lookup_insert_eq. reflexivity.
Qed.

Lemma alloc_lookup (d : dict) (h : heap) :
  (Heap.alloc d h).2 !! (Heap.alloc d h).1 = Some d.
Proof. unfold Heap.alloc. simpl. apply lookup_insert_eq. Qed.

Lemma alloc_frame (d d0 : dict) (h : heap) l0 :
  h !! l0 = Some d0 -> (Heap.alloc d h).2 !! l0 = Some d0.
Proof.
  intros Hl0. pose proof (alloc_fresh d h) as Hfresh.
  unfold Heap.alloc in *. simpl in *.
  rewrite lookup_insert_ne by congruence. exact Hl0.
Qed.

Lemma setitem_alloc_frame k v (d d0 : dict) (h : heap) l0 :
  h !! l0 = Some d0 ->
  Heap.setitem (Heap.alloc d h).1 k v (Heap.alloc d h).2 !! l0 = Some d0.
Proof.
  intros Hl0. pose proof (alloc_fresh d h) as Hfresh.
  unfold Heap.setitem, Heap.alloc in *. simpl in *.
  assert (fresh (dom h) <> l0) by congruence.
  rewrite lookup_alter_ne, lookup_insert_ne by assumption. exact Hl0.
Qed.

(** ** The event processor *)

Section EventProcessorFacts.
Context `{PyLib}.

(** A round of the rule is a round of the loop. *)
Lemma base64_round_code (v : json) :
  base64_round v = JStr <$> b64decode_to_str v.
Proof.
  destruct v; reflexivity.
Qed.

Lemma b64_rounds_S i raw :
  b64_rounds (S i) raw =
    match b64decode_to_str raw with
    | Some d => b64_rounds i (JStr d)
    | None => None
    end.
Proof.
  cbn [b64_rounds]. rewrite base64_round_code.
  destruct (b64decode_to_str raw); reflexivity.
Qed.

Lemma rounds_upto_none (P : string -> Prop) raw : rounds_upto P 0 raw.
Proof. intros j s Hj. lia. Qed.

Lemma rounds_upto_S (P : string -> Prop) i raw d :
  b64decode_to_str raw = Some d -> P d -> rounds_upto P i (JStr d) ->
  rounds_upto P (S i) raw.
Proof.
  intros Hd Hp Hi j s Hj. destruct j as [|j]; [lia|].
  rewrite b64_rounds_S, Hd. destruct j as [|j].
  - intros [= <-]. exact Hp.
  - apply Hi. lia.
Qed.

(** The loop against the rule, for any number of rounds. *)
Lemma decode_rounds_rule n raw :
  match decode_rounds n raw with
  | Parsed D =>
      exists i s, (1 <= i <= n)%nat /\ b64_rounds i raw = Some (JStr s)
                  /\ json_loads s = Return D
                  /\ rounds_upto parse_fails (i - 1) raw
  | Fell D =>
      exists i, (i <= n)%nat /\ b64_rounds i raw = Some D
                /\ (i = n \/ b64_rounds (S i) raw = None)
                /\ rounds_upto parse_fails i raw
  | Raised e =>
      exists i s, (1 <= i <= n)%nat /\ b64_rounds i raw = Some (JStr s)
                  /\ json_loads s = Raise e /\ is_value_error e = false
                  /\ rounds_upto parse_fails (i - 1) raw
  end.
Proof.
  revert raw. induction n as [|n IH]; intros raw.
  - simpl. exists 0%nat. repeat split; auto. apply rounds_upto_none.
  - cbn [decode_rounds]. destruct (b64decode_to_str raw) as [d|] eqn:Hd.
    + destruct (json_loads d) as [e|v] eqn:Hv.
      * destruct (is_value_error e) eqn:He.
        -- assert (Hfail : parse_fails d) by (exists e; split; assumption).
           specialize (IH (JStr d)).
           destruct (decode_rounds n (JStr d)) as [D|D|e'].
           ++ destruct IH as (i & s & Hi & Hr & Hp & Hno).
              exists (S i), s. repeat split; try lia.
              ** rewrite b64_rounds_S, Hd. exact Hr.
              ** exact Hp.
              ** destruct i as [|i]; [lia|]. cbn [Nat.sub] in *.
                 rewrite Nat.sub_0_r in *.
                 apply (rounds_upto_S _ _ _ d); assumption.
           ++ destruct IH as (i & Hi & Hr & Hlast & Hno).
              exists (S i). repeat split; try lia.
              ** rewrite b64_rounds_S, Hd. exact Hr.
              ** destruct Hlast as [->|Hlast]; [left; reflexivity|right].
                 rewrite b64_rounds_S, Hd. exact Hlast.
              ** apply (rounds_upto_S _ _ _ d); assumption.
           ++ destruct IH as (i & s & Hi & Hr & Hp & He' & Hno).
              exists (S i), s. repeat split; try lia.
              ** rewrite b64_rounds_S, Hd. exact Hr.
              ** exact Hp.
              ** exact He'.
              ** destruct i as [|i]; [lia|]. cbn [Nat.sub] in *.
                 rewrite Nat.sub_0_r in *.
                 apply (rounds_upto_S _ _ _ d); assumption.
        -- exists 1%nat, d. repeat split; try lia.
           ++ rewrite b64_rounds_S, Hd. reflexivity.
           ++ exact Hv.
           ++ exact He.
           ++ apply rounds_upto_none.
      * exists 1%nat, d. repeat split; try lia.
        -- rewrite b64_rounds_S, Hd. reflexivity.
        -- exact Hv.
        -- apply rounds_upto_none.
    + exists 0%nat. repeat split; try lia.
      * right. rewrite b64_rounds_S, Hd. reflexivity.
      * apply rounds_upto_none.
Qed.

Lemma decode_data_field_unfold (event : loc) (h : heap) d raw :
  h !! event = Some d -> dict_get "data" d = Some raw ->
  _decode_data_field event h =
    ((Heap.alloc d h).1,
     match decode_rounds 3 raw with
     | Parsed v | Fell v =>
         Heap.setitem (Heap.alloc d h).1 "data" v (Heap.alloc d h).2
     | Raised _ => (Heap.alloc d h).2
     end).
Proof.
  intros Hl Hraw. unfold _decode_data_field, Heap.read, dict_contains.
  rewrite Hl. cbn [from_option id]. rewrite Hraw. cbn [negb from_option id].
  destruct (Heap.alloc d h) as [l' h1]. cbn [fst snd].
  destruct (decode_rounds 3 raw); reflexivity.
Qed.

Lemma decode_data_field_no_data (event : loc) (h : heap) :
  dict_contains "data" (Heap.read event h) = false ->
  _decode_data_field event h = (event, h).
Proof. intros Hd. unfold _decode_data_field. rewrite Hd. reflexivity. Qed.

(** C2, as the code has it.  [_decode_data_field] on a record with a [data]
    field [raw] returns a record that differs from the input in [data] only,
    and [data] is: the parse of the first of at most three base64 rounds
    whose string parses as JSON, the parse of every round before it having
    failed with a [ValueError] ([JSONDecodeError] included); when every
    parse fails so, the string of the last round that decoded, or [raw]
    itself when the first round fails to decode; and [raw] itself when
    [json.loads] raises anything else on the string of a round.  A record
    without a [data] field is returned as it is: the same object, the heap
    untouched. *)
Theorem decode_data_field_rounds (h : heap) (l : loc) (event : dict) :
  h !! l = Some event ->
  (dict_contains "data" event = false -> _decode_data_field l h = (l, h))
  /\ (forall raw, dict_get "data" event = Some raw ->
      exists D,
        (_decode_data_field l h).2 !! (_decode_data_field l h).1
          = Some (dict_set "data" D event)
        /\ decoded_data 3 raw D).
Proof.
  intros Hl. split.
  - intros Hd. apply decode_data_field_no_data.
    unfold Heap.read. rewrite Hl. exact Hd.
  - intros raw Hraw. rewrite (decode_data_field_unfold _ _ _ _ Hl Hraw).
    cbn [fst snd]. pose proof (decode_rounds_rule 3 raw) as Hrule.
    destruct (decode_rounds 3 raw) as [D|D|e].
    + exists D. split; [apply setitem_alloc|]. left. exact Hrule.
    + exists D. split; [apply setitem_alloc|]. right. left. exact Hrule.
    + exists raw. split.
      * rewrite alloc_lookup, dict_set_same by exact Hraw. reflexivity.
      * right. right. destruct Hrule as (i & s & Hi & Hr & Hp & He & Hno).
        exists i, s. repeat split; try lia; try assumption.
        exists e. split; assumption.
Qed.

(** A value that is not a string stops the loop at once. *)
Lemma decode_rounds_not_str n v :
  (forall s, v <> JStr s) -> decode_rounds (S n) v = Fell v.
Proof. intros Hv. destruct v; try reflexivity. congruence. Qed.

Lemma decode_data_field_object (h : heap) (l : loc) (event : dict) o :
  h !! l = Some event -> dict_get "data" event = Some (JObj o) ->
  (_decode_data_field l h).2 !! (_decode_data_field l h).1 = Some event.
Proof.
  intros Hl Hraw. rewrite (decode_data_field_unfold _ _ _ _ Hl Hraw).
  cbn [fst snd]. rewrite decode_rounds_not_str by discriminate.
  rewrite setitem_alloc, dict_set_same by exact Hraw. reflexivity.
Qed.

(** C8.  When [data] is already an object, the record [_decode_data_field]
    returns is equal to the input record, [data] included; decoding that
    result once more gives an equal record again. *)
Theorem decode_data_field_idempotent (h : heap) (l : loc) (event : dict) o :
  h !! l = Some event -> dict_get "data" event = Some (JObj o) ->
  let r1 := _decode_data_field l h in
  let r2 := _decode_data_field r1.1 r1.2 in
  Heap.read r1.1 r1.2 = event /\ Heap.read r2.1 r2.2 = Heap.read r1.1 r1.2.
Proof.
  intros Hl Hraw r1 r2.
  pose proof (decode_data_field_object h l event o Hl Hraw) as H1. fold r1 in H1.
  pose proof (decode_data_field_object _ _ event o H1 Hraw) as H2. fold r2 in H2.
  unfold Heap.read. rewrite H1, H2. split; reflexivity.
Qed.

(** [_decode_data_field] writes to the copy it has just made, and to nothing
    else. *)
Lemma decode_data_field_frame (event : loc) (h : heap) l0 d0 :
  h !! l0 = Some d0 -> (_decode_data_field event h).2 !! l0 = Some d0.
Proof.
  intros Hl0. unfold _decode_data_field.
  destruct (negb (dict_contains "data" (Heap.read event h))); [exact Hl0|].
  pose proof (fun k v => setitem_alloc_frame k v (Heap.read event h) d0 h l0 Hl0)
    as Hframe.
  pose proof (alloc_frame (Heap.read event h) d0 h l0 Hl0) as Hkeep.
  destruct (Heap.alloc (Heap.read event h) h) as [l' h1].
  cbn [fst snd] in Hframe, Hkeep.
  destruct (decode_rounds 3 _); cbn [snd]; solve [apply Hframe | exact Hkeep].
Qed.

Lemma decode_all_frame (input_events : list loc) (h : heap) l0 d0 :
  h !! l0 = Some d0 -> (decode_all input_events h).2 !! l0 = Some d0.
Proof.
  revert h. induction input_events as [|e es IH]; intros h Hl0; [exact Hl0|].
  cbn [decode_all].
  pose proof (decode_data_field_frame e h l0 d0 Hl0) as H1.
  destruct (_decode_data_field e h) as [e' h1]. cbn [snd] in H1.
  specialize (IH h1 H1). destruct (decode_all es h1) as [es' h2]. exact IH.
Qed.

Lemma process_events_batch_heap self clock input_events (h : heap) :
  (process_events_batch self clock input_events h).2
  = (decode_all input_events h).2.
Proof.
  unfold process_events_batch, process_events_body.
  destruct (decode_all input_events h) as [events h'].
  destruct (match input_transformer self with Some _ => _ | None => _ end)
    as [e|transformed].
  - destruct (is_customer_invocation_error e); reflexivity.
  - destruct (tgt_send _ _) as [e|[]]; [|reflexivity].
    destruct (is_customer_invocation_error e); reflexivity.
Qed.

(** C9.  [process_events_batch] leaves every object that exists before the
    call as it was, the input events among them: decoding writes to fresh
    copies, the transformer and the target read. *)
Theorem process_events_batch_keeps_input self clock input_events (h : heap) :
  forall l d, h !! l = Some d ->
    (process_events_batch self clock input_events h).2 !! l = Some d.
Proof.
  intros l d Hl. rewrite process_events_batch_heap.
  apply decode_all_frame. exact Hl.
Qed.

(** C3.  What [process_events_batch] raises, against what the body of its
    [try] raises: a [CustomerInvocationError] goes through as it is, any
    other exception becomes a [PipeInternalError] with the same message (and
    the original as its cause), and nothing else is ever raised.  A body
    that returns makes the call return. *)
Theorem process_events_batch_errors self clock input_events (h : heap) :
  let body := (process_events_body self clock input_events h).1 in
  let outcome := (process_events_batch self clock input_events h).1 in
  (forall e, body = Raise e -> exn_cls e = CustomerInvocationError ->
             outcome = Raise e)
  /\ (forall e, body = Raise e -> exn_cls e <> CustomerInvocationError ->
                outcome = Raise (Exn PipeInternalError (exn_str e) (Some e)))
  /\ (forall e', outcome = Raise e' ->
                 exn_cls e' = CustomerInvocationError
                 \/ exn_cls e' = PipeInternalError)
  /\ (body = Return tt -> outcome = Return tt).
Proof.
  intros body outcome. subst body outcome. unfold process_events_batch.
  destruct (process_events_body self clock input_events h) as [[e|[]] h'];
    cbn [fst].
  - unfold is_customer_invocation_error.
    destruct e as [cls msg cause]. cbn [exn_cls exn_str].
    destruct cls; cbn [fst]; repeat split; intros;
      try discriminate; try congruence; simplify_eq; auto.
  - repeat split; intros; try discriminate; reflexivity.
Qed.

End EventProcessorFacts.

(** ** The HTTP destination target *)

Section ApiDestinationFacts.
Import ApiDestination.
Context `{PyLib} `{Services}.

Lemma send_events_step method endpoint hd event events sent log response :
  requests_request sent (request_for method endpoint hd event) = Return response ->
  send_events method endpoint hd (event :: events) sent log
  = send_events method endpoint hd events
      (sent ++ [request_for method endpoint hd event])
      (if is_error_status response
       then log ++ [warning_for method endpoint response] else log).
Proof.
  intros Hr. cbn [send_events]. fold (request_for method endpoint hd event).
  rewrite Hr. reflexivity.
Qed.

(** The loop, when the endpoint answers every request: whatever the status
    codes are, it runs to the end of the batch. *)
Lemma send_events_answered method endpoint hd events :
  (forall sent rq, exists response, requests_request sent rq = Return response) ->
  forall sent log, exists responses,
    answers sent (map (request_for method endpoint hd) events) responses
    /\ send_events method endpoint hd events sent log
       = (Return tt,
          sent ++ map (request_for method endpoint hd) events,
          log ++ map (warning_for method endpoint)
                     (filter (fun r => is_error_status r = true) responses)).
Proof.
  intros Hans. induction events as [|event events IH]; intros sent log.
  - exists []. split; [split; [reflexivity|intros i rq r Hi; destruct i; discriminate]|].
    cbn [send_events map]. rewrite filter_nil. cbn [map].
    rewrite !app_nil_r. reflexivity.
  - destruct (Hans sent (request_for method endpoint hd event)) as [response Hr].
    rewrite (send_events_step _ _ _ _ _ _ _ _ Hr).
    destruct (IH (sent ++ [request_for method endpoint hd event])
                 (if is_error_status response
                  then log ++ [warning_for method endpoint response] else log))
      as (responses & [Hlen Hnth] & Hsend).
    exists (response :: responses). split; [split|].
    + cbn [map length]. rewrite Hlen. reflexivity.
    + intros i rq r. destruct i as [|i]; cbn [map].
      * intros [= <-] [= <-]. cbn [take]. rewrite app_nil_r. exact Hr.
      * intros Hi Hri. cbn [take]. specialize (Hnth i rq r Hi Hri).
        rewrite <- app_assoc in Hnth. exact Hnth.
    + rewrite Hsend. cbn [map]. rewrite <- app_assoc. cbn [app]. f_equal.
      rewrite filter_cons. destruct (is_error_status response) eqn:Hst.
      * rewrite decide_True by reflexivity. cbn [map].
        rewrite <- app_assoc. reflexivity.
      * rewrite decide_False by discriminate. reflexivity.
Qed.

(** C7, as the code has it.  Once the destination is resolved and as long
    as the endpoint answers, [send] makes one request per event, in batch
    order, with the serialised event as the body, and returns; a response
    with a status of 400 or more, 401 and 403 included, adds a warning to
    the log and raises nothing. *)
Theorem send_logs_error_statuses (self : ApiDestinationPipeTarget)
    (events : list json) method endpoint hd :
  prepare self = Return (method, endpoint, hd) ->
  (forall sent rq, exists response, requests_request sent rq = Return response) ->
  exists responses,
    answers [] (map (request_for method endpoint hd) events) responses
    /\ send self events
       = (Return tt,
          map (request_for method endpoint hd) events,
          map (warning_for method endpoint)
              (filter (fun r => is_error_status r = true) responses)).
Proof.
  intros Hprep Hans. unfold send. rewrite Hprep.
  destruct (send_events_answered method endpoint hd events Hans [] [])
    as (responses & Hanswers & Hsend).
  exists responses. split; [exact Hanswers|]. exact Hsend.
Qed.

End ApiDestinationFacts.

(** ** The control plane *)

Section ProviderFacts.
Import Provider.
Context `{WorkerFactory}.
Variable context : RequestContext.

(** [PipeWorkerFactory.create] leaves the entity as it is, but for the
    defaults in its source parameters. *)
Lemma factory_create_entity pipe :
  exists sp, source_defaults pipe sp
    /\ (PipeWorkerFactory_create pipe).2 = set_source_parameters sp pipe.
Proof.
  assert (Hsame : pipe = set_source_parameters (source_parameters pipe) pipe)
    by (destruct pipe; reflexivity).
  assert (Hkeep : forall r : result py_exn PipeWorker * PipeEntity,
            r.2 = pipe ->
            exists sp, source_defaults pipe sp
                       /\ r.2 = set_source_parameters sp pipe).
  { intros r ->. exists (source_parameters pipe).
    split; [left; reflexivity|exact Hsame]. }
  unfold PipeWorkerFactory_create.
  destruct (get_internal_client pipe); [apply Hkeep; reflexivity|].
  destruct (TargetFactory.create (target pipe)); [apply Hkeep; reflexivity|].
  destruct (input_template_of pipe); [apply Hkeep; reflexivity|].
  cbn zeta.
  assert (Hfresh :
    (match
       PollerFactory._create_poller
         (PollerFactory._source_service_from_arn (source pipe)) []
     with
     | Raise e => (Raise e, pipe)
     | Return (cls, d) =>
         match Poller_init cls pipe (JObj d) with
         | Raise e => (Raise e, pipe)
         | Return _ => (Return {| worker_pipe_name := name pipe |}, pipe)
         end
     end).2 = pipe).
  { destruct (PollerFactory._create_poller _ []) as [e|[cls d]]; [reflexivity|].
    destruct (Poller_init cls pipe (JObj d)); reflexivity. }
  destruct (source_parameters pipe) as [v|] eqn:Hv; [|apply Hkeep, Hfresh].
  destruct (negb (ApiDestination.truthy v)); [apply Hkeep, Hfresh|].
  destruct v as [| |?|?|?|?|d0].
  1-6: apply Hkeep;
    match goal with
    | |- context [PollerFactory._create_poller_no_dict ?a ?b] =>
        destruct (PollerFactory._create_poller_no_dict a b) as [e|cls];
        [reflexivity|]
    end;
    match goal with
    | |- context [Poller_init ?x ?y ?z] => destruct (Poller_init x y z)
    end; reflexivity.
  destruct (PollerFactory._create_poller _ d0) as [e|[cls d1]] eqn:Hc;
    [apply Hkeep; reflexivity|].
  exists (Some (JObj d1)). split.
  - right. exists d0, cls, d1. repeat split; assumption.
  - destruct (Poller_init _ _ _); reflexivity.
Qed.

(** The four ways [_start_pipe_worker] ends: the thread is started and has
    not yet written, or has; the thread could not be started; the worker
    could not be created. *)
Lemma start_pipe_worker_shape pipe workers :
  exists sp w,
    source_defaults pipe sp /\
    let pipe1 := set_source_parameters sp pipe in
    let starting := set_current_state PipeState.STARTING pipe1 in
    _start_pipe_worker pipe workers = (starting, <[name pipe := w]> workers)
    \/ _start_pipe_worker pipe workers
       = (set_current_state PipeState.RUNNING starting,
          <[name pipe := w]> workers)
    \/ _start_pipe_worker pipe workers
       = (start_failed starting, <[name pipe := w]> workers)
    \/ _start_pipe_worker pipe workers = (start_failed pipe1, workers).
Proof.
  unfold _start_pipe_worker.
  destruct (factory_create_entity pipe) as (sp & Hdef & Hsp).
  destruct (PipeWorkerFactory_create pipe) as [[e|w] pipe1]; cbn [snd] in Hsp;
    subst pipe1.
  - exists sp, {| worker_pipe_name := name pipe |}. split; [exact Hdef|].
    cbn zeta. auto.
  - exists sp, w. split; [exact Hdef|]. cbn zeta.
    destruct (FuncThread_start _) as [e|[]]; auto.
Qed.

Lemma start_pipe_worker_fields pipe workers :
  let pipe' := (_start_pipe_worker pipe workers).1 in
  name pipe' = name pipe
  /\ desired_state pipe' = desired_state pipe
  /\ last_modified_time pipe' = last_modified_time pipe.
Proof.
  destruct (start_pipe_worker_shape pipe workers) as (sp & w & _ & Hs).
  cbn zeta in Hs. destruct Hs as [Hs|[Hs|[Hs|Hs]]]; rewrite Hs;
    repeat split; reflexivity.
Qed.

Lemma stop_pipe_worker_fields pipe workers :
  let pipe' := (_stop_pipe_worker pipe workers).1 in
  name pipe' = name pipe
  /\ desired_state pipe' = desired_state pipe
  /\ last_modified_time pipe' = last_modified_time pipe.
Proof.
  unfold _stop_pipe_worker.
  destruct (workers !! name pipe); repeat split; reflexivity.
Qed.

Lemma store_wf_insert s n p' T W :
  store_wf s -> name p' = n -> _validate_pipe_name n = Return tt ->
  store_wf {| pipes := <[n := p']> (pipes s); TAGS := T; _pipe_workers := W |}.
Proof.
  intros Hwf Hn Hv n0 p0. cbn [pipes]. rewrite lookup_insert.
  case_decide as Heq.
  - intros [= <-]. subst n0. split; assumption.
  - apply Hwf.
Qed.

Lemma store_wf_call c s : store_wf s -> store_wf (call context c s).2.
Proof.
  intros Hwf. destruct c as [now rq|now rq|now n|now n|now n|a t|a ks|a];
    cbn [call].
  - unfold create_pipe.
    destruct (_validate_pipe_name (cp_name rq)) as [e|[]] eqn:Hv; [exact Hwf|].
    destruct (pipes s !! cp_name rq); [exact Hwf|].
    destruct (decide (default RequestedPipeState.RUNNING (cp_desired_state rq)
                      = RequestedPipeState.RUNNING)).
    + match goal with |- context [_start_pipe_worker ?p ?w] =>
        pose proof (start_pipe_worker_fields p w) as (Hn & _);
        destruct (_start_pipe_worker p w) as [pipe' workers'] end.
      apply store_wf_insert; [exact Hwf|exact Hn|exact Hv].
    + apply store_wf_insert; [exact Hwf|reflexivity|exact Hv].
  - unfold update_pipe, _get_pipe.
    destruct (pipes s !! up_name rq) as [pipe|] eqn:Hp; [|exact Hwf].
    destruct (Hwf _ _ Hp) as [Hn Hv].
    pose proof (stop_pipe_worker_fields pipe (_pipe_workers s)) as (Hn1 & _).
    destruct (_stop_pipe_worker pipe (_pipe_workers s)) as [pipe1 workers1].
    cbn [fst] in Hn1.
    match goal with |- context [decide ?P] => destruct (decide P) end.
    + match goal with |- context [_start_pipe_worker ?p ?w] =>
        pose proof (start_pipe_worker_fields p w) as (Hn3 & _);
        destruct (_start_pipe_worker p w) as [pipe3 workers3] end.
      apply store_wf_insert; [exact Hwf|cbn in Hn3; congruence|exact Hv].
    + apply store_wf_insert; [exact Hwf|cbn; congruence|exact Hv].
  - unfold delete_pipe, _get_pipe.
    destruct (pipes s !! n) as [pipe|] eqn:Hp; [|exact Hwf].
    destruct (_stop_pipe_worker pipe (_pipe_workers s)) as [pipe1 workers1].
    intros n0 p0. cbn [snd pipes]. rewrite lookup_delete.
    case_decide; [discriminate|apply Hwf].
  - unfold start_pipe, _get_pipe.
    destruct (pipes s !! n) as [pipe|] eqn:Hp; [|exact Hwf].
    destruct (Hwf _ _ Hp) as [Hn Hv].
    destruct (decide (desired_state pipe = RequestedPipeState.RUNNING));
      [exact Hwf|].
    match goal with |- context [_start_pipe_worker ?p ?w] =>
      pose proof (start_pipe_worker_fields p w) as (Hn2 & _);
      destruct (_start_pipe_worker p w) as [pipe2 workers2] end.
    apply store_wf_insert; [exact Hwf|cbn in Hn2; congruence|exact Hv].
  - unfold stop_pipe, _get_pipe.
    destruct (pipes s !! n) as [pipe|] eqn:Hp; [|exact Hwf].
    destruct (Hwf _ _ Hp) as [Hn Hv].
    destruct (decide (desired_state pipe = RequestedPipeState.STOPPED));
      [exact Hwf|].
    match goal with |- context [_stop_pipe_worker ?p ?w] =>
      pose proof (stop_pipe_worker_fields p w) as (Hn2 & _);
      destruct (_stop_pipe_worker p w) as [pipe2 workers2] end.
    apply store_wf_insert; [exact Hwf|cbn in Hn2; congruence|exact Hv].
  - unfold tag_resource, _get_pipe.
    destruct (pipes s !! _pipe_name_from_arn a) as [pipe|] eqn:Hp; [|exact Hwf].
    destruct (Hwf _ _ Hp) as [Hn Hv].
    apply store_wf_insert; [exact Hwf|exact Hn|exact Hv].
  - unfold untag_resource, _get_pipe.
    destruct (pipes s !! _pipe_name_from_arn a) as [pipe|] eqn:Hp; [|exact Hwf].
    destruct (Hwf _ _ Hp) as [Hn Hv].
    apply store_wf_insert; [exact Hwf| |exact Hv].
    destruct (tags pipe) as [m|]; [|exact Hn].
    destruct (decide (m = ∅)); exact Hn.
  - unfold list_tags_for_resource.
    destruct (_get_pipe _ s); exact Hwf.
Qed.

Lemma store_wf_worker n st s : store_wf s -> store_wf (worker_thread_write n st s).
Proof.
  intros Hwf n0 p0. unfold worker_thread_write. cbn [pipes].
  rewrite lookup_alter. case_decide as Heq.
  - subst n0. destruct (pipes s !! n) as [p|] eqn:Hp; [|discriminate].
    intros [= <-]. exact (Hwf _ _ Hp).
  - apply Hwf.
Qed.

(** The invariant of the registry. *)
Lemma reachable_store_wf s : reachable context s -> store_wf s.
Proof.
  induction 1 as [|c s _ IH|n st s _ IH _].
  - intros n p. cbn. rewrite lookup_empty. discriminate.
  - apply store_wf_call. exact IH.
  - apply store_wf_worker. exact IH.
Qed.

(** C5.  In every state the provider can be in, [create_pipe] with the name
    of a pipe that exists raises [ConflictException] and returns the state it
    was given: the pipes, the tag service and the worker index are the
    same. *)
Theorem create_pipe_conflict now rq s p :
  reachable context s -> pipes s !! cp_name rq = Some p ->
  create_pipe context now rq s
  = (Raise (ConflictException ("Pipe " +:+ cp_name rq +:+ " already exists.")
                              (cp_name rq) "pipe"), s).
Proof.
  intros Hreach Hp. destruct (reachable_store_wf s Hreach _ _ Hp) as [_ Hv].
  unfold create_pipe. rewrite Hv, Hp. reflexivity.
Qed.

(** C6.  For a pipe [p] of the registry, [start_pipe] raises
    [ConflictException] exactly when the desired state of [p] is already
    [RUNNING], and [stop_pipe] exactly when it is already [STOPPED]; a call
    that raises the conflict returns the state it was given. *)
Theorem start_stop_conflict now s p :
  pipes s !! name p = Some p ->
  (is_conflict (start_pipe now (name p) s).1 = true
   <-> desired_state p = RequestedPipeState.RUNNING)
  /\ (is_conflict (stop_pipe now (name p) s).1 = true
      <-> desired_state p = RequestedPipeState.STOPPED)
  /\ (is_conflict (start_pipe now (name p) s).1 = true ->
      (start_pipe now (name p) s).2 = s)
  /\ (is_conflict (stop_pipe now (name p) s).1 = true ->
      (stop_pipe now (name p) s).2 = s).
Proof.
  intros Hp. unfold start_pipe, stop_pipe, _get_pipe. rewrite Hp.
  destruct (decide (desired_state p = RequestedPipeState.RUNNING)) as [Hr|Hr];
    destruct (decide (desired_state p = RequestedPipeState.STOPPED)) as [Hs|Hs];
    try (rewrite Hr in Hs; discriminate).
  all: repeat match goal with
       | |- context [_start_pipe_worker ?q ?w] =>
           destruct (_start_pipe_worker q w) as [? ?]
       | |- context [_stop_pipe_worker ?q ?w] =>
           destruct (_stop_pipe_worker q w) as [? ?]
       end.
  all: cbn [fst snd is_conflict].
  all: repeat split; intros; try discriminate; try contradiction;
       try reflexivity; try assumption.
Qed.

End ProviderFacts.

(** ** Pipe names from ARNs, and the tag operations *)

Section ArnFacts.
Import Provider.

Lemma strip_prefix_text p s r : strip_prefix p s = Some r -> s = p +:+ r.
Proof.
  revert s. induction p as [|c p IH]; intros s; simpl.
  - intros [= ->]. reflexivity.
  - destruct s as [|c' s]; [discriminate|].
    destruct (Ascii.eqb_spec c c') as [->|_]; [|discriminate].
    intros Hs. rewrite append_cons. f_equal. apply IH. exact Hs.
Qed.

Lemma span_until_text stop s run rest :
  span_until stop s = (run, rest) ->
  s = run +:+ rest /\ Str.no_char stop run = true.
Proof.
  revert run rest. induction s as [|c s IH]; intros run rest; simpl.
  - intros [= <- <-]. split; reflexivity.
  - destruct (Ascii.eqb c stop) eqn:Hc.
    + intros [= <- <-]. split; reflexivity.
    + destruct (span_until stop s) as [run' rest'].
      intros [= <- <-]. destruct (IH _ _ eq_refl) as [-> Hno].
      split; [reflexivity|]. cbn [Str.no_char]. rewrite Hc, Hno. reflexivity.
Qed.

Lemma eqb_empty_false s : String.eqb s "" = false -> s <> "".
Proof. intros Hs ->. discriminate. Qed.

(** What the pattern accepts has the shape of a pipe ARN. *)
Lemma match_pipe_arn_shape s group1 :
  match_pipe_arn s = Some group1 -> is_pipe_arn s.
Proof.
  unfold match_pipe_arn.
  destruct (strip_prefix "arn:aws:pipes:" s) as [s1|] eqn:H1; [|discriminate].
  destruct (span_until ":" s1) as [region_ s2] eqn:H2.
  destruct (String.eqb region_ "") eqn:Hregion; [discriminate|].
  destruct (strip_prefix ":" s2) as [s3|] eqn:H3; [|discriminate].
  destruct (span_until ":" s3) as [account_ s4] eqn:H4.
  destruct (String.eqb account_ "") eqn:Haccount; [discriminate|].
  destruct (strip_prefix ":pipe/" s4) as [s5|] eqn:H5; [|discriminate].
  destruct (span_until Str.newline s5) as [g rest] eqn:H6.
  destruct (String.eqb g "") eqn:Hg; [discriminate|]. intros _.
  apply strip_prefix_text in H1, H3, H5.
  apply span_until_text in H2, H4, H6.
  destruct H2 as [H2 Hr], H4 as [H4 Ha], H6 as [H6 _].
  exists region_, account_, s5. repeat split.
  - apply eqb_empty_false. exact Hregion.
  - apply eqb_empty_false. exact Haccount.
  - intros ->. destruct g; [discriminate|]. rewrite append_cons in H6.
    discriminate.
  - exact Hr.
  - exact Ha.
  - subst s s1 s2 s3 s4. reflexivity.
Qed.

Lemma pipe_name_from_arn_other s :
  ~ is_pipe_arn s -> _pipe_name_from_arn s = s.
Proof.
  intros Hs. unfold _pipe_name_from_arn.
  destruct (match_pipe_arn s) as [g|] eqn:Hm; [|reflexivity].
  exfalso. apply Hs. exact (match_pipe_arn_shape _ _ Hm).
Qed.

(** C10.  On a string that is not of the shape of a pipe ARN,
    [_pipe_name_from_arn] returns the string itself; the tag operations then
    look for a pipe of that name and, when there is none, raise
    [NotFoundException] and leave the state as it was. *)
Theorem malformed_arn_not_found (s : string) (st : ProviderState) :
  ~ is_pipe_arn s ->
  _pipe_name_from_arn s = s
  /\ (pipes st !! s = None ->
      let not_found : result ServiceException Response :=
        Raise (NotFoundException ("Pipe " +:+ s +:+ " does not exist.")) in
      (forall new_tags, tag_resource s new_tags st = (not_found, st))
      /\ (forall tag_keys, untag_resource s tag_keys st = (not_found, st))
      /\ list_tags_for_resource s st = (not_found, st)).
Proof.
  intros Hs. pose proof (pipe_name_from_arn_other s Hs) as Hname.
  split; [exact Hname|]. intros Hnone not_found.
  unfold tag_resource, untag_resource, list_tags_for_resource, _get_pipe.
  rewrite Hname, Hnone. repeat split; reflexivity.
Qed.

(** The tag operations write the tags of the entity and of the tag service,
    and no other field: the time of the call does not reach the entity. *)
Lemma tag_resource_entity resource_arn new_tags (st : ProviderState) p :
  pipes st !! _pipe_name_from_arn resource_arn = Some p ->
  tag_resource resource_arn new_tags st
  = (Return TagResourceResponse,
     {| pipes := <[_pipe_name_from_arn resource_arn :=
                     set_tags (Some (new_tags ∪ default ∅ (tags p))) p]> (pipes st);
        TAGS := TAGS_tag_resource resource_arn new_tags (TAGS st);
        _pipe_workers := _pipe_workers st |}).
Proof.
  intros Hp. unfold tag_resource, _get_pipe. rewrite Hp. reflexivity.
Qed.

Lemma untag_resource_last_modified resource_arn tag_keys (st : ProviderState) p :
  pipes st !! _pipe_name_from_arn resource_arn = Some p ->
  (untag_resource resource_arn tag_keys st).1 = Return UntagResourceResponse
  /\ last_modified_time
       <$> pipes (untag_resource resource_arn tag_keys st).2
           !! _pipe_name_from_arn resource_arn
     = Some (last_modified_time p).
Proof.
  intros Hp. unfold untag_resource, _get_pipe. rewrite Hp. cbn [fst snd pipes].
  rewrite lookup_insert_eq. split; [reflexivity|]. cbn [fmap option_fmap option_map].
  destruct (tags p) as [m|]; [|reflexivity].
  destruct (decide (m = ∅)); reflexivity.
Qed.

End ArnFacts.

(** ** [last_modified_time] *)

Section LastModifiedFacts.
Import Provider.
Context `{WorkerFactory}.
Variable context : RequestContext.

Ltac split_worker :=
  repeat match goal with
  | |- context [_start_pipe_worker ?q ?w] =>
      let Hf := fresh "Hf" in
      pose proof (start_pipe_worker_fields q w) as (_ & _ & Hf);
      destruct (_start_pipe_worker q w) as [? ?]; cbn [fst] in Hf
  | |- context [_stop_pipe_worker ?q ?w] =>
      let Hf := fresh "Hf" in
      pose proof (stop_pipe_worker_fields q w) as (_ & _ & Hf);
      destruct (_stop_pipe_worker q w) as [? ?]; cbn [fst] in Hf
  end.

Ltac stamped :=
  intros [= <- <-]; cbn [pipes LastModifiedTime response_of];
  rewrite ?lookup_insert_eq; cbn in *; repeat split; congruence.

(** The calls that read the clock: each one that returns has stamped the
    entity, and the response, with the time of the call. *)
Lemma create_pipe_stamps now rq (s : ProviderState) r s' :
  create_pipe context now rq s = (Return (PipeResp r), s') ->
  LastModifiedTime r = now
  /\ last_modified_time <$> pipes s' !! cp_name rq = Some now.
Proof.
  unfold create_pipe.
  destruct (_validate_pipe_name (cp_name rq)) as [?|[]]; [discriminate|].
  destruct (pipes s !! cp_name rq); [discriminate|].
  match goal with |- context [decide ?P] => destruct (decide P) end;
    split_worker; stamped.
Qed.

Lemma update_pipe_stamps now rq (s : ProviderState) r s' :
  update_pipe now rq s = (Return (PipeResp r), s') ->
  LastModifiedTime r = now
  /\ last_modified_time <$> pipes s' !! up_name rq = Some now.
Proof.
  unfold update_pipe, _get_pipe.
  destruct (pipes s !! up_name rq); [|discriminate].
  split_worker.
  match goal with |- context [decide ?P] => destruct (decide P) end;
    split_worker; stamped.
Qed.

Lemma start_pipe_stamps now n (s : ProviderState) r s' :
  start_pipe now n s = (Return (PipeResp r), s') ->
  LastModifiedTime r = now /\ last_modified_time <$> pipes s' !! n = Some now.
Proof.
  unfold start_pipe, _get_pipe.
  destruct (pipes s !! n); [|discriminate].
  match goal with |- context [decide ?P] => destruct (decide P) end;
    [discriminate|].
  split_worker; stamped.
Qed.

Lemma stop_pipe_stamps now n (s : ProviderState) r s' :
  stop_pipe now n s = (Return (PipeResp r), s') ->
  LastModifiedTime r = now /\ last_modified_time <$> pipes s' !! n = Some now.
Proof.
  unfold stop_pipe, _get_pipe.
  destruct (pipes s !! n); [|discriminate].
  match goal with |- context [decide ?P] => destruct (decide P) end;
    [discriminate|].
  split_worker; stamped.
Qed.

Lemma delete_pipe_stamps now n (s : ProviderState) r s' :
  delete_pipe now n s = (Return (PipeResp r), s') -> LastModifiedTime r = now.
Proof.
  unfold delete_pipe, _get_pipe.
  destruct (pipes s !! n); [|discriminate].
  split_worker. intros [= <- <-]. reflexivity.
Qed.

End LastModifiedFacts.

(** * Worked examples *)

Section Examples.
Import Sample.

(** The template of one event placeholder hands the event through (an
    object, not its text); a template around a jsonpath placeholder gives an
    object once the text is parsed. *)
Example transform_outcome_examples :
  transform (transformer "  <$.body>  ") "2026-01-01T00:00:00+00:00"
            [("body", JObj [("k", JInt 1)])]
  = Return (JObj [("k", JInt 1)])
  /\ transform (transformer ("{" +:+ dq +:+ "x" +:+ dq +:+ ":<$.x>}"))
               "2026-01-01T00:00:00+00:00" [("x", JInt 42)]
     = Return payload
  /\ transform (transformer "<aws.pipes.event.json>")
               "2026-01-01T00:00:00+00:00" [("a", JStr "b")]
     = Return (JObj [("a", JStr "b")]).
Proof.
  split; [|split].
  - apply (transform_outcome (transformer "  <$.body>  ")
             "2026-01-01T00:00:00+00:00" [("body", JObj [("k", JInt 1)])])
      with (key := "$.body"); vm_compute; reflexivity.
  - destruct (transform_outcome
                (transformer ("{" +:+ dq +:+ "x" +:+ dq +:+ ":<$.x>}"))
                "2026-01-01T00:00:00+00:00" [("x", JInt 42)]) as (_ & H2 & _).
    rewrite H2; [vm_compute; reflexivity|].
    intros key Hkey. vm_compute in Hkey. discriminate.
  - apply (transform_outcome (transformer "<aws.pipes.event.json>")
             "2026-01-01T00:00:00+00:00" [("a", JStr "b")]).
    reflexivity.
Qed.

(** A template that is an object with an integer of 5000 digits: the text is
    JSON, [json.loads] raises [ValueError] on it, and so does [transform]. *)
Lemma transform_raises_past_handler_witness :
  transform (transformer long_number_text) "2026-01-01T00:00:00+00:00"
            [("a", JStr "b")]
  = Raise digit_limit
  /\ transform (transformer long_number_text) "2026-01-01T00:00:00+00:00"
               [("a", JStr "b")]
     <> Return (JStr long_number_text).
Proof.
  apply (transform_raises_past_handler (transformer long_number_text)
           "2026-01-01T00:00:00+00:00" [("a", JStr "b")] digit_limit).
  - intros key Hkey. vm_compute in Hkey. discriminate Hkey.
  - vm_compute. reflexivity.
  - vm_compute. reflexivity.
  - reflexivity.
Defined.

(** A record whose data was encoded twice comes out with the payload. *)
Example decode_twice_encoded :
  let r := _decode_data_field 1%positive {[1%positive := record]} in
  Heap.read r.1 r.2 = decoded_record
  /\ Heap.read 1%positive r.2 = record.
Proof. vm_compute. split; reflexivity. Qed.

(** C2, where it fails.  The data of a record is the base64 text of a
    thousand opening brackets.  The first round decodes it to the brackets,
    on which [json.loads] raises [RecursionError]; the inner handler does
    not catch that, the outer one does, and [data] stays the base64 text.
    By the rule of the specification no round parses (the second and third
    decode to the empty text), so that [data] would be the empty text, the
    string of the last round; the base64 text is not what the rule gives. *)
Lemma decode_data_field_keeps_raw :
  let r := _decode_data_field 1%positive {[1%positive := nested_record]} in
  Heap.read r.1 r.2 = nested_record
  /\ base64_round (JStr nested_b64) = Some (JStr nested_text)
  /\ json_loads nested_text = Raise recursion_limit
  /\ specified_data 3 (JStr nested_b64) (JStr "")
  /\ ~ specified_data 3 (JStr nested_b64) (JStr nested_b64).
Proof.
  split; [vm_compute; reflexivity|].
  split; [vm_compute; reflexivity|].
  split; [vm_compute; reflexivity|].
  split.
  - right. exists 3%nat. split; [lia|]. split; [vm_compute; reflexivity|].
    split; [left; reflexivity|].
    intros j s Hj Hr D.
    destruct j as [|[|[|[|j]]]]; try lia; vm_compute in Hr;
      injection Hr as <-; vm_compute; discriminate.
  - intros [(i & s & Hi & Hr & Hp & _)|(i & Hi & Hr & Hlast & _)].
    + destruct i as [|[|[|[|i]]]]; try lia; vm_compute in Hr;
        injection Hr as <-; vm_compute in Hp; discriminate Hp.
    + destruct i as [|[|[|[|i]]]]; try lia.
      * destruct Hlast as [Hlast|Hlast]; [lia|].
        vm_compute in Hlast. discriminate Hlast.
      * vm_compute in Hr. discriminate Hr.
      * vm_compute in Hr. discriminate Hr.
      * vm_compute in Hr. discriminate Hr.
Qed.

Lemma decode_data_field_rounds_witness :
  (exists D,
     (_decode_data_field 1%positive {[1%positive := record]}).2
       !! (_decode_data_field 1%positive {[1%positive := record]}).1
     = Some (dict_set "data" D record)
     /\ decoded_data 3 (JStr "ZXlKNElqbzBNbjA9") D)
  /\ (exists D,
       (_decode_data_field 1%positive {[1%positive := nested_record]}).2
         !! (_decode_data_field 1%positive {[1%positive := nested_record]}).1
       = Some (dict_set "data" D nested_record)
       /\ decoded_data 3 (JStr nested_b64) D).
Proof.
  split.
  - destruct (decode_data_field_rounds {[1%positive := record]} 1%positive record)
      as [_ Hdata]; [reflexivity|].
    apply Hdata. reflexivity.
  - destruct (decode_data_field_rounds {[1%positive := nested_record]}
                1%positive nested_record) as [_ Hdata]; [reflexivity|].
    apply Hdata. reflexivity.
Defined.

Lemma decode_data_field_idempotent_witness :
  let r1 := _decode_data_field 1%positive {[1%positive := decoded_record]} in
  let r2 := _decode_data_field r1.1 r1.2 in
  Heap.read r1.1 r1.2 = decoded_record
  /\ Heap.read r2.1 r2.2 = Heap.read r1.1 r1.2.
Proof.
  apply (decode_data_field_idempotent {[1%positive := decoded_record]}
           1%positive decoded_record [("x", JInt 42)]); reflexivity.
Defined.

Lemma process_events_batch_keeps_input_witness :
  (process_events_batch
     {| target := accepting_target;
        input_transformer := Some (transformer "<$.data>") |}
     (fun _ => "2026-01-01T00:00:00+00:00")
     [1%positive] {[1%positive := record]}).2 !! 1%positive
  = Some record.
Proof.
  apply process_events_batch_keeps_input. reflexivity.
Defined.

Lemma process_events_batch_errors_witness :
  let down := Exn (OtherException "ConnectionError") "connection refused" None in
  let denied := Exn CustomerInvocationError "access denied" None in
  (process_events_batch
     {| target := failing_target down; input_transformer := None |}
     (fun _ => "2026-01-01T00:00:00+00:00")
     [1%positive] {[1%positive := record]}).1
  = Raise (Exn PipeInternalError "connection refused" (Some down))
  /\ (process_events_batch
        {| target := failing_target denied; input_transformer := None |}
        (fun _ => "2026-01-01T00:00:00+00:00")
        [1%positive] {[1%positive := record]}).1
     = Raise denied.
Proof.
  intros down denied. split.
  - destruct (process_events_batch_errors
                {| target := failing_target down; input_transformer := None |}
                (fun _ => "2026-01-01T00:00:00+00:00")
                [1%positive] {[1%positive := record]}) as (_ & Hwrap & _).
    apply (Hwrap down); [reflexivity|discriminate].
  - destruct (process_events_batch_errors
                {| target := failing_target denied; input_transformer := None |}
                (fun _ => "2026-01-01T00:00:00+00:00")
                [1%positive] {[1%positive := record]}) as (Hsame & _).
    apply (Hsame denied); reflexivity.
Defined.

End Examples.

Section TargetExamples.
Import Sample ApiDestination.

(** C7, where it fails.  An endpoint answers 401 to the one event of a
    batch: the request is made, the call returns, a warning is logged.
    Nothing is raised, so no [CustomerInvocationError] reports the
    authentication failure. *)
Lemma send_unauthorized_returns :
  let svc := endpoint_answering 401 "Unauthorized" in
  let request :=
    request_for "POST" (Some "https://example.com/hook") default_headers payload in
  let response := {| status_code := 401; text := "Unauthorized" |} in
  is_auth_failure response = true
  /\ @requests_request svc [] request = Return response
  /\ @send lib svc api_target [payload]
     = (Return tt, [request],
        [warning_for "POST" (Some "https://example.com/hook") response])
  /\ forall e, (@send lib svc api_target [payload]).1.1 <> Raise e.
Proof.
  intros svc request response.
  assert (Hsend : @send lib svc api_target [payload]
                  = (Return tt, [request],
                     [warning_for "POST" (Some "https://example.com/hook") response]))
    by (vm_compute; reflexivity).
  repeat split; try reflexivity; try exact Hsend.
  intros e. rewrite Hsend. discriminate.
Qed.

Lemma send_logs_error_statuses_witness :
  let svc := endpoint_answering 401 "Unauthorized" in
  exists responses,
    @answers svc []
      (map (request_for "POST" (Some "https://example.com/hook") default_headers)
           [payload; JObj []]) responses
    /\ @send lib svc api_target [payload; JObj []]
       = (Return tt,
          map (request_for "POST" (Some "https://example.com/hook") default_headers)
              [payload; JObj []],
          map (warning_for "POST" (Some "https://example.com/hook"))
              (filter (fun r => is_error_status r = true) responses)).
Proof.
  intros svc.
  apply (@send_logs_error_statuses lib svc api_target [payload; JObj []]).
  - reflexivity.
  - intros sent rq. eexists. reflexivity.
Defined.

End TargetExamples.

Section ControlPlaneExamples.
Import Sample Provider.

Lemma one_pipe_reachable desired : reachable context (one_pipe desired).
Proof.
  exact (reachable_call context (CreatePipe 100 (create_request desired))
           initial_state (reachable_initial context)).
Qed.

Lemma create_pipe_conflict_witness :
  create_pipe context 200 (create_request (Some RequestedPipeState.STOPPED))
              (one_pipe None)
  = (Raise (ConflictException "Pipe p already exists." "p" "pipe"), one_pipe None).
Proof.
  apply (create_pipe_conflict context 200
           (create_request (Some RequestedPipeState.STOPPED)) (one_pipe None)
           (pipe_p RequestedPipeState.RUNNING PipeState.STARTING)).
  - apply one_pipe_reachable.
  - vm_compute. reflexivity.
Defined.

Lemma start_stop_conflict_witness :
  let s := one_pipe (Some RequestedPipeState.STOPPED) in
  is_conflict (stop_pipe 200 "p" s).1 = true
  /\ (stop_pipe 200 "p" s).2 = s
  /\ is_conflict (start_pipe 200 "p" s).1 = false.
Proof.
  intros s.
  destruct (start_stop_conflict 200 s
              (pipe_p RequestedPipeState.STOPPED PipeState.STOPPED))
    as (Hstart & Hstop & _ & Hkeep); [vm_compute; reflexivity|].
  assert (Hc : is_conflict (stop_pipe 200 "p" s).1 = true)
    by (apply Hstop; reflexivity).
  split; [exact Hc|]. split; [exact (Hkeep Hc)|].
  destruct (is_conflict (start_pipe 200 "p" s).1) eqn:E; [|reflexivity].
  apply Hstart in E. discriminate.
Defined.

Lemma not_an_arn : ~ is_pipe_arn "pipe/p".
Proof.
  intros (r & a & n & _ & _ & _ & _ & _ & Heq).
  rewrite append_cons in Heq. discriminate.
Qed.

Lemma malformed_arn_not_found_witness :
  _pipe_name_from_arn "pipe/p" = "pipe/p"
  /\ tag_resource "pipe/p" {["team" := "data"]} (one_pipe None)
     = (Raise (NotFoundException "Pipe pipe/p does not exist."), one_pipe None).
Proof.
  destruct (malformed_arn_not_found "pipe/p" (one_pipe None) not_an_arn)
    as [Hname Hops].
  split; [exact Hname|].
  destruct Hops as (Htag & _); [vm_compute; reflexivity|].
  apply Htag.
Defined.

(** C4, at a failing input.  The pipe [p] is created at time 100.  Tagging
    and untagging it later change its tags and leave [last_modified_time] at
    100, whereas [stop_pipe] and [update_pipe] at time 200 set it to 200. *)
Theorem tag_operations_keep_stale_time :
  let s0 := one_pipe None in
  let tagged := tag_resource arn_p {["team" := "data"]} s0 in
  let untagged := untag_resource arn_p ["team"] tagged.2 in
  tagged.1 = Return TagResourceResponse
  /\ tags <$> pipes tagged.2 !! "p" = Some (Some {["team" := "data"]})
  /\ last_modified_time <$> pipes tagged.2 !! "p" = Some 100%Z
  /\ untagged.1 = Return UntagResourceResponse
  /\ tags <$> pipes untagged.2 !! "p" = Some (Some ∅)
  /\ last_modified_time <$> pipes untagged.2 !! "p" = Some 100%Z
  /\ last_modified_time <$> pipes (stop_pipe 200 "p" s0).2 !! "p" = Some 200%Z.
Proof. vm_compute. repeat split; reflexivity. Qed.

End ControlPlaneExamples.

(** * Further properties *)


(** ** More on names and ARNs *)

Section NameFacts.
Import Provider.

Lemma strip_prefix_app p s : strip_prefix p (p +:+ s) = Some s.
Proof.
  induction p as [|c p IH]; [reflexivity|].
  rewrite append_cons. cbn [strip_prefix]. rewrite Ascii.eqb_refl. exact IH.
Qed.

Lemma span_until_stop stop run rest :
  Str.no_char stop run = true ->
  span_until stop (run +:+ String stop rest) = (run, String stop rest).
Proof.
  induction run as [|c run IH]; intros Hno.
  - rewrite append_nil_l. cbn [span_until]. rewrite Ascii.eqb_refl. reflexivity.
  - cbn [Str.no_char] in Hno. apply andb_true_iff in Hno as [Hc Hno].
    apply negb_true_iff in Hc. rewrite append_cons. cbn [span_until].
    rewrite Hc, IH by exact Hno. reflexivity.
Qed.

Lemma span_until_end stop run :
  Str.no_char stop run = true -> span_until stop run = (run, "").
Proof.
  induction run as [|c run IH]; intros Hno; [reflexivity|].
  cbn [Str.no_char] in Hno. apply andb_true_iff in Hno as [Hc Hno].
  apply negb_true_iff in Hc. cbn [span_until]. rewrite Hc, IH by exact Hno.
  reflexivity.
Qed.

Lemma eqb_nonempty s : s <> "" -> String.eqb s "" = false.
Proof. intros Hs. destruct s; [congruence|reflexivity]. Qed.

(** The pattern on an ARN built by [_pipe_arn]: what it captures is the
    first line of the name. *)
Lemma match_pipe_arn_of_arn n a r line rest :
  r <> "" -> a <> "" -> line <> "" ->
  Str.no_char ":" r = true -> Str.no_char ":" a = true ->
  span_until Str.newline n = (line, rest) ->
  match_pipe_arn (_pipe_arn n a r) = Some line.
Proof.
  intros Hr Ha Hline Hrc Hac Hn. unfold match_pipe_arn, _pipe_arn.
  rewrite strip_prefix_app.
  change (r +:+ ":" +:+ a +:+ ":pipe/" +:+ n)
    with (r +:+ String ":" (a +:+ ":pipe/" +:+ n)).
  rewrite span_until_stop by exact Hrc. rewrite eqb_nonempty by exact Hr.
  change (String ":" (a +:+ ":pipe/" +:+ n)) with (":" +:+ (a +:+ ":pipe/" +:+ n)).
  rewrite strip_prefix_app.
  change (a +:+ ":pipe/" +:+ n) with (a +:+ String ":" ("pipe/" +:+ n)).
  rewrite span_until_stop by exact Hac. rewrite eqb_nonempty by exact Ha.
  change (String ":" ("pipe/" +:+ n)) with (":pipe/" +:+ n).
  rewrite strip_prefix_app, Hn, eqb_nonempty by exact Hline. reflexivity.
Qed.

(** X1.  The name of a pipe comes back from its ARN: for a region and an
    account that are not empty and hold no colon, [_pipe_name_from_arn] of
    [_pipe_arn name account region] is [name] when [name] is not empty and
    holds no newline.  When a newline follows a first line that is not
    empty, what comes back is that first line only. *)
Theorem pipe_name_of_pipe_arn n a r :
  r <> "" -> a <> "" -> Str.no_char ":" r = true -> Str.no_char ":" a = true ->
  (n <> "" -> Str.no_char Str.newline n = true ->
   _pipe_name_from_arn (_pipe_arn n a r) = n)
  /\ (forall line rest,
        line <> "" -> Str.no_char Str.newline line = true ->
        n = line +:+ String Str.newline rest ->
        _pipe_name_from_arn (_pipe_arn n a r) = line).
Proof.
  intros Hr Ha Hrc Hac. unfold _pipe_name_from_arn. split.
  - intros Hn Hnl.
    rewrite (match_pipe_arn_of_arn n a r n "") by
      (try assumption; apply span_until_end; assumption).
    reflexivity.
  - intros line rest Hline Hnl ->.
    rewrite (match_pipe_arn_of_arn _ a r line (String Str.newline rest)) by
      (try assumption; apply span_until_stop; assumption).
    reflexivity.
Qed.

Lemma name_pattern_tail_shape s :
  name_pattern_tail s = true <->
  exists body,
    forallb name_char (list_ascii_of_string body) = true
    /\ (s = body \/ s = body +:+ String Str.newline "").
Proof.
  induction s as [|c s IH].
  - split; [|reflexivity]. intros _. exists "". split; [reflexivity|left; reflexivity].
  - cbn [name_pattern_tail]. destruct s as [|c' s'].
    + split.
      * intros Hc. apply orb_true_iff in Hc as [Hc|Hc].
        -- exists (String c ""). cbn. rewrite Hc. split; [reflexivity|left; reflexivity].
        -- apply Ascii.eqb_eq in Hc as ->. exists "". split; [reflexivity|right; reflexivity].
      * intros (body & Hall & [Hs|Hs]).
        -- subst body. cbn in Hall. apply andb_true_iff in Hall as [-> _]. reflexivity.
        -- destruct body as [|b body].
           ++ rewrite append_nil_l in Hs. injection Hs as ->.
              rewrite Ascii.eqb_refl. apply orb_true_r.
           ++ rewrite append_cons in Hs. injection Hs as _ Hs.
              destruct body; discriminate.
    + rewrite andb_true_iff, IH. split.
      * intros (Hc & body & Hall & Hs). exists (String c body). split.
        -- cbn. rewrite Hc. exact Hall.
        -- destruct Hs as [<-|Hs]; [left; reflexivity|right].
           rewrite append_cons, <- Hs. reflexivity.
      * intros (body & Hall & Hs). destruct body as [|b body].
        -- destruct Hs as [Hs|Hs]; [discriminate|].
           rewrite append_nil_l in Hs. discriminate.
        -- cbn in Hall. apply andb_true_iff in Hall as [Hb Hall].
           assert (c = b) as -> by (destruct Hs as [Hs|Hs];
             [|rewrite append_cons in Hs]; congruence).
           split; [exact Hb|]. exists body. split; [exact Hall|].
           destruct Hs as [Hs|Hs]; [left|right; rewrite append_cons in Hs];
             congruence.
Qed.

Lemma validate_pipe_name_ok n :
  _validate_pipe_name n = Return tt <->
  (n <> "" /\ (String.length n <= 64)%nat /\ PIPE_NAME_PATTERN_match n = true).
Proof.
  unfold _validate_pipe_name, PIPE_NAME_MAX_LENGTH.
  destruct (String.eqb_spec n "") as [->|Hne].
  - cbn [orb]. split; [discriminate|]. intros [Hn _]. congruence.
  - cbn [orb]. destruct (Nat.ltb_spec 64 (String.length n)).
    + cbn [orb]. split; [discriminate|]. intros (_ & Hlen & _). lia.
    + cbn [orb]. destruct (PIPE_NAME_PATTERN_match n); cbn [negb].
      * split; [|reflexivity]. intros _. repeat split; [exact Hne|lia].
      * split; [discriminate|]. intros (_ & _ & [=]).
Qed.

(** X2.  [_validate_pipe_name] accepts exactly the names of at most 64
    characters made of one or more characters of [.-_A-Za-z0-9], with or
    without one newline after them: a final newline passes the check. *)
Theorem validate_pipe_name_accepts n :
  _validate_pipe_name n = Return tt <->
  ((String.length n <= 64)%nat
   /\ exists body,
        body <> ""
        /\ forallb name_char (list_ascii_of_string body) = true
        /\ (n = body \/ n = body +:+ String Str.newline "")).
Proof.
  rewrite validate_pipe_name_ok. unfold PIPE_NAME_PATTERN_match. split.
  - intros (Hne & Hlen & Hm). split; [exact Hlen|].
    destruct n as [|c s]; [congruence|].
    apply andb_true_iff in Hm as [Hc Ht].
    apply name_pattern_tail_shape in Ht as (body & Hall & Hs).
    exists (String c body). split; [discriminate|]. split.
    + cbn. rewrite Hc. exact Hall.
    + destruct Hs as [Hs|Hs]; subst s; [left|right]; reflexivity.
  - intros (Hlen & body & Hne & Hall & Hs).
    destruct body as [|c body]; [congruence|].
    cbn in Hall. apply andb_true_iff in Hall as [Hc Hall].
    assert (Hn : exists s, n = String c s /\ name_pattern_tail s = true).
    { destruct Hs as [Hs|Hs]; subst n.
      - exists body. split; [reflexivity|].
        apply name_pattern_tail_shape. exists body. split; [exact Hall|left; reflexivity].
      - exists (body +:+ String Str.newline ""). split; [reflexivity|].
        apply name_pattern_tail_shape. exists body. split; [exact Hall|right; reflexivity]. }
    destruct Hn as (s & -> & Ht). split; [discriminate|]. split; [exact Hlen|].
    rewrite Hc, Ht. reflexivity.
Qed.

End NameFacts.


(** ** More on the control plane *)

Section ControlPlaneFacts.
Import Provider.
Context `{WorkerFactory}.
Variable context : RequestContext.

Lemma stop_pipe_worker_cases pipe workers :
  (_stop_pipe_worker pipe workers).2 = delete (name pipe) workers
  /\ ((_stop_pipe_worker pipe workers).1 = pipe
      \/ (_stop_pipe_worker pipe workers).1
         = set_current_state PipeState.STOPPED
             (set_current_state PipeState.STOPPING pipe)).
Proof.
  unfold _stop_pipe_worker. destruct (workers !! name pipe) eqn:Hw; cbn [fst snd].
  - split; [reflexivity|right; reflexivity].
  - split; [|left; reflexivity]. symmetry. apply delete_id. exact Hw.
Qed.

Lemma start_pipe_worker_origin pipe workers :
  same_origin pipe (_start_pipe_worker pipe workers).1.
Proof.
  destruct (start_pipe_worker_shape pipe workers) as (sp & w & _ & Hs).
  cbn zeta in Hs. destruct Hs as [Hs|[Hs|[Hs|Hs]]]; rewrite Hs; repeat split.
Qed.

Lemma stop_pipe_worker_origin pipe workers :
  same_origin pipe (_stop_pipe_worker pipe workers).1.
Proof.
  destruct (stop_pipe_worker_cases pipe workers) as [_ [->| ->]]; repeat split.
Qed.

Lemma same_origin_trans p q r : same_origin p q -> same_origin q r -> same_origin p r.
Proof. unfold same_origin. intros (?&?&?&?&?) (?&?&?&?&?). repeat split; congruence. Qed.

(** The state after a call, with the entity of the subject named. *)
Ltac open_workers :=
  repeat match goal with
  | |- context [_start_pipe_worker ?q ?w] =>
      let Ho := fresh "Ho" in let Hd := fresh "Hd" in
      pose proof (start_pipe_worker_origin q w) as Ho;
      pose proof (start_pipe_worker_fields q w) as (_ & Hd & _);
      destruct (_start_pipe_worker q w) as [? ?]; cbn [fst snd] in Ho, Hd
  | |- context [_stop_pipe_worker ?q ?w] =>
      let Ho := fresh "Ho" in let Hd := fresh "Hd" in
      pose proof (stop_pipe_worker_origin q w) as Ho;
      pose proof (stop_pipe_worker_fields q w) as (_ & Hd & _);
      destruct (_stop_pipe_worker q w) as [? ?]; cbn [fst snd] in Ho, Hd
  end.

Ltac open_call c :=
  destruct c as [now rq|now rq|now n|now n|now n|a t|a ks|a]; cbn [call subject];
  [ unfold create_pipe;
    destruct (_validate_pipe_name (cp_name rq)) as [?|[]] eqn:Hvalid;
    [|destruct (pipes _ !! cp_name rq) eqn:Hp;
      [|match goal with |- context [decide ?P] => destruct (decide P) end]]
  | unfold update_pipe, _get_pipe; destruct (pipes _ !! up_name rq) eqn:Hp;
    [open_workers;
     match goal with |- context [decide ?P] => destruct (decide P) end|]
  | unfold delete_pipe, _get_pipe; destruct (pipes _ !! n) eqn:Hp
  | unfold start_pipe, _get_pipe; destruct (pipes _ !! n) eqn:Hp;
    [match goal with |- context [decide ?P] => destruct (decide P) end|]
  | unfold stop_pipe, _get_pipe; destruct (pipes _ !! n) eqn:Hp;
    [match goal with |- context [decide ?P] => destruct (decide P) end|]
  | unfold tag_resource, _get_pipe;
    destruct (pipes _ !! _pipe_name_from_arn a) eqn:Hp
  | unfold untag_resource, _get_pipe;
    destruct (pipes _ !! _pipe_name_from_arn a) eqn:Hp
  | unfold list_tags_for_resource, _get_pipe;
    destruct (pipes _ !! _pipe_name_from_arn a) eqn:Hp ];
  open_workers; cbn [fst snd pipes _pipe_workers TAGS].

(** X3.  A call of the control plane that raises has changed nothing: the
    pipes, the tag service and the worker index are as before. *)
Theorem failed_call_changes_nothing c (s : ProviderState) e :
  (call context c s).1 = Raise e -> (call context c s).2 = s.
Proof.
  open_call c; intros; try discriminate; reflexivity.
Qed.

(** X4.  A call touches the entry of the pipe it is about and no other. *)
Theorem call_keeps_other_pipes c (s : ProviderState) m :
  m <> subject c -> pipes (call context c s).2 !! m = pipes s !! m.
Proof.
  open_call c; intros Hm;
    rewrite ?lookup_insert_ne, ?lookup_delete_ne by congruence; reflexivity.
Qed.

(** X5.  While a pipe is in the registry no call changes its name, source,
    region, account or creation time. *)
Theorem call_keeps_origin c (s : ProviderState) m p p' :
  pipes s !! m = Some p -> pipes (call context c s).2 !! m = Some p' ->
  same_origin p p'.
Proof.
  intros Hm. destruct (decide (m = subject c)) as [->|Hne].
  2:{ rewrite call_keeps_other_pipes by exact Hne. rewrite Hm.
      intros [= <-]. repeat split. }
  revert Hm. open_call c; intros Hm; rewrite ?Hm in *; simplify_eq;
    rewrite ?lookup_insert_eq, ?lookup_delete_eq; intros Hp'; simplify_eq;
    try (repeat split; fail).
  all: repeat match goal with
       | Ho : same_origin _ _ |- _ => destruct Ho as (?&?&?&?&?)
       end; try (repeat split; cbn in *; congruence).
  destruct (tags p) as [m|]; [destruct (decide (m = ∅))|]; repeat split.
Qed.








Lemma describe_pipe_found n (s : ProviderState) p :
  pipes s !! n = Some p ->
  exists d, describe_pipe n s = Return d
    /\ d_Arn d = arn p /\ d_Name d = name p /\ d_Tags d = tags p
    /\ d_DesiredState d = desired_state p /\ d_CurrentState d = current_state p
    /\ d_StateReason d = state_reason p
    /\ d_CreationTime d = creation_time p
    /\ d_LastModifiedTime d = last_modified_time p
    /\ d_Source d = source p /\ d_Target d = target p /\ d_RoleArn d = role_arn p.
Proof.
  intros Hp. unfold describe_pipe, _get_pipe. rewrite Hp.
  eexists. split; [reflexivity|]. repeat split.
Qed.

(** X7.  After a [delete_pipe] that returns, the pipe is gone: [describe_pipe]
    raises [NotFoundException], no worker is registered under the name, and
    the name is free again, so that [create_pipe] with it returns. *)
Theorem delete_pipe_frees_name now n (s : ProviderState) r s' :
  reachable context s -> delete_pipe now n s = (Return r, s') ->
  describe_pipe n s'
    = Raise (NotFoundException ("Pipe " +:+ n +:+ " does not exist."))
  /\ _pipe_workers s' !! n = None
  /\ (forall now' rq, cp_name rq = n ->
        exists r', (create_pipe context now' rq s').1 = Return r').
Proof.
  intros Hreach. unfold delete_pipe, _get_pipe.
  destruct (pipes s !! n) as [pipe|] eqn:Hp; [|discriminate].
  destruct (reachable_store_wf context s Hreach _ _ Hp) as [Hn Hv].
  pose proof (stop_pipe_worker_cases pipe (_pipe_workers s)) as [HW _].
  destruct (_stop_pipe_worker pipe (_pipe_workers s)) as [pipe1 W1].
  cbn [snd] in HW. intros [= <- <-]. split; [|split].
  - unfold describe_pipe, _get_pipe. cbn [pipes]. rewrite lookup_delete_eq.
    reflexivity.
  - cbn [_pipe_workers]. rewrite HW, Hn. apply lookup_delete_eq.
  - intros now' rq <-. unfold create_pipe. rewrite Hv. cbn [pipes].
    rewrite lookup_delete_eq.
    match goal with |- context [decide ?P] => destruct (decide P) end;
      [match goal with |- context [_start_pipe_worker ?q ?W] =>
         destruct (_start_pipe_worker q W) end|]; eexists; reflexivity.
Qed.

Lemma thread_writes_snoc ws w (s : ProviderState) :
  thread_writes (ws ++ [w]) s = worker_thread_write w.1 w.2 (thread_writes ws s).
Proof. unfold thread_writes. rewrite foldl_snoc. reflexivity. Qed.

Lemma last_write_snoc n ws (w : string * PipeState.t) :
  last_write n (ws ++ [w])
  = if String.eqb w.1 n then Some w.2 else last_write n ws.
Proof. unfold last_write. rewrite foldl_snoc. reflexivity. Qed.

Lemma last_write_in n ws st :
  last_write n ws = Some st -> exists w, In w ws /\ w.1 = n /\ w.2 = st.
Proof.
  induction ws as [|w ws IH] using rev_ind; [discriminate|].
  rewrite last_write_snoc. destruct (String.eqb_spec w.1 n) as [Heq|Hne].
  - intros [= <-]. exists w. split; [apply in_or_app; right; left; reflexivity|].
    split; [exact Heq|reflexivity].
  - intros Hl. destruct (IH Hl) as (w' & Hin & Hw').
    exists w'. split; [apply in_or_app; left; exact Hin|exact Hw'].
Qed.

(** What the threads write is [RUNNING] or [STOPPED]: a state that is
    neither is there only as long as no thread has written. *)
Lemma thread_state_kept n ws (st st0 : PipeState.t) :
  (forall w, In w ws -> w.2 = PipeState.RUNNING \/ w.2 = PipeState.STOPPED) ->
  st0 <> PipeState.RUNNING -> st0 <> PipeState.STOPPED ->
  default st (last_write n ws) = st0 -> st = st0.
Proof.
  intros Hws Hr Hs. destruct (last_write n ws) as [st'|] eqn:Hl; [|auto].
  destruct (last_write_in _ _ _ Hl) as (w & Hin & _ & Hw).
  cbn. intros <-. destruct (Hws w Hin); congruence.
Qed.

(** The threads write the current state and nothing else. *)
Lemma thread_writes_lookup ws (s : ProviderState) n p :
  pipes s !! n = Some p ->
  pipes (thread_writes ws s) !! n
  = Some (match last_write n ws with
          | Some st => set_current_state st p
          | None => p
          end).
Proof.
  intros Hp. induction ws as [|w ws IH] using rev_ind; [exact Hp|].
  rewrite thread_writes_snoc, last_write_snoc.
  cbn [worker_thread_write pipes].
  destruct (String.eqb_spec w.1 n) as [Heq|Hne].
  - rewrite Heq, lookup_alter_eq, IH.
    destruct (last_write n ws); reflexivity.
  - rewrite lookup_alter_ne by exact Hne. exact IH.
Qed.

(** [describe_pipe] while the threads run: the current state is what the
    last write of a thread to the pipe left, every other field is the
    entity's. *)
Lemma describe_pipe_after_writes ws (s : ProviderState) n p :
  pipes s !! n = Some p ->
  exists d, describe_pipe n (thread_writes ws s) = Return d
    /\ d_CurrentState d = default (current_state p) (last_write n ws)
    /\ d_Arn d = arn p /\ d_Name d = name p /\ d_Tags d = tags p
    /\ d_DesiredState d = desired_state p
    /\ d_StateReason d = state_reason p
    /\ d_CreationTime d = creation_time p
    /\ d_LastModifiedTime d = last_modified_time p
    /\ d_Source d = source p /\ d_Target d = target p
    /\ d_RoleArn d = role_arn p
    /\ d_SourceParameters d = source_parameters p.
Proof.
  intros Hp. unfold describe_pipe, _get_pipe.
  rewrite (thread_writes_lookup ws s n p Hp).
  eexists. split; [reflexivity|].
  destruct (last_write n ws); repeat split.
Qed.

(** The entity a [create_pipe] that returns leaves in the registry. *)
Lemma create_pipe_entity now rq (s : ProviderState) r s' :
  create_pipe context now rq s = (Return r, s') ->
  exists p,
    pipes s' !! cp_name rq = Some p
    /\ arn p = _pipe_arn (cp_name rq) (ctx_account_id context) (ctx_region context)
    /\ name p = cp_name rq
    /\ source p = cp_source rq /\ target p = cp_target rq
    /\ tags p = cp_tags rq
    /\ creation_time p = now /\ last_modified_time p = now
    /\ desired_state p = default RequestedPipeState.RUNNING (cp_desired_state rq)
    /\ current_state p <> PipeState.CREATING
    /\ (desired_state p <> RequestedPipeState.RUNNING ->
        current_state p = PipeState.STOPPED /\ state_reason p = None
        /\ source_parameters p = cp_source_parameters rq)
    /\ (desired_state p = RequestedPipeState.RUNNING ->
        ((current_state p = PipeState.STARTING
          \/ current_state p = PipeState.RUNNING)
         /\ state_reason p = None)
        \/ (current_state p = PipeState.CREATE_FAILED
            /\ state_reason p = Some "Failed to start pipe worker"))
    /\ (source_parameters p = cp_source_parameters rq
        \/ exists d0 cls d1,
             cp_source_parameters rq = Some (JObj d0)
             /\ PollerFactory._create_poller
                  (PollerFactory._source_service_from_arn (cp_source rq)) d0
                = Return (cls, d1)
             /\ source_parameters p = Some (JObj d1)).
Proof.
  unfold create_pipe.
  destruct (_validate_pipe_name (cp_name rq)) as [?|[]]; [discriminate|].
  destruct (pipes s !! cp_name rq); [discriminate|].
  match goal with |- context [decide ?P] => destruct (decide P) as [Hd|Hd] end.
  - match goal with |- context [_start_pipe_worker ?q ?W] =>
      destruct (start_pipe_worker_shape q W) as (sp & w & Hdef & Hs) end.
    cbn zeta in Hs.
    assert (Hsp : sp = cp_source_parameters rq
                  \/ exists d0 cls d1,
                       cp_source_parameters rq = Some (JObj d0)
                       /\ PollerFactory._create_poller
                            (PollerFactory._source_service_from_arn (cp_source rq)) d0
                          = Return (cls, d1)
                       /\ sp = Some (JObj d1))
      by exact Hdef.
    clear Hdef.
    destruct Hs as [Hs|[Hs|[Hs|Hs]]]; rewrite Hs; intros [= <- <-];
      eexists; (split; [cbn [pipes]; apply lookup_insert_eq|]); cbn;
      repeat (split; [first [reflexivity | exact Hd | discriminate]|]);
      (split; [intros Hne; exfalso; apply Hne; exact Hd|]);
      (split; [intros _; auto|]); exact Hsp.
  - intros [= <- <-]. eexists. split; [cbn [pipes]; apply lookup_insert_eq|].
    cbn. repeat (split; [first [reflexivity | discriminate]|]).
    split; [intros _; repeat split|].
    split; [intros Hrun; contradiction|]. left. reflexivity.
Qed.

(** X8.  After a [create_pipe] that returns, and whatever the threads of the
    workers write from then on, [describe_pipe] finds the pipe: its ARN is
    [arn:aws:pipes:<region>:<account>:pipe/<name>] for the region and
    account of the context, source, target and tags are those of the call,
    both times are the time of the call, the desired state is the one asked
    for ([RUNNING] when none is).  The current state is what the last write
    of a thread to the pipe left or, when there is none, what the call
    left: never [CREATING], but [STOPPED] when the desired state is not
    [RUNNING], else [STARTING], [RUNNING] when the new thread has come to
    write it, or [CREATE_FAILED] with the reason when the worker could not
    be created or started.  The source parameters are those of the call, or
    their dict with the defaults of the poller when a worker was asked
    for. *)
Theorem create_pipe_then_describe now rq (s : ProviderState) r s'
    (ws : list (string * PipeState.t)) :
  create_pipe context now rq s = (Return r, s') ->
  exists p d,
    pipes s' !! cp_name rq = Some p
    /\ describe_pipe (cp_name rq) (thread_writes ws s') = Return d
    /\ d_Arn d = _pipe_arn (cp_name rq) (ctx_account_id context) (ctx_region context)
    /\ d_Name d = cp_name rq
    /\ d_Source d = cp_source rq /\ d_Target d = cp_target rq
    /\ d_Tags d = cp_tags rq
    /\ d_CreationTime d = now /\ d_LastModifiedTime d = now
    /\ d_DesiredState d = default RequestedPipeState.RUNNING (cp_desired_state rq)
    /\ d_CurrentState d
       = default (current_state p) (last_write (cp_name rq) ws)
    /\ current_state p <> PipeState.CREATING
    /\ ((forall w, In w ws ->
           w.2 = PipeState.RUNNING \/ w.2 = PipeState.STOPPED) ->
        d_CurrentState d <> PipeState.CREATING)
    /\ (d_DesiredState d <> RequestedPipeState.RUNNING ->
        current_state p = PipeState.STOPPED /\ d_StateReason d = None
        /\ d_SourceParameters d = cp_source_parameters rq)
    /\ (d_DesiredState d = RequestedPipeState.RUNNING ->
        ((current_state p = PipeState.STARTING
          \/ current_state p = PipeState.RUNNING)
         /\ d_StateReason d = None)
        \/ (current_state p = PipeState.CREATE_FAILED
            /\ d_StateReason d = Some "Failed to start pipe worker"))
    /\ (d_SourceParameters d = cp_source_parameters rq
        \/ exists d0 cls d1,
             cp_source_parameters rq = Some (JObj d0)
             /\ PollerFactory._create_poller
                  (PollerFactory._source_service_from_arn (cp_source rq)) d0
                = Return (cls, d1)
             /\ d_SourceParameters d = Some (JObj d1)).
Proof.
  intros Hc.
  destruct (create_pipe_entity _ _ _ _ _ Hc)
    as (p & Hp & Harn & Hname & Hsrc & Htgt & Htags & Hct & Hmt & Hdes
        & Hnc & Hstop & Hrun & Hpar).
  destruct (describe_pipe_after_writes ws s' (cp_name rq) p Hp)
    as (d & Hdesc & Hcur & E1 & E2 & E3 & E4 & E5 & E6 & E7 & E8 & E9 & _ & E10).
  exists p, d. rewrite E1, E2, E3, E4, E5, E6, E7, E8, E9, E10.
  repeat (split; [assumption|]).
  split; [|repeat (split; [assumption|]); exact Hpar].
  intros Hws Hc'. rewrite Hcur in Hc'. apply Hnc.
  apply (thread_state_kept _ _ _ _ Hws) in Hc'; [exact Hc'|discriminate..].
Qed.

(** X13.  Starting and stopping alternate: after a [start_pipe] that
    returns, a second [start_pipe] raises the conflict and [stop_pipe]
    returns; after a [stop_pipe] that returns it is the other way round. *)
Theorem start_stop_alternate now n (s : ProviderState) r s' now' :
  (start_pipe now n s = (Return r, s') ->
     is_conflict (start_pipe now' n s').1 = true
     /\ exists r', (stop_pipe now' n s').1 = Return r')
  /\ (stop_pipe now n s = (Return r, s') ->
     is_conflict (stop_pipe now' n s').1 = true
     /\ exists r', (start_pipe now' n s').1 = Return r').
Proof.
  split.
  - unfold start_pipe at 1, _get_pipe.
    destruct (pipes s !! n) as [pipe|]; [|discriminate].
    match goal with |- context [decide ?P] => destruct (decide P) end;
      [discriminate|].
    match goal with |- context [_start_pipe_worker ?q ?W] =>
      pose proof (start_pipe_worker_fields q W) as (_ & Hd & _);
      destruct (_start_pipe_worker q W) as [p2 W2] end.
    cbn [fst] in Hd. intros [= <- <-].
    unfold start_pipe, stop_pipe, _get_pipe. cbn [pipes].
    rewrite lookup_insert_eq, !Hd. cbn [desired_state set_last_modified_time
      set_desired_state]. rewrite decide_True by reflexivity.
    rewrite decide_False by discriminate. split; [reflexivity|].
    match goal with |- context [_stop_pipe_worker ?q ?W] =>
      destruct (_stop_pipe_worker q W) end. eexists. reflexivity.
  - unfold stop_pipe at 1, _get_pipe.
    destruct (pipes s !! n) as [pipe|]; [|discriminate].
    match goal with |- context [decide ?P] => destruct (decide P) end;
      [discriminate|].
    match goal with |- context [_stop_pipe_worker ?q ?W] =>
      pose proof (stop_pipe_worker_fields q W) as (_ & Hd & _);
      destruct (_stop_pipe_worker q W) as [p2 W2] end.
    cbn [fst] in Hd. intros [= <- <-].
    unfold start_pipe, stop_pipe, _get_pipe. cbn [pipes].
    rewrite lookup_insert_eq, !Hd. cbn [desired_state set_last_modified_time
      set_desired_state]. rewrite decide_True by reflexivity.
    rewrite decide_False by discriminate. split; [reflexivity|].
    match goal with |- context [_start_pipe_worker ?q ?W] =>
      destruct (_start_pipe_worker q W) end. eexists. reflexivity.
Qed.

(** X9.  After a [tag_resource] that returns, [describe_pipe] shows every
    tag of the call with its value, and the tags the pipe had under other
    keys as they were. *)
Theorem tag_resource_then_describe resource_arn new_tags (s : ProviderState) r s' :
  tag_resource resource_arn new_tags s = (Return r, s') ->
  exists d0 d m,
    describe_pipe (_pipe_name_from_arn resource_arn) s = Return d0
    /\ describe_pipe (_pipe_name_from_arn resource_arn) s' = Return d
    /\ d_Tags d = Some m
    /\ (forall k v, new_tags !! k = Some v -> m !! k = Some v)
    /\ (forall k, new_tags !! k = None ->
          m !! k = default ∅ (d_Tags d0) !! k).
Proof.
  unfold tag_resource, _get_pipe.
  destruct (pipes s !! _pipe_name_from_arn resource_arn) as [pipe|] eqn:Hp;
    [|discriminate].
  intros [= <- <-]. unfold describe_pipe, _get_pipe. cbn [pipes].
  rewrite Hp, lookup_insert_eq. do 3 eexists.
  split; [reflexivity|]. split; [reflexivity|]. split; [reflexivity|].
  cbn [d_Tags]. split.
  - intros k v Hk. apply lookup_union_Some_l. exact Hk.
  - intros k Hk. apply lookup_union_r. exact Hk.
Qed.

Lemma foldl_delete_lookup (keys : list string) (m : gmap string string) k :
  foldl (fun m k => delete k m) m keys !! k
  = if decide (k ∈ keys) then None else m !! k.
Proof.
  revert m. induction keys as [|k0 keys IH]; intros m; cbn [foldl].
  - rewrite decide_False by (apply not_elem_of_nil). reflexivity.
  - rewrite IH. destruct (decide (k ∈ keys)) as [Hin|Hin].
    + rewrite decide_True by (right; exact Hin). reflexivity.
    + destruct (decide (k = k0)) as [->|Hne].
      * rewrite decide_True by left. apply lookup_delete_eq.
      * rewrite decide_False by (intros Hc; apply elem_of_cons in Hc as [?|?];
          contradiction).
        apply lookup_delete_ne. congruence.
Qed.

(** X10.  After an [untag_resource] that returns, [describe_pipe] shows none
    of the keys of the call, and every other tag as it was. *)
Theorem untag_resource_then_describe resource_arn tag_keys (s : ProviderState) r s' :
  untag_resource resource_arn tag_keys s = (Return r, s') ->
  exists d0 d,
    describe_pipe (_pipe_name_from_arn resource_arn) s = Return d0
    /\ describe_pipe (_pipe_name_from_arn resource_arn) s' = Return d
    /\ (forall k, k ∈ tag_keys -> default ∅ (d_Tags d) !! k = None)
    /\ (forall k, k ∉ tag_keys ->
          default ∅ (d_Tags d) !! k = default ∅ (d_Tags d0) !! k).
Proof.
  unfold untag_resource, _get_pipe.
  destruct (pipes s !! _pipe_name_from_arn resource_arn) as [pipe|] eqn:Hp;
    [|discriminate].
  intros [= <- <-]. unfold describe_pipe, _get_pipe. cbn [pipes].
  rewrite Hp, lookup_insert_eq. do 2 eexists.
  split; [reflexivity|]. split; [reflexivity|]. cbn [d_Tags].
  destruct (tags pipe) as [m|] eqn:Ht.
  - destruct (decide (m = ∅)) as [->|Hne].
    + rewrite Ht. cbn. split; intros; [apply lookup_empty|reflexivity].
    + cbn. split; intros k Hk; rewrite foldl_delete_lookup.
      * rewrite decide_True by exact Hk. reflexivity.
      * rewrite decide_False by exact Hk. reflexivity.
  - rewrite Ht. cbn. split; intros; [apply lookup_empty|reflexivity].
Qed.



(** The entity an [update_pipe] that returns leaves in the registry, against
    the entity [p0] it found there. *)
Lemma update_pipe_entity now rq (s : ProviderState) r s' :
  update_pipe now rq s = (Return r, s') ->
  exists p0 p,
    pipes s !! up_name rq = Some p0
    /\ pipes s' !! up_name rq = Some p
    /\ role_arn p = up_role_arn rq
    /\ target p = default (target p0) (up_target rq)
    /\ desired_state p = default (desired_state p0) (up_desired_state rq)
    /\ tags p = tags p0
    /\ last_modified_time p = now
    /\ current_state p <> PipeState.UPDATING
    /\ (desired_state p <> RequestedPipeState.RUNNING ->
        current_state p = PipeState.STOPPED
        /\ state_reason p = state_reason p0)
    /\ (desired_state p = RequestedPipeState.RUNNING ->
        ((current_state p = PipeState.STARTING
          \/ current_state p = PipeState.RUNNING)
         /\ state_reason p = state_reason p0)
        \/ (current_state p = PipeState.CREATE_FAILED
            /\ state_reason p = Some "Failed to start pipe worker")).
Proof.
  unfold update_pipe, _get_pipe.
  destruct (pipes s !! up_name rq) as [pipe|] eqn:Hp; [|discriminate].
  pose proof (stop_pipe_worker_cases pipe (_pipe_workers s)) as [_ Hstop].
  destruct (_stop_pipe_worker pipe (_pipe_workers s)) as [pipe1 W1].
  cbn [fst] in Hstop.
  assert (Hsame : target pipe1 = target pipe
                  /\ desired_state pipe1 = desired_state pipe
                  /\ tags pipe1 = tags pipe
                  /\ state_reason pipe1 = state_reason pipe)
    by (destruct Hstop as [->| ->]; repeat split).
  destruct Hsame as (Ht & Hd & Hg & Hsr).
  assert (Heff : forall x : RequestedPipeState.t,
            default (default x (up_desired_state rq)) (up_desired_state rq)
            = default x (up_desired_state rq))
    by (intros x; destruct (up_desired_state rq); reflexivity).
  match goal with |- context [decide ?P] => destruct (decide P) as [Hrun|Hrun] end.
  - cbn [desired_state] in Hrun. rewrite Heff, Hd in Hrun.
    match goal with |- context [_start_pipe_worker ?q ?W] =>
      destruct (start_pipe_worker_shape q W) as (sp & w & _ & Hs) end.
    cbn zeta in Hs.
    destruct Hs as [Hs|[Hs|[Hs|Hs]]]; rewrite Hs; intros [= <- <-];
      exists pipe; eexists; (split; [reflexivity|]);
      (split; [cbn [pipes]; apply lookup_insert_eq|]); cbn;
      rewrite ?Ht, ?Hd, ?Hg, ?Hsr;
      repeat (split; [first [reflexivity | discriminate]|]);
      (split; [intros Hne; exfalso; apply Hne; exact Hrun|]);
      intros _; auto.
  - cbn [desired_state] in Hrun. rewrite Heff, Hd in Hrun.
    intros [= <- <-]. exists pipe. eexists. split; [reflexivity|].
    split; [cbn [pipes]; apply lookup_insert_eq|]. cbn.
    rewrite ?Ht, ?Hd, ?Hg, ?Hsr.
    repeat (split; [first [reflexivity | discriminate]|]).
    split; [intros _; split; reflexivity|]. intros Hr. contradiction.
Qed.

(** X25.  After an [update_pipe] that returns, and whatever the threads of
    the workers write from then on, [describe_pipe] shows the role of the
    call; the target and the desired state of the call, or the ones the pipe
    had when the call gives none; the tags as they were; the time of the
    call as last modification.  The current state is what the last write of
    a thread to the pipe left or, when there is none, what the call left:
    never [UPDATING], but [STOPPED] when the desired state is not [RUNNING],
    else [STARTING], [RUNNING] when the new thread has come to write it, or
    [CREATE_FAILED] with the reason when the worker could not be created or
    started; in the other cases the reason is the one the pipe had. *)
Theorem update_pipe_then_describe now rq (s : ProviderState) r s'
    (ws : list (string * PipeState.t)) :
  update_pipe now rq s = (Return r, s') ->
  exists p d0 d,
    pipes s' !! up_name rq = Some p
    /\ describe_pipe (up_name rq) s = Return d0
    /\ describe_pipe (up_name rq) (thread_writes ws s') = Return d
    /\ d_RoleArn d = up_role_arn rq
    /\ d_Target d = default (d_Target d0) (up_target rq)
    /\ d_DesiredState d = default (d_DesiredState d0) (up_desired_state rq)
    /\ d_Tags d = d_Tags d0
    /\ d_LastModifiedTime d = now
    /\ d_CurrentState d
       = default (current_state p) (last_write (up_name rq) ws)
    /\ current_state p <> PipeState.UPDATING
    /\ ((forall w, In w ws ->
           w.2 = PipeState.RUNNING \/ w.2 = PipeState.STOPPED) ->
        d_CurrentState d <> PipeState.UPDATING)
    /\ (d_DesiredState d <> RequestedPipeState.RUNNING ->
        current_state p = PipeState.STOPPED
        /\ d_StateReason d = d_StateReason d0)
    /\ (d_DesiredState d = RequestedPipeState.RUNNING ->
        ((current_state p = PipeState.STARTING
          \/ current_state p = PipeState.RUNNING)
         /\ d_StateReason d = d_StateReason d0)
        \/ (current_state p = PipeState.CREATE_FAILED
            /\ d_StateReason d = Some "Failed to start pipe worker")).
Proof.
  intros Hu.
  destruct (update_pipe_entity _ _ _ _ _ Hu)
    as (p0 & p & Hp0 & Hp & Hrole & Htgt & Hdes & Htags & Hmt & Hnu & Hstop & Hrun).
  destruct (describe_pipe_found (up_name rq) s p0 Hp0)
    as (d0 & Hd0 & _ & _ & F3 & F4 & _ & F6 & _ & _ & _ & F10 & _).
  destruct (describe_pipe_after_writes ws s' (up_name rq) p Hp)
    as (d & Hdesc & Hcur & _ & _ & E3 & E4 & E5 & _ & E7 & _ & E9 & E10 & _).
  exists p, d0, d. rewrite E3, E4, E5, E7, E9, E10, F3, F4, F6, F10.
  repeat (split; [assumption|]).
  split; [|repeat (split; [assumption|]); exact Hrun].
  intros Hws Hc'. rewrite Hcur in Hc'. apply Hnu.
  apply (thread_state_kept _ _ _ _ Hws) in Hc'; [exact Hc'|discriminate..].
Qed.

Lemma context_wf_call c (s : ProviderState) :
  context_wf context s -> context_wf context (call context c s).2.
Proof.
  intros Hwf. open_call c; try exact Hwf.
  all: intros m q; cbn [pipes]; rewrite ?lookup_insert, ?lookup_delete;
       case_decide; try discriminate; try apply Hwf.
  all: intros [= <-];
       try (destruct (Hwf _ _ Hp) as [Hreg Hacc]);
       repeat match goal with
       | Ho : same_origin _ _ |- _ => destruct Ho as (?&?&?&?&?)
       end;
       try (destruct (tags _) as [tm|]; [destruct (decide (tm = ∅))|]);
       cbn in *; split; congruence.
Qed.

(** Every pipe of the registry carries the region and the account of the
    context. *)
Lemma reachable_context_wf (s : ProviderState) :
  reachable context s -> context_wf context s.
Proof.
  induction 1 as [|c s Hr IH|m st s Hr IH _].
  - intros n p. cbn. rewrite lookup_empty. discriminate.
  - apply context_wf_call. exact IH.
  - intros n p. cbn [worker_thread_write pipes]. rewrite lookup_alter.
    case_decide as Heq; [|apply IH].
    destruct (pipes s !! m) as [p0|] eqn:Hp0; [|discriminate].
    intros [= <-]. apply (IH m p0 Hp0).
Qed.

(** X26.  In every state the provider can be in, the ARN that
    [describe_pipe] reports for a pipe leads back to it: when the region and
    the account of the context are not empty and hold no colon, and the name
    holds no newline, [_pipe_name_from_arn] of the reported ARN is the name,
    and [list_tags_for_resource] on that ARN returns. *)
Theorem reported_arn_resolves (s : ProviderState) n p :
  reachable context s -> pipes s !! n = Some p ->
  ctx_region context <> "" -> ctx_account_id context <> "" ->
  Str.no_char ":" (ctx_region context) = true ->
  Str.no_char ":" (ctx_account_id context) = true ->
  Str.no_char Str.newline n = true ->
  exists d, describe_pipe n s = Return d
    /\ d_Arn d = _pipe_arn n (ctx_account_id context) (ctx_region context)
    /\ _pipe_name_from_arn (d_Arn d) = n
    /\ exists tag_map,
         list_tags_for_resource (d_Arn d) s
         = (Return (ListTagsForResourceResponse tag_map), s).
Proof.
  intros Hreach Hp Hr Ha Hrc Hac Hnl.
  destruct (reachable_store_wf context s Hreach n p Hp) as [Hname Hvalid].
  destruct (reachable_context_wf s Hreach n p Hp) as [Hreg Hacc].
  assert (Hne : n <> "").
  { intros ->. discriminate Hvalid. }
  assert (Harn : arn p = _pipe_arn n (ctx_account_id context) (ctx_region context)).
  { unfold arn. rewrite Hname, Hreg, Hacc. reflexivity. }
  assert (Hback : _pipe_name_from_arn (arn p) = n).
  { rewrite Harn. apply pipe_name_of_pipe_arn; assumption. }
  unfold describe_pipe, _get_pipe. rewrite Hp. eexists.
  split; [reflexivity|]. cbn [d_Arn]. split; [exact Harn|]. split; [exact Hback|].
  unfold list_tags_for_resource, _get_pipe. rewrite Hback, Hp.
  eexists. reflexivity.
Qed.

End ControlPlaneFacts.

Section ListFacts.
Import Provider.

Lemma filter_filter {A} (f g : A -> bool) l :
  List.filter g (List.filter f l) = List.filter (fun x => f x && g x) l.
Proof.
  induction l as [|x l IH]; [reflexivity|]. cbn [List.filter].
  destruct (f x); cbn [andb List.filter]; [destruct (g x)|]; rewrite IH; reflexivity.
Qed.

Lemma filter_true {A} (l : list A) : List.filter (fun _ => true) l = l.
Proof. induction l as [|x l IH]; [reflexivity|]. cbn. rewrite IH. reflexivity. Qed.

Lemma given_nonempty prefix q : given prefix = Some q -> q <> "".
Proof.
  unfold given. destruct prefix as [q'|]; [|discriminate].
  destruct (String.eqb_spec q' ""); [discriminate|]. congruence.
Qed.

Lemma prefix_of_empty q : q <> "" -> Str.startswith q "" = false.
Proof. destruct q; [congruence|reflexivity]. Qed.

(** X11.  [list_pipes] returns, in the order of the registry, the summaries
    of the pipes that pass every filter of the request, cut after [limit]
    of them (after 100 when the limit is absent or zero); a filter that is
    absent or empty lets every pipe pass. *)
Theorem list_pipes_filters (values : list PipeEntity) (rq : ListPipesRequest) :
  list_pipes values rq
  = map summary_of (firstn (max_results rq) (List.filter (passes rq) values))
  /\ (length (list_pipes values rq) <= max_results rq)%nat.
Proof.
  assert (Heq : list_pipes values rq
    = map summary_of (firstn (max_results rq) (List.filter (passes rq) values))).
  { unfold list_pipes. do 2 f_equal.
    assert (E : values = List.filter (fun _ => true) values)
      by (symmetry; apply filter_true).
    unfold passes.
    destruct (given (lp_name_prefix rq)) as [q1|];
    destruct (lp_desired_state rq) as [d|];
    destruct (lp_current_state rq) as [c|];
    destruct (given (lp_source_prefix rq)) as [q4|] eqn:H4;
    destruct (given (lp_target_prefix rq)) as [q5|] eqn:H5;
    rewrite E at 1; rewrite ?filter_filter; apply List.filter_ext; intros p;
    cbn [andb]; rewrite ?andb_true_r;
    try (apply given_nonempty in H4); try (apply given_nonempty in H5);
    repeat match goal with
    | |- context [String.eqb ?x ""] =>
        destruct (String.eqb_spec x "") as [->|?]; cbn [negb andb];
        rewrite ?prefix_of_empty by assumption
    end;
    repeat match goal with
    | |- context [Str.startswith ?a ?b] =>
        generalize (Str.startswith a b); intros []
    | |- context [bool_decide ?P] => generalize (bool_decide P); intros []
    end; reflexivity. }
  split; [exact Heq|]. rewrite Heq, length_map, length_firstn. lia.
Qed.

End ListFacts.



(** ** More on the input transformer *)

Section SplitFacts.

Lemma split_nonempty sep s : Str.split sep s <> [].
Proof.
  induction s as [|c s IH]; cbn [Str.split]; [discriminate|].
  destruct (Ascii.eqb c sep); [discriminate|].
  destruct (Str.split sep s); [congruence|discriminate].
Qed.

Lemma split_plain sep s : Str.no_char sep s = true -> Str.split sep s = [s].
Proof.
  induction s as [|c s IH]; intros Hno; [reflexivity|].
  cbn [Str.no_char] in Hno. apply andb_true_iff in Hno as [Hc Hno].
  apply negb_true_iff in Hc. cbn [Str.split]. rewrite Hc, IH by exact Hno.
  reflexivity.
Qed.

Lemma split_head sep a rest :
  Str.no_char sep a = true ->
  Str.split sep (a +:+ String sep rest) = a :: Str.split sep rest.
Proof.
  induction a as [|c a IH]; intros Hno.
  - rewrite append_nil_l. cbn [Str.split]. rewrite Ascii.eqb_refl. reflexivity.
  - cbn [Str.no_char] in Hno. apply andb_true_iff in Hno as [Hc Hno].
    apply negb_true_iff in Hc. rewrite append_cons. cbn [Str.split].
    rewrite Hc, IH by exact Hno. reflexivity.
Qed.

Lemma split_last sep p k :
  Str.no_char sep k = true ->
  Str.split sep (p +:+ String sep k) = Str.split sep p ++ [k].
Proof.
  intros Hk. induction p as [|c p IH].
  - rewrite append_nil_l. cbn [Str.split]. rewrite Ascii.eqb_refl.
    rewrite split_plain by exact Hk. reflexivity.
  - rewrite append_cons. cbn [Str.split]. destruct (Ascii.eqb c sep).
    + rewrite IH. reflexivity.
    + rewrite IH. pose proof (split_nonempty sep p) as Hne.
      destruct (Str.split sep p) as [|h t]; [congruence|reflexivity].
Qed.

End SplitFacts.

Section JsonpathFacts.

(** One step of the walk: the member [key] of an object, the empty string
    when it is missing or when the value is no object. *)
Lemma jsonpath_walk_last keys key current :
  jsonpath_walk (keys ++ [key]) current
  = match jsonpath_walk keys current with
    | JObj d => default (JStr "") (dict_get key d)
    | _ => JStr ""
    end.
Proof.
  revert current. induction keys as [|k keys IH]; intros current.
  - cbn. destruct current; reflexivity.
  - cbn [app jsonpath_walk]. destruct current; try reflexivity. apply IH.
Qed.

(** X14.  [_extract_jsonpath] walks one member at a time.  A path that does
    not open with [$.] gives the empty string; [$.key] gives the member
    [key] of the event; a longer path gives the member [key] of what the
    path before it gives; and at every step a missing member, or a value
    that is no object, gives the empty string. *)
Theorem extract_jsonpath_steps (event : dict) :
  (forall path, Str.startswith "$." path = false ->
     _extract_jsonpath event path = JStr "")
  /\ (forall key, Str.no_char "." key = true ->
        _extract_jsonpath event ("$." +:+ key)
        = default (JStr "") (dict_get key event))
  /\ (forall parent key, Str.no_char "." key = true ->
        _extract_jsonpath event ("$." +:+ parent +:+ "." +:+ key)
        = match _extract_jsonpath event ("$." +:+ parent) with
          | JObj d => default (JStr "") (dict_get key d)
          | _ => JStr ""
          end).
Proof.
  split; [|split].
  - intros path Hp. unfold _extract_jsonpath.
    destruct path as [|c1 path]; [reflexivity|].
    destruct c1 as [[] [] [] [] [] [] [] []]; try reflexivity.
    destruct path as [|c2 rest]; [reflexivity|].
    destruct c2 as [[] [] [] [] [] [] [] []]; try reflexivity.
    destruct rest; vm_compute in Hp; discriminate Hp.
  - intros key Hk. change ("$." +:+ key) with (String "$" (String "." key)).
    cbn [_extract_jsonpath]. rewrite split_plain by exact Hk. reflexivity.
  - intros parent key Hk.
    change ("$." +:+ parent +:+ "." +:+ key)
      with (String "$" (String "." (parent +:+ String "." key))).
    change ("$." +:+ parent) with (String "$" (String "." parent)).
    cbn [_extract_jsonpath]. rewrite split_last by exact Hk.
    apply jsonpath_walk_last.
Qed.

End JsonpathFacts.

Section TemplateFacts.
Context `{PyLib}.
Import Placeholder.

Lemma no_char_lstrip c s : Str.no_char c s = true -> Str.no_char c (Str.lstrip s) = true.
Proof.
  induction s as [|c' s IH]; intros Hno; [reflexivity|].
  cbn [Str.lstrip]. destruct (Str.isspace c'); [|exact Hno].
  cbn [Str.no_char] in Hno. apply andb_true_iff in Hno as [_ Hno]. apply IH, Hno.
Qed.

Lemma no_char_rstrip c s : Str.no_char c s = true -> Str.no_char c (Str.rstrip s) = true.
Proof.
  induction s as [|c' s IH]; intros Hno; [reflexivity|].
  cbn [Str.no_char] in Hno. apply andb_true_iff in Hno as [Hc Hno].
  specialize (IH Hno). cbn [Str.rstrip]. destruct (Str.rstrip s) as [|c2 r].
  - destruct (Str.isspace c'); [reflexivity|]. cbn [Str.no_char].
    rewrite Hc. reflexivity.
  - cbn [Str.no_char] in *. rewrite Hc, IH. reflexivity.
Qed.

Lemma sub_plain s : Str.no_char "<" s = true -> forall f, sub f s = s.
Proof.
  intros Hno.
  assert (Hlit : forall g, In g (finditer s) -> exists c, g = Lit c).
  { induction s as [|c s IH]; [intros g []|].
    cbn [Str.no_char] in Hno. apply andb_true_iff in Hno as [Hc Hno].
    apply negb_true_iff in Hc. rewrite finditer_cons, Hc.
    intros g [<-|Hin]; [eexists; reflexivity|apply IH; assumption]. }
  intros f. unfold sub. rewrite <- (finditer_text s) at 2. f_equal.
  apply map_ext_in. intros g Hg. destruct (Hlit g Hg) as [c ->]. reflexivity.
Qed.

(** X15.  A template without ['<'] has no placeholder: [transform] ignores
    the event.  When the trimmed template does not open with a brace, it
    returns the text of the template as it stands, surrounding whitespace
    included.  When it does, the text goes to [json.loads]: [transform]
    returns the parsed value, or the text as it stands when [json.loads]
    raises [JSONDecodeError], and raises what [json.loads] raises when that
    is any other exception. *)
Theorem transform_plain_template (self : PipeInputTransformer) (now : string)
    (E : dict) :
  Str.no_char "<" (input_template self) = true ->
  transform self now E =
    if Str.startswith "{" (Str.strip (input_template self)) then
      match json_loads (input_template self) with
      | Return parsed => Return parsed
      | Raise e =>
          if is_json_decode_error e
          then Return (JStr (input_template self)) else Raise e
      end
    else Return (JStr (input_template self)).
Proof.
  intros Hno. unfold transform, _replace_placeholders.
  rewrite (sub_plain _ Hno).
  assert (Hfm : fullmatch (Str.strip (input_template self)) = None).
  { pose proof (no_char_rstrip _ _ (no_char_lstrip _ _ Hno)) as Hs.
    fold (Str.strip (input_template self)) in Hs.
    destruct (Str.strip (input_template self)) as [|c s]; [reflexivity|].
    cbn [Str.no_char] in Hs. apply andb_true_iff in Hs as [Hc _].
    apply negb_true_iff in Hc. cbn [fullmatch]. rewrite Hc. reflexivity. }
  rewrite Hfm. reflexivity.
Qed.

Lemma jsonpath_entries_lookup (E : dict) (keys : list string)
    (R : gmap string json) (key : string) :
  Str.startswith "$." key = true ->
  foldl (fun (r : gmap string json) placeholder =>
           if Str.startswith "$." placeholder
           then <[placeholder := _extract_jsonpath E placeholder]> r
           else r) R keys !! key
  = if decide (key ∈ keys) then Some (_extract_jsonpath E key) else R !! key.
Proof.
  intros Hkey. revert R. induction keys as [|p keys IH]; intros R; cbn [foldl].
  - rewrite decide_False by apply not_elem_of_nil. reflexivity.
  - rewrite IH. destruct (decide (key ∈ keys)) as [Hin|Hin].
    + rewrite decide_True by (right; exact Hin). reflexivity.
    + destruct (decide (key = p)) as [<-|Hne].
      * rewrite decide_True by left. rewrite Hkey. apply lookup_insert_eq.
      * rewrite decide_False by (intros Hc; apply elem_of_cons in Hc as [?|?];
          contradiction).
        destruct (Str.startswith "$." p); [|reflexivity].
        apply lookup_insert_ne. congruence.
Qed.

(** X16.  The replacement table of [_build_replacements].  The pipe
    variables are the fields of the transformer and the event, whatever the
    template and the event hold; a jsonpath placeholder of the template
    stands for [_extract_jsonpath] of the event; a jsonpath key that the
    template does not use is not in the table. *)
Theorem build_replacements_table (self : PipeInputTransformer) (now : string)
    (E : dict) :
  let R := _build_replacements self now E in
  R !! "aws.pipes.pipe-arn" = Some (JStr (pipe_arn self))
  /\ R !! "aws.pipes.pipe-name" = Some (JStr (pipe_name self))
  /\ R !! "aws.pipes.source-arn" = Some (JStr (source_arn self))
  /\ R !! "aws.pipes.target-arn" = Some (JStr (target_arn self))
  /\ R !! "aws.pipes.event.ingestion-time" = Some (JStr now)
  /\ R !! "aws.pipes.event.json" = Some (JObj E)
  /\ R !! "aws.pipes.event" = Some (JObj E)
  /\ (forall key, Str.startswith "$." key = true ->
        R !! key = if decide (key ∈ findall (input_template self))
                   then Some (_extract_jsonpath E key) else None).
Proof.
  intros R. subst R. unfold _build_replacements.
  repeat (split; [rewrite jsonpath_entries_keep by reflexivity;
                  repeat (rewrite lookup_insert_ne by discriminate);
                  apply lookup_insert_eq|]).
  intros key Hkey. rewrite jsonpath_entries_lookup by exact Hkey.
  destruct (decide (key ∈ findall (input_template self))); [reflexivity|].
  repeat (rewrite lookup_insert_ne
            by (intros <-; vm_compute in Hkey; discriminate Hkey)).
  apply lookup_empty.
Qed.

End TemplateFacts.

Section DecodeFacts.
Context `{PyLib}.

Lemma dict_set_keys k v (d : dict) :
  dict_contains k d = true -> map fst (dict_set k v d) = map fst d.
Proof.
  unfold dict_contains. induction d as [|[k' v'] d IH]; cbn; [discriminate|].
  destruct (String.eqb k k'); [reflexivity|].
  intros Hd. cbn. rewrite IH by exact Hd. reflexivity.
Qed.

(** X17.  On a record with a [data] field, [_decode_data_field] returns a
    new object, not the one it was given; the new record has the keys of the
    input in the same order, and every field other than [data] has the value
    it has in the input. *)
Theorem decode_data_field_copy (h : heap) (l : loc) (event : dict) :
  h !! l = Some event -> dict_contains "data" event = true ->
  let r := _decode_data_field l h in
  r.1 <> l /\ h !! r.1 = None
  /\ exists event',
       r.2 !! r.1 = Some event'
       /\ map fst event' = map fst event
       /\ forall k, k <> "data" -> dict_get k event' = dict_get k event.
Proof.
  intros Hl Hd r. subst r.
  assert (Hraw : exists raw, dict_get "data" event = Some raw).
  { unfold dict_contains in Hd. destruct (dict_get "data" event); [eauto|discriminate]. }
  destruct Hraw as [raw Hraw].
  rewrite (decode_data_field_unfold _ _ _ _ Hl Hraw). cbn [fst snd].
  pose proof (alloc_fresh event h) as Hfresh.
  split; [intros Heq; rewrite Heq in Hfresh; congruence|].
  split; [exact Hfresh|].
  destruct (decode_rounds 3 raw) as [v|v|e].
  1,2: eexists; (split; [apply setitem_alloc|]); split;
    [apply dict_set_keys; exact Hd
    |intros k Hk; apply dict_get_set_ne; congruence].
  exists event. split; [apply alloc_lookup|]. split; reflexivity.
Qed.

Lemma decode_all_no_data (input_events : list loc) (h : heap) :
  (forall l, In l input_events -> dict_contains "data" (Heap.read l h) = false) ->
  decode_all input_events h = (input_events, h).
Proof.
  induction input_events as [|e es IH]; intros Hno; [reflexivity|].
  cbn [decode_all]. rewrite decode_data_field_no_data by (apply Hno; left; reflexivity).
  rewrite IH by (intros l Hl; apply Hno; right; exact Hl). reflexivity.
Qed.

(** X18.  Without a transformer, a batch of records that have no [data]
    field goes to the target as it is: [target.send] gets the input records,
    in order, and no object is created or changed. *)
Theorem process_events_batch_passthrough (self : PipeEventProcessor)
    (clock : nat -> string) (input_events : list loc) (h : heap) :
  input_transformer self = None ->
  (forall l, In l input_events -> dict_contains "data" (Heap.read l h) = false) ->
  process_events_body self clock input_events h
  = (tgt_send (target self) (map (fun l => JObj (Heap.read l h)) input_events), h)
  /\ (process_events_batch self clock input_events h).2 = h.
Proof.
  intros Ht Hno.
  assert (Hbody : process_events_body self clock input_events h
    = (tgt_send (target self) (map (fun l => JObj (Heap.read l h)) input_events), h)).
  { unfold process_events_body. rewrite decode_all_no_data by exact Hno.
    rewrite Ht. reflexivity. }
  split; [exact Hbody|]. unfold process_events_batch. rewrite Hbody.
  destruct (tgt_send _ _) as [e|[]]; [|reflexivity].
  destruct (is_customer_invocation_error e); reflexivity.
Qed.

End DecodeFacts.


(** ** The send loops of the targets *)

Section ApiSendFacts.
Import ApiDestination.
Context `{PyLib} `{Services}.

Lemma send_events_prefix method endpoint hd events sent log :
  let requests := map (request_for method endpoint hd) events in
  let r := send_events method endpoint hd events sent log in
  exists k, (k <= length events)%nat
    /\ r.1.2 = sent ++ take k requests
    /\ (r.1.1 = Return tt -> k = length events)
    /\ (forall e, r.1.1 = Raise e ->
          exists j rq, k = S j /\ requests !! j = Some rq
            /\ requests_request (sent ++ take j requests) rq = Raise e).
Proof.
  revert sent log. induction events as [|event events IH]; intros sent log.
  - exists 0%nat. cbn. rewrite app_nil_r. repeat split; try lia; discriminate.
  - cbn zeta. cbn [send_events map]. fold (request_for method endpoint hd event).
    destruct (requests_request sent (request_for method endpoint hd event))
      as [e|response] eqn:Hr.
    + exists 1%nat. cbn [fst snd length take]. repeat split; try lia; try discriminate.
      intros e' [= <-]. exists 0%nat, (request_for method endpoint hd event).
      cbn [take]. rewrite app_nil_r. repeat split. exact Hr.
    + match goal with |- context [send_events _ _ _ events ?s ?l] =>
        destruct (IH s l) as (k & Hk & Hsent & Hret & Hraise) end.
      exists (S k). cbn [length take]. split; [lia|]. split.
      { rewrite Hsent, <- app_assoc. reflexivity. }
      split; [intros Hok; rewrite (Hret Hok); reflexivity|].
      intros e He. destruct (Hraise e He) as (j & rq & -> & Hj & Hreq).
      exists (S j), rq. cbn [take lookup]. repeat split; [exact Hj|].
      rewrite <- app_assoc in Hreq. exact Hreq.
Qed.

(** X19.  [ApiDestinationPipeTarget.send] never skips or reorders: the
    requests it makes are the requests of the first [k] events of the
    batch, in order.  When it returns, [k] is the size of the batch; when it
    raises after the destination is resolved, the last request made is the
    one that raised, and no later event is tried.  When resolving the
    destination raises, no request is made. *)
Theorem send_makes_a_prefix (self : ApiDestinationPipeTarget) (events : list json) :
  (forall e, prepare self = Raise e -> send self events = (Raise e, [], []))
  /\ (forall method endpoint hd,
        prepare self = Return (method, endpoint, hd) ->
        let requests := map (request_for method endpoint hd) events in
        exists k, (k <= length events)%nat
          /\ (send self events).1.2 = take k requests
          /\ ((send self events).1.1 = Return tt -> k = length events)
          /\ (forall e, (send self events).1.1 = Raise e ->
                exists j rq, k = S j /\ requests !! j = Some rq
                  /\ requests_request (take j requests) rq = Raise e)).
Proof.
  split.
  - intros e He. unfold send. rewrite He. reflexivity.
  - intros method endpoint hd Hp. unfold send. rewrite Hp.
    exact (send_events_prefix method endpoint hd events [] []).
Qed.

End ApiSendFacts.

Section QueueSendFacts.
Import QueueTargets.
Context `{PyLib} `{Clients}.

Lemma sqs_send_events_prefix queue_url params events calls :
  let messages := map (message_for queue_url params) events in
  let r := sqs_send_events queue_url (JObj params) events calls in
  exists k, (k <= length events)%nat
    /\ r.2 = calls ++ take k messages
    /\ (r.1 = Return tt -> k = length events)
    /\ (forall e, r.1 = Raise e ->
          exists j m, k = S j /\ messages !! j = Some m
            /\ send_message (calls ++ take j messages) m = Raise e).
Proof.
  revert calls. induction events as [|event events IH]; intros calls.
  - exists 0%nat. cbn. rewrite app_nil_r. repeat split; try lia; discriminate.
  - cbn zeta. cbn [sqs_send_events map].
    destruct (send_message calls (message_for queue_url params event))
      as [e|[]] eqn:Hr.
    + exists 1%nat. cbn [fst snd length take]. repeat split; try lia; try discriminate.
      intros e' [= <-]. exists 0%nat, (message_for queue_url params event).
      cbn [take]. rewrite app_nil_r. repeat split. exact Hr.
    + destruct (IH (calls ++ [message_for queue_url params event]))
        as (k & Hk & Hsent & Hret & Hraise).
      exists (S k). cbn [length take]. split; [lia|]. split.
      { rewrite Hsent, <- app_assoc. reflexivity. }
      split; [intros Hok; rewrite (Hret Hok); reflexivity|].
      intros e He. destruct (Hraise e He) as (j & m & -> & Hj & Hreq).
      exists (S j), m. cbn [take lookup]. repeat split; [exact Hj|].
      rewrite <- app_assoc in Hreq. exact Hreq.
Qed.

(** X20.  [SqsPipeTarget.send], once the client and the queue URL are there.
    With [SqsQueueParameters] absent or a dict, the [send_message] calls are
    those of the first [k] events in order, each with the serialised event
    as body and with [MessageGroupId] and [MessageDeduplicationId] only when
    the parameter is there and true; [k] is the size of the batch when the
    call returns, and a call that raises is the last one made.  With
    [SqsQueueParameters] of another type an empty batch returns and any
    other batch raises [AttributeError] before the first call. *)
Theorem sqs_send_makes_a_prefix (self : QueueTarget) (events : list json)
    queue_url :
  get_internal_client (target_arn self) (role_arn self) = Return tt ->
  sqs_queue_url_for_arn (target_arn self) = Return queue_url ->
  (forall params,
     default (JObj []) (dict_get "SqsQueueParameters" (target_parameters self))
       = JObj params ->
     let messages := map (message_for queue_url params) events in
     exists k, (k <= length events)%nat
       /\ (sqs_send self events).2 = take k messages
       /\ ((sqs_send self events).1 = Return tt -> k = length events)
       /\ (forall e, (sqs_send self events).1 = Raise e ->
             exists j m, k = S j /\ messages !! j = Some m
               /\ send_message (take j messages) m = Raise e))
  /\ (forall v,
        dict_get "SqsQueueParameters" (target_parameters self) = Some v ->
        (forall params, v <> JObj params) ->
        sqs_send self events
        = (match events with [] => Return tt | _ => Raise (no_get v) end, [])).
Proof.
  intros Hc Hu. split.
  - intros params Hp. unfold sqs_send. rewrite Hc, Hu, Hp.
    exact (sqs_send_events_prefix queue_url params events []).
  - intros v Hv Hnd. unfold sqs_send. rewrite Hc, Hu, Hv. cbn [from_option id].
    destruct events as [|event events]; [reflexivity|].
    cbn [sqs_send_events]. destruct v; try reflexivity. exfalso. eapply Hnd; reflexivity.
Qed.

Lemma kinesis_send_events_prefix stream_name partition_key events calls :
  let records := map (record_for stream_name partition_key) events in
  let r := kinesis_send_events stream_name partition_key events calls in
  exists k, (k <= length events)%nat
    /\ r.2 = calls ++ take k records
    /\ (r.1 = Return tt -> k = length events)
    /\ (forall e, r.1 = Raise e ->
          exists j m, k = S j /\ records !! j = Some m
            /\ put_record (calls ++ take j records) m = Raise e).
Proof.
  revert calls. induction events as [|event events IH]; intros calls.
  - exists 0%nat. cbn. rewrite app_nil_r. repeat split; try lia; discriminate.
  - cbn zeta. cbn [kinesis_send_events map].
    destruct (put_record calls (record_for stream_name partition_key event))
      as [e|[]] eqn:Hr.
    + exists 1%nat. cbn [fst snd length take]. repeat split; try lia; try discriminate.
      intros e' [= <-]. exists 0%nat, (record_for stream_name partition_key event).
      cbn [take]. rewrite app_nil_r. repeat split. exact Hr.
    + destruct (IH (calls ++ [record_for stream_name partition_key event]))
        as (k & Hk & Hsent & Hret & Hraise).
      exists (S k). cbn [length take]. split; [lia|]. split.
      { rewrite Hsent, <- app_assoc. reflexivity. }
      split; [intros Hok; rewrite (Hret Hok); reflexivity|].
      intros e He. destruct (Hraise e He) as (j & m & -> & Hj & Hreq).
      exists (S j), m. cbn [take lookup]. repeat split; [exact Hj|].
      rewrite <- app_assoc in Hreq. exact Hreq.
Qed.

(** X21.  [KinesisPipeTarget.send], once the client is there.  The stream is
    named by what follows the last slash of the target ARN; the partition
    key is [PartitionKey] of [KinesisStreamParameters], ["default"] when the
    key or the group is missing; the [put_record] calls are those of the
    first [k] events in order, all of them when the call returns, and a call
    that raises is the last one made.  A group that is no dict raises
    [AttributeError] before any call, for an empty batch too. *)
Theorem kinesis_send_makes_a_prefix (self : QueueTarget) (events : list json) :
  get_internal_client (target_arn self) (role_arn self) = Return tt ->
  (forall params,
     default (JObj []) (dict_get "KinesisStreamParameters" (target_parameters self))
       = JObj params ->
     let records :=
       map (record_for (List.last (Str.split "/" (target_arn self)) "")
                       (default (JStr "default") (dict_get "PartitionKey" params)))
           events in
     exists k, (k <= length events)%nat
       /\ (kinesis_send self events).2 = take k records
       /\ ((kinesis_send self events).1 = Return tt -> k = length events)
       /\ (forall e, (kinesis_send self events).1 = Raise e ->
             exists j m, k = S j /\ records !! j = Some m
               /\ put_record (take j records) m = Raise e))
  /\ (forall v,
        dict_get "KinesisStreamParameters" (target_parameters self) = Some v ->
        (forall params, v <> JObj params) ->
        kinesis_send self events = (Raise (no_get v), [])).
Proof.
  intros Hc. split.
  - intros params Hp. unfold kinesis_send. rewrite Hc, Hp.
    exact (kinesis_send_events_prefix _ _ events []).
  - intros v Hv Hnd. unfold kinesis_send. rewrite Hc, Hv. cbn [from_option id].
    destruct v; try reflexivity. exfalso. eapply Hnd; reflexivity.
Qed.

End QueueSendFacts.


(** ** The factories *)




Section FactoryFacts.
Import PollerFactory.

Lemma dict_contains_get k (d : dict) :
  dict_contains k d = true <-> is_Some (dict_get k d).
Proof.
  unfold dict_contains. destruct (dict_get k d); split; intros Hx;
    try reflexivity; try discriminate; eauto. destruct Hx. discriminate.
Qed.

Lemma setdefault_get k v (d : dict) :
  dict_get k (setdefault k v d) = Some (default v (dict_get k d)).
Proof.
  unfold setdefault, dict_contains.
  destruct (dict_get k d) eqn:E; [exact E|]. apply dict_get_set_eq.
Qed.

Lemma setdefault_get_ne k k' v (d : dict) :
  k <> k' -> dict_get k' (setdefault k v d) = dict_get k' d.
Proof.
  intros Hne. unfold setdefault. destruct (dict_contains k d); [reflexivity|].
  apply dict_get_set_ne. exact Hne.
Qed.

Lemma setdefault_present k v (d : dict) :
  dict_contains k d = true -> setdefault k v d = d.
Proof. intros Hd. unfold setdefault. rewrite Hd. reflexivity. Qed.

Lemma dict_contains_set k v (d : dict) : dict_contains k (dict_set k v d) = true.
Proof. unfold dict_contains. rewrite dict_get_set_eq. reflexivity. Qed.

Lemma dict_contains_set_ne k k' v (d : dict) :
  k <> k' -> dict_contains k' (dict_set k v d) = dict_contains k' d.
Proof. intros Hne. unfold dict_contains. rewrite dict_get_set_ne by exact Hne. reflexivity. Qed.

Lemma dict_set_set k v v' (d : dict) :
  dict_set k v (dict_set k v' d) = dict_set k v d.
Proof.
  induction d as [|[k0 v0] d IH]; cbn.
  - rewrite String.eqb_refl. reflexivity.
  - destruct (String.eqb k k0) eqn:E; cbn; rewrite E; [reflexivity|].
    rewrite IH. reflexivity.
Qed.

(** The defaults of a stream group, in full. *)
Lemma stream_defaults_spec group (sp sp' : dict) :
  stream_defaults group sp = Return sp' ->
  let g := match dict_get group sp with Some (JObj g) => g | _ => [] end in
  exists g',
    dict_get group sp' = Some (JObj g')
    /\ dict_get "StartingPosition" g'
       = Some (default (JStr "TRIM_HORIZON") (dict_get "StartingPosition" g))
    /\ dict_get "BatchSize" g'
       = Some (default (JInt 100) (dict_get "BatchSize" g))
    /\ (forall k, k <> "StartingPosition" -> k <> "BatchSize" ->
          dict_get k g' = dict_get k g)
    /\ (forall k, k <> group -> dict_get k sp' = dict_get k sp)
    /\ stream_defaults group sp' = Return sp'.
Proof.
  unfold stream_defaults.
  set (sp0 := if dict_contains group sp then sp else dict_set group (JObj []) sp).
  assert (Hget : dict_get group sp0
                 = Some (default (JObj []) (dict_get group sp))).
  { subst sp0. unfold dict_contains. destruct (dict_get group sp) eqn:E;
      [exact E|apply dict_get_set_eq]. }
  assert (Hother : forall k, k <> group -> dict_get k sp0 = dict_get k sp).
  { intros k Hk. subst sp0. destruct (dict_contains group sp); [reflexivity|].
    apply dict_get_set_ne. congruence. }
  rewrite Hget. cbn [from_option id].
  destruct (default (JObj []) (dict_get group sp)) as [| | | | | |g0] eqn:Hg0;
    try discriminate.
  intros [= <-]. cbn zeta.
  assert (Hgg : match dict_get group sp with Some (JObj g) => g | _ => [] end = g0).
  { destruct (dict_get group sp) as [v|]; cbn in Hg0; [subst v|];
      congruence. }
  rewrite Hgg.
  eexists. split; [apply dict_get_set_eq|]. split; [|split; [|split; [|split]]].
  - rewrite setdefault_get_ne by discriminate. apply setdefault_get.
  - rewrite setdefault_get, setdefault_get_ne by discriminate. reflexivity.
  - intros k H1 H2. rewrite !setdefault_get_ne by congruence. reflexivity.
  - intros k Hk. rewrite dict_get_set_ne by congruence. apply Hother, Hk.
  - rewrite dict_contains_set, dict_get_set_eq. cbn [from_option id].
    rewrite dict_set_set. do 3 f_equal.
    rewrite (setdefault_present "StartingPosition").
    + apply setdefault_present. apply dict_contains_get.
      rewrite setdefault_get. eauto.
    + apply dict_contains_get. rewrite setdefault_get_ne by discriminate.
      rewrite setdefault_get. eauto.
Qed.

(** X22.  The parameters [_create_poller] builds a stream poller with.  For
    the services [kinesis] and [dynamodb], when it returns: the stream group
    holds [StartingPosition] and [BatchSize], with the value the pipe gave
    or, when it gave none, [TRIM_HORIZON] and 100; every other member of the
    group and every other group is as it was; and the result is stable, a
    second pass changes nothing.  For [sqs] the group [SqsQueueParameters]
    is there afterwards and nothing else changes.  Any other service raises
    [ValueError]. *)
Theorem create_poller_parameters (service : string) (sp : dict) :
  (forall group cls,
     (service = "kinesis" /\ group = "KinesisStreamParameters" /\ cls = KinesisPoller)
     \/ (service = "dynamodb" /\ group = "DynamoDBStreamParameters"
         /\ cls = DynamoDBPoller) ->
     forall cls' sp', _create_poller service sp = Return (cls', sp') ->
     let g := match dict_get group sp with Some (JObj g) => g | _ => [] end in
     cls' = cls
     /\ exists g',
          dict_get group sp' = Some (JObj g')
          /\ dict_get "StartingPosition" g'
             = Some (default (JStr "TRIM_HORIZON") (dict_get "StartingPosition" g))
          /\ dict_get "BatchSize" g'
             = Some (default (JInt 100) (dict_get "BatchSize" g))
          /\ (forall k, k <> "StartingPosition" -> k <> "BatchSize" ->
                dict_get k g' = dict_get k g)
          /\ (forall k, k <> group -> dict_get k sp' = dict_get k sp)
          /\ _create_poller service sp' = Return (cls', sp'))
  /\ (service = "sqs" ->
      exists sp', _create_poller service sp = Return (SqsPoller, sp')
        /\ dict_contains "SqsQueueParameters" sp' = true
        /\ (forall k, k <> "SqsQueueParameters" -> dict_get k sp' = dict_get k sp)
        /\ (dict_contains "SqsQueueParameters" sp = true -> sp' = sp))
  /\ (service <> "sqs" -> service <> "kinesis" -> service <> "dynamodb" ->
      _create_poller service sp
      = Raise (Exn (OtherException "ValueError")
                   ("Unsupported source service: " +:+ service) None)).
Proof.
  split; [|split].
  - intros group cls Hsvc cls' sp'.
    destruct Hsvc as [(-> & -> & ->)|(-> & -> & ->)]; unfold _create_poller;
      cbn [String.eqb Ascii.eqb Bool.eqb andb]; cbn.
    all: match goal with |- context [stream_defaults ?g ?d] =>
           destruct (stream_defaults g d) as [e|sp1] eqn:Hsd end;
         [discriminate|]; intros [= <- <-];
         destruct (stream_defaults_spec _ _ _ Hsd)
           as (g' & H1 & H2 & H3 & H4 & H5 & H6);
         split; [reflexivity|]; exists g'; repeat split; try assumption;
         rewrite H6; reflexivity.
  - intros ->. unfold _create_poller. cbn [String.eqb Ascii.eqb Bool.eqb andb]. cbn.
    eexists. split; [reflexivity|].
    destruct (dict_contains "SqsQueueParameters" sp) eqn:Hc.
    + split; [exact Hc|]. split; reflexivity.
    + split; [apply dict_contains_set|]. split; [|discriminate].
      intros k Hk. apply dict_get_set_ne. congruence.
  - intros H1 H2 H3. unfold _create_poller.
    destruct (String.eqb_spec service "sqs"); [contradiction|].
    destruct (String.eqb_spec service "kinesis"); [contradiction|].
    destruct (String.eqb_spec service "dynamodb"); [contradiction|]. reflexivity.
Qed.

End FactoryFacts.

Section TargetFactoryFacts.
Import TargetFactory.

Lemma service_of_arn a b service tail :
  Str.no_char ":" a = true -> Str.no_char ":" b = true ->
  Str.no_char ":" service = true ->
  _service_from_arn (a +:+ ":" +:+ b +:+ ":" +:+ service) = service
  /\ _service_from_arn (a +:+ ":" +:+ b +:+ ":" +:+ service +:+ ":" +:+ tail)
     = service.
Proof.
  intros Ha Hb Hs. unfold _service_from_arn. split.
  - change (a +:+ ":" +:+ b +:+ ":" +:+ service)
      with (a +:+ String ":" (b +:+ String ":" service)).
    rewrite !split_head, split_plain by assumption. reflexivity.
  - change (a +:+ ":" +:+ b +:+ ":" +:+ service +:+ ":" +:+ tail)
      with (a +:+ String ":" (b +:+ String ":" (service +:+ String ":" tail))).
    rewrite !split_head by assumption.
    pose proof (split_nonempty ":" tail). reflexivity.
Qed.

(** X23.  [PipeTargetFactory.create] goes by the third field of the ARN.
    For an ARN [a:b:service] or [a:b:service:tail], whose first three fields
    hold no colon, it builds an SQS target for [sqs], a Kinesis target for
    [kinesis], an API destination target for [events] when the ARN contains
    [api-destination], and raises [ValidationException] for anything else;
    an ARN of fewer than three fields is always refused. *)
Theorem target_by_service a b service (arn : string) :
  Str.no_char ":" a = true -> Str.no_char ":" b = true ->
  Str.no_char ":" service = true ->
  (arn = a +:+ ":" +:+ b +:+ ":" +:+ service
   \/ exists tail, arn = a +:+ ":" +:+ b +:+ ":" +:+ service +:+ ":" +:+ tail) ->
  let refused x :=
    Raise (Provider.ValidationException ("Unsupported target: " +:+ x)) in
  (service = "sqs" -> create arn = Return SqsPipeTarget)
  /\ (service = "kinesis" -> create arn = Return KinesisPipeTarget)
  /\ (service = "events" ->
      create arn = if contains "api-destination" arn
                   then Return ApiDestinationPipeTarget else refused arn)
  /\ (service <> "sqs" -> service <> "kinesis" -> service <> "events" ->
      create arn = refused arn)
  /\ create a = refused a
  /\ create (a +:+ ":" +:+ b) = refused (a +:+ ":" +:+ b).
Proof.
  intros Ha Hb Hs Harn refused.
  assert (Hsvc : _service_from_arn arn = service).
  { destruct (service_of_arn a b service "" Ha Hb Hs) as [H1 _].
    destruct Harn as [->|[tail ->]]; [exact H1|].
    apply (service_of_arn a b service tail Ha Hb Hs). }
  assert (Hshort : _service_from_arn a = "" /\ _service_from_arn (a +:+ ":" +:+ b) = "").
  { unfold _service_from_arn. split.
    - rewrite split_plain by exact Ha. reflexivity.
    - change (a +:+ ":" +:+ b) with (a +:+ String ":" b).
      rewrite split_head, split_plain by assumption. reflexivity. }
  unfold create. rewrite Hsvc. destruct Hshort as [-> ->].
  repeat split.
  - intros ->. reflexivity.
  - intros ->. reflexivity.
  - intros ->. reflexivity.
  - intros H1 H2 H3.
    destruct (String.eqb_spec service "sqs"); [contradiction|].
    destruct (String.eqb_spec service "kinesis"); [contradiction|].
    destruct (String.eqb_spec service "events"); [contradiction|]. reflexivity.
Qed.

End TargetFactoryFacts.


Section SubFacts.
Import Placeholder.

Lemma sub_cons f c s :
  sub f (String c s) =
    if Ascii.eqb c "<" then
      match find_close s with
      | Some (k, r) => f k +:+ sub f r
      | None => String c (sub f s)
      end
    else String c (sub f s).
Proof.
  unfold sub. rewrite finditer_cons. destruct (Ascii.eqb c "<").
  - destruct (find_close s) as [[k r]|]; rewrite map_cons, concat_empty_cons;
      reflexivity.
  - rewrite map_cons, concat_empty_cons. reflexivity.
Qed.

(** X24.  Substitution works from left to right and piece by piece: text
    without ['<'] is copied; a placeholder, whose key holds neither ['>'] nor
    a newline, is replaced by the text of its key; a ['<'] that no ['>']
    closes on its line stays as it is; and in each case the rest of the
    template is substituted on its own. *)
Theorem sub_piecewise (f : string -> string) :
  (forall text rest, Str.no_char "<" text = true ->
     sub f (text +:+ rest) = text +:+ sub f rest)
  /\ (forall key rest,
        Str.no_char ">" key = true -> Str.no_char Str.newline key = true ->
        sub f ("<" +:+ key +:+ ">" +:+ rest) = f key +:+ sub f rest)
  /\ (forall rest, find_close rest = None ->
        sub f ("<" +:+ rest) = "<" +:+ sub f rest)
  /\ sub f "" = "".
Proof.
  split; [|split; [|split]].
  - intros text rest Hno. induction text as [|c text IH]; [reflexivity|].
    cbn [Str.no_char] in Hno. apply andb_true_iff in Hno as [Hc Hno].
    apply negb_true_iff in Hc. rewrite !append_cons, sub_cons, Hc, IH by exact Hno.
    reflexivity.
  - intros key rest Hgt Hnl.
    change ("<" +:+ key +:+ ">" +:+ rest) with (String "<" (key +:+ ">" +:+ rest)).
    rewrite sub_cons. cbn [Ascii.eqb Bool.eqb].
    rewrite find_close_plain by assumption. reflexivity.
  - intros rest Hnone. change ("<" +:+ rest) with (String "<" rest).
    rewrite sub_cons. cbn [Ascii.eqb Bool.eqb]. rewrite Hnone. reflexivity.
  - reflexivity.
Qed.

End SubFacts.

(** * Further examples *)

Section FurtherExamples.
Import Sample Provider.

(** The worker is registered before it is started: when the thread cannot
    be started, the pipe is [CREATE_FAILED] and its worker is in the index
    all the same, until the pipe is stopped, updated or deleted. *)
Example start_raises_worker_kept :
  let s :=
    (@create_pipe no_threads context 100 (create_request None) initial_state).2 in
  current_state <$> pipes s !! "p" = Some PipeState.CREATE_FAILED
  /\ state_reason <$> pipes s !! "p" = Some (Some "Failed to start pipe worker")
  /\ is_Some (_pipe_workers s !! "p")
  /\ _pipe_workers (@delete_pipe 200 "p" s).2 !! "p" = None.
Proof.
  vm_compute. repeat split; try reflexivity. eexists. reflexivity.
Qed.

(** The defaults of the stream poller are written into the source
    parameters of the pipe itself, and [describe_pipe] shows them. *)
Example stream_defaults_described :
  d_SourceParameters
  <$> match describe_pipe "k"
              (create_pipe context 100 stream_request initial_state).2 with
      | Return d => Some d
      | Raise _ => None
      end
  = Some (Some (JObj [("KinesisStreamParameters",
                       JObj [("BatchSize", JInt 10);
                             ("StartingPosition", JStr "TRIM_HORIZON")])])).
Proof. vm_compute. reflexivity. Qed.

Lemma pipe_name_of_pipe_arn_witness :
  _pipe_name_from_arn (_pipe_arn "p" "000000000000" "us-east-1") = "p"
  /\ _pipe_name_from_arn
       (_pipe_arn ("p" +:+ String Str.newline "") "000000000000" "us-east-1")
     = "p".
Proof.
  split.
  - apply (pipe_name_of_pipe_arn "p" "000000000000" "us-east-1");
      try discriminate; reflexivity.
  - apply (pipe_name_of_pipe_arn ("p" +:+ String Str.newline "")
             "000000000000" "us-east-1") with (rest := "");
      try discriminate; reflexivity.
Defined.

Lemma validate_pipe_name_accepts_witness :
  _validate_pipe_name "my-pipe_1.a" = Return tt
  /\ _validate_pipe_name ("p" +:+ String Str.newline "") = Return tt.
Proof.
  split.
  - apply validate_pipe_name_accepts. split; [vm_compute; lia|].
    exists "my-pipe_1.a". split; [discriminate|]. split; [reflexivity|].
    left. reflexivity.
  - apply validate_pipe_name_accepts. split; [vm_compute; lia|].
    exists "p". split; [discriminate|]. split; [reflexivity|].
    right. reflexivity.
Defined.

Lemma failed_call_changes_nothing_witness :
  (call context (CreatePipe 200 (create_request None)) (one_pipe None)).2
  = one_pipe None.
Proof.
  apply (failed_call_changes_nothing context
           (CreatePipe 200 (create_request None)) (one_pipe None)
           (ConflictException "Pipe p already exists." "p" "pipe")).
  vm_compute. reflexivity.
Defined.

Lemma call_keeps_other_pipes_witness :
  pipes (call context (CreatePipe 200 (create_named "q")) (one_pipe None)).2 !! "p"
  = pipes (one_pipe None) !! "p".
Proof.
  apply (call_keeps_other_pipes context (CreatePipe 200 (create_named "q"))).
  discriminate.
Defined.

Lemma call_keeps_origin_witness :
  exists p',
    pipes (call context (StopPipe 200 "p") (one_pipe None)).2 !! "p" = Some p'
    /\ same_origin (pipe_p RequestedPipeState.RUNNING PipeState.STARTING) p'.
Proof.
  eexists. split; [vm_compute; reflexivity|].
  apply (call_keeps_origin context (StopPipe 200 "p") (one_pipe None) "p");
    vm_compute; reflexivity.
Defined.


Lemma delete_pipe_frees_name_witness :
  describe_pipe "p" (delete_pipe 200 "p" (one_pipe None)).2
  = Raise (NotFoundException "Pipe p does not exist.")
  /\ _pipe_workers (delete_pipe 200 "p" (one_pipe None)).2 !! "p" = None.
Proof.
  destruct (delete_pipe 200 "p" (one_pipe None)) as [res s'] eqn:Hdel.
  assert (Hres : exists r, res = Return r).
  { vm_compute in Hdel. injection Hdel as <- _. eexists. reflexivity. }
  destruct Hres as [r ->].
  destruct (delete_pipe_frees_name context 200 "p" (one_pipe None) r s'
              (one_pipe_reachable None) Hdel) as (Hgone & Hworker & _).
  split; assumption.
Defined.

(** The pipe [p] is created, and the thread of its worker enters the loop. *)
Lemma create_pipe_then_describe_witness :
  exists d,
    describe_pipe "p" (thread_writes [("p", PipeState.RUNNING)] (one_pipe None))
    = Return d
    /\ d_Arn d = arn_p /\ d_CreationTime d = 100%Z
    /\ d_DesiredState d = RequestedPipeState.RUNNING
    /\ d_CurrentState d = PipeState.RUNNING.
Proof.
  destruct (create_pipe context 100 (create_request None) initial_state)
    as [res s'] eqn:Hc.
  assert (Hres : exists r, res = Return (PipeResp r) /\ s' = one_pipe None).
  { unfold one_pipe. rewrite Hc. vm_compute in Hc. injection Hc as <- _.
    eexists. split; reflexivity. }
  destruct Hres as (r & -> & ->).
  destruct (create_pipe_then_describe context 100 (create_request None)
              initial_state _ _ [("p", PipeState.RUNNING)] Hc)
    as (p & d & _ & Hd & Harn & _ & _ & _ & _ & Hct & _ & Hds & Hcur & _).
  exists d. repeat split; assumption.
Defined.

Lemma tag_resource_then_describe_witness :
  exists d m,
    describe_pipe "p" (tag_resource arn_p {["team" := "data"]} (one_pipe None)).2
    = Return d
    /\ d_Tags d = Some m /\ m !! "team" = Some "data".
Proof.
  destruct (tag_resource arn_p {["team" := "data"]} (one_pipe None))
    as [res s'] eqn:Ht.
  assert (Hres : res = Return TagResourceResponse).
  { vm_compute in Ht. injection Ht as <- _. reflexivity. }
  subst res.
  destruct (tag_resource_then_describe _ _ _ _ _ Ht)
    as (d0 & d & m & _ & Hd & Hm & Hnew & _).
  exists d, m. split; [exact Hd|]. split; [exact Hm|].
  apply Hnew. reflexivity.
Defined.

Lemma untag_resource_then_describe_witness :
  let tagged := (tag_resource arn_p {["team" := "data"]} (one_pipe None)).2 in
  exists d,
    describe_pipe "p" (untag_resource arn_p ["team"] tagged).2 = Return d
    /\ default ∅ (d_Tags d) !! "team" = None.
Proof.
  intros tagged.
  destruct (untag_resource arn_p ["team"] tagged) as [res s'] eqn:Hu.
  assert (Hres : res = Return UntagResourceResponse).
  { vm_compute in Hu. injection Hu as <- _. reflexivity. }
  subst res.
  destruct (untag_resource_then_describe _ _ _ _ _ Hu)
    as (d0 & d & _ & Hd & Hgone & _).
  exists d. split; [exact Hd|]. apply Hgone. left.
Defined.

Lemma start_stop_alternate_witness :
  let started := (start_pipe 200 "p" (one_pipe (Some RequestedPipeState.STOPPED))).2 in
  is_conflict (start_pipe 300 "p" started).1 = true
  /\ exists r', (stop_pipe 300 "p" started).1 = Return r'.
Proof.
  intros started. subst started.
  destruct (start_pipe 200 "p" (one_pipe (Some RequestedPipeState.STOPPED)))
    as [res s'] eqn:Hs.
  assert (Hres : exists r, res = Return r).
  { vm_compute in Hs. injection Hs as <- _. eexists. reflexivity. }
  destruct Hres as [r ->].
  destruct (start_stop_alternate 200 "p"
              (one_pipe (Some RequestedPipeState.STOPPED)) r s' 300) as [Hstart _].
  exact (Hstart Hs).
Defined.

(** The pipe [p] is updated, and the thread of the worker it had leaves its
    loop afterwards. *)
Lemma update_pipe_then_describe_witness :
  exists d,
    describe_pipe "p"
      (thread_writes [("p", PipeState.STOPPED)]
         (update_pipe 200 update_request (one_pipe None)).2) = Return d
    /\ d_RoleArn d = "arn:aws:iam::000000000000:role/other"
    /\ d_LastModifiedTime d = 200%Z
    /\ d_CurrentState d = PipeState.STOPPED.
Proof.
  destruct (update_pipe 200 update_request (one_pipe None)) as [res s'] eqn:Hu.
  assert (Hres : exists r, res = Return r).
  { vm_compute in Hu. injection Hu as <- _. eexists. reflexivity. }
  destruct Hres as [r ->].
  destruct (update_pipe_then_describe _ _ _ _ _ [("p", PipeState.STOPPED)] Hu)
    as (p & d0 & d & _ & Hd0 & Hd & Hrole & _ & _ & _ & Htime & Hcur & _).
  exists d. split; [exact Hd|]. split; [exact Hrole|]. split; [exact Htime|].
  rewrite Hcur. reflexivity.
Defined.

Lemma reported_arn_resolves_witness :
  exists d, describe_pipe "p" (one_pipe None) = Return d
    /\ _pipe_name_from_arn (d_Arn d) = "p".
Proof.
  destruct (reported_arn_resolves context (one_pipe None) "p"
              (pipe_p RequestedPipeState.RUNNING PipeState.STARTING))
    as (d & Hd & _ & Hback & _);
    try (apply one_pipe_reachable); try discriminate;
    try (vm_compute; reflexivity).
  exists d. split; assumption.
Defined.

End FurtherExamples.

Section FurtherDataExamples.
Import Sample.

Lemma extract_jsonpath_steps_witness :
  let event : dict := [("body", JObj [("k", JInt 1)])] in
  _extract_jsonpath event "$.body.k" = JInt 1
  /\ _extract_jsonpath event "$.missing" = JStr ""
  /\ _extract_jsonpath event "body" = JStr "".
Proof.
  intros event. destruct (extract_jsonpath_steps event) as (Hbad & Hone & Hstep).
  split; [|split].
  - change "$.body.k" with ("$." +:+ "body" +:+ "." +:+ "k").
    rewrite Hstep by reflexivity.
    change ("$." +:+ "body") with ("$." +:+ "body").
    rewrite Hone by reflexivity. reflexivity.
  - change "$.missing" with ("$." +:+ "missing").
    rewrite Hone by reflexivity. reflexivity.
  - apply Hbad. reflexivity.
Defined.

Lemma transform_plain_template_witness :
  transform (transformer "hello world ") "2026-01-01T00:00:00+00:00"
            [("a", JStr "b")]
  = Return (JStr "hello world ")
  /\ transform (transformer payload_text) "2026-01-01T00:00:00+00:00"
               [("a", JStr "b")]
     = Return payload
  /\ transform (transformer "{not json") "2026-01-01T00:00:00+00:00"
               [("a", JStr "b")]
     = Return (JStr "{not json")
  /\ transform (transformer long_number_text) "2026-01-01T00:00:00+00:00"
               [("a", JStr "b")]
     = Raise digit_limit.
Proof.
  split; [|split; [|split]];
    rewrite transform_plain_template by (vm_compute; reflexivity);
    vm_compute; reflexivity.
Defined.

Lemma build_replacements_table_witness :
  _build_replacements (transformer "<$.x> and <$.y>") "2026-01-01T00:00:00+00:00"
                      [("x", JInt 42)] !! "$.x" = Some (JInt 42)
  /\ _build_replacements (transformer "<$.x> and <$.y>") "2026-01-01T00:00:00+00:00"
                         [("x", JInt 42)] !! "$.z" = None.
Proof.
  destruct (build_replacements_table (transformer "<$.x> and <$.y>")
              "2026-01-01T00:00:00+00:00" [("x", JInt 42)])
    as (_ & _ & _ & _ & _ & _ & _ & Hpath).
  split; rewrite Hpath by reflexivity; vm_compute; reflexivity.
Defined.

Lemma decode_data_field_copy_witness :
  let r := _decode_data_field 1%positive {[1%positive := record]} in
  r.1 <> 1%positive
  /\ exists event', r.2 !! r.1 = Some event'
       /\ dict_get "eventID" event' = Some (JStr "shardId-000000000000:1").
Proof.
  intros r.
  destruct (decode_data_field_copy {[1%positive := record]} 1%positive record)
    as (Hnew & _ & event' & Hev & _ & Hother); [reflexivity|reflexivity|].
  split; [exact Hnew|]. exists event'. split; [exact Hev|].
  rewrite Hother by discriminate. reflexivity.
Defined.

Lemma process_events_batch_passthrough_witness :
  (process_events_batch
     {| target := accepting_target; input_transformer := None |}
     (fun _ => "2026-01-01T00:00:00+00:00")
     [1%positive] {[1%positive := [("body", JStr "hello")]]}).2
  = {[1%positive := [("body", JStr "hello")]]}.
Proof.
  apply process_events_batch_passthrough; [reflexivity|].
  intros l [<-|[]]. reflexivity.
Defined.

Lemma sub_piecewise_witness :
  Placeholder.sub (fun key => "[" +:+ key +:+ "]") "Hi <name>, 1 < 2"
  = "Hi [name], 1 < 2".
Proof.
  destruct (sub_piecewise (fun key => "[" +:+ key +:+ "]"))
    as (Htext & Hkey & Hopen & _).
  change "Hi <name>, 1 < 2"
    with ("Hi " +:+ ("<" +:+ "name" +:+ ">" +:+ (", 1 " +:+ ("<" +:+ " 2")))).
  rewrite Htext by reflexivity. rewrite Hkey by reflexivity.
  rewrite Htext by reflexivity. rewrite Hopen by reflexivity.
  reflexivity.
Defined.

End FurtherDataExamples.

Section FurtherTargetExamples.
Import Sample.

Lemma send_makes_a_prefix_witness :
  let svc := endpoint_answering 503 "Service Unavailable" in
  let requests :=
    map (ApiDestination.request_for "POST" (Some "https://example.com/hook")
           ApiDestination.default_headers) [payload; JObj []] in
  exists k, (k <= 2)%nat
    /\ (@ApiDestination.send lib svc api_target [payload; JObj []]).1.2
       = take k requests.
Proof.
  intros svc requests.
  destruct (@send_makes_a_prefix lib svc api_target [payload; JObj []])
    as [_ Hprefix].
  destruct (Hprefix "POST" (Some "https://example.com/hook")
              ApiDestination.default_headers eq_refl)
    as (k & Hk & Hsent & _).
  exists k. split; assumption.
Defined.

Lemma sqs_send_makes_a_prefix_witness :
  let messages :=
    map (QueueTargets.message_for
           "http://sqs.us-east-1.localhost:4566/000000000000/dst"
           [("MessageGroupId", JStr "g1")]) [payload; JObj []] in
  exists k, (k <= 2)%nat
    /\ (QueueTargets.sqs_send sqs_target [payload; JObj []]).2 = take k messages
    /\ ((QueueTargets.sqs_send sqs_target [payload; JObj []]).1 = Return tt -> k = 2%nat).
Proof.
  intros messages.
  destruct (@sqs_send_makes_a_prefix lib clients sqs_target [payload; JObj []]
              "http://sqs.us-east-1.localhost:4566/000000000000/dst"
              eq_refl eq_refl) as [Hdict _].
  destruct (Hdict [("MessageGroupId", JStr "g1")] eq_refl)
    as (k & Hk & Hcalls & Hall & _).
  exists k. repeat split; assumption.
Defined.

Lemma kinesis_send_makes_a_prefix_witness :
  let records :=
    map (QueueTargets.record_for "dst" (JStr "p1")) [payload; JObj []] in
  exists k, (k <= 2)%nat
    /\ (QueueTargets.kinesis_send kinesis_target [payload; JObj []]).2
       = take k records.
Proof.
  intros records.
  destruct (@kinesis_send_makes_a_prefix lib clients kinesis_target
              [payload; JObj []] eq_refl)
    as [Hdict _].
  destruct (Hdict [("PartitionKey", JStr "p1")] eq_refl)
    as (k & Hk & Hcalls & _).
  exists k. split; assumption.
Defined.

Lemma create_poller_parameters_witness :
  let sp : dict := [("KinesisStreamParameters", JObj [("BatchSize", JInt 10)])] in
  let sp' : dict :=
    [("KinesisStreamParameters",
      JObj [("BatchSize", JInt 10); ("StartingPosition", JStr "TRIM_HORIZON")])] in
  PollerFactory._create_poller "kinesis" sp = Return (PollerFactory.KinesisPoller, sp')
  /\ PollerFactory._create_poller "kinesis" sp'
     = Return (PollerFactory.KinesisPoller, sp').
Proof.
  intros sp sp'.
  assert (Hrun : PollerFactory._create_poller "kinesis" sp
                 = Return (PollerFactory.KinesisPoller, sp')) by reflexivity.
  split; [exact Hrun|].
  destruct (create_poller_parameters "kinesis" sp) as [Hstream _].
  destruct (Hstream "KinesisStreamParameters" PollerFactory.KinesisPoller
              (or_introl (conj eq_refl (conj eq_refl eq_refl)))
              PollerFactory.KinesisPoller sp' Hrun)
    as (_ & g' & _ & _ & _ & _ & _ & Hstable).
  exact Hstable.
Defined.

Lemma target_by_service_witness :
  TargetFactory.create "arn:aws:sqs:us-east-1:000000000000:dst"
  = Return TargetFactory.SqsPipeTarget.
Proof.
  destruct (target_by_service "arn" "aws" "sqs"
              "arn:aws:sqs:us-east-1:000000000000:dst" eq_refl eq_refl eq_refl
              (or_intror (ex_intro _ "us-east-1:000000000000:dst" eq_refl)))
    as (Hsqs & _).
  exact (Hsqs eq_refl).
Defined.

End FurtherTargetExamples.
